(** * The asset daemon cursor of [dagster/_core/definitions/asset_daemon_cursor.py]

    A shallow embedding of [AssetDaemonAssetCursor] (the per-asset view) and of
    [AssetDaemonCursor] (the state persisted between ticks): [with_updates],
    [serialize], [from_serialized] and [get_evaluation_id_from_serialized].

    Conventions.
    - A Python call either returns or raises: [result A].
    - The wire string of a cursor is represented by the JSON document it
      denotes ([json]); [json.loads] and [json.dumps] are inverse to each other
      on such documents and are not modelled further.
    - Dictionaries and sets keyed by asset keys are [gmap] and [gset]: the
      cursor is compared field by field, whatever the insertion order.  A JSON
      object keeps its items in document order (an association list), because
      the loops of [from_serialized] run over [.items()].
    - The asset key, partitions, evaluation and datetime classes live in other
      modules of the framework; they are interfaces here. *)

From stdpp Require Import gmap strings list fin_maps sorting.
From Stdlib Require Import ZArith PrimFloat Ascii.
From Stdlib Require Uint63.

Set Warnings "-register-all".

(** ** Exceptions and results *)

Inductive exn :=
| CheckError (msg : string)   (* dagster._check.CheckError *)
| KeyError (key : string)
| TypeError
| ValueError
| AttributeError.

Inductive result (A : Type) :=
| Ok (a : A)
| Raise (e : exn).
Arguments Ok {A} a.
Arguments Raise {A} e.

#[global] Instance result_ret : MRet result := @Ok.
#[global] Instance result_bind : MBind result := λ A B f m,
  match m with
  | Ok a => f a
  | Raise e => Raise e
  end.

Definition returns {A} (m : result A) : Prop := ∃ a, m = Ok a.
Definition raises {A} (m : result A) : Prop := ∃ e, m = Raise e.

Module check.
(** [check.invariant(condition, desc)] *)
Definition invariant (condition : bool) (desc : string) : result unit :=
  if condition then Ok tt else Raise (CheckError desc).
End check.

(** ** JSON documents and the Python operations applied to them *)

Inductive json :=
| JNull
| JBool (b : bool)
| JInt (z : Z)
| JFloat (f : float)
| JStr (s : string)
| JList (l : list json)
| JDict (d : list (string * json)).

Module py.
(** Lookup of a key among the items of a dict. *)
Fixpoint dict_lookup (key : string) (d : list (string * json)) : option json :=
  match d with
  | [] => None
  | (k, v) :: rest => if String.eqb k key then Some v else dict_lookup key rest
  end.

(** [d[key] = v]: an existing key keeps its place, a new one goes last. *)
Fixpoint setitem (d : list (string * json)) (key : string) (v : json)
  : list (string * json) :=
  match d with
  | [] => [(key, v)]
  | (k, w) :: rest =>
      if String.eqb k key then (k, v) :: rest else (k, w) :: setitem rest key v
  end.

(** [{k: v for (k, v) in kvs}] *)
Definition dict_of (kvs : list (string * json)) : list (string * json) :=
  foldl (λ d kv, setitem d kv.1 kv.2) [] kvs.

(** [data[key]] for a string [key]. *)
Definition getitem (data : json) (key : string) : result json :=
  match data with
  | JDict d =>
      match dict_lookup key d with
      | Some v => Ok v
      | None => Raise (KeyError key)
      end
  | _ => Raise TypeError
  end.

(** [data.get(key, default)] *)
Definition get (data : json) (key : string) (default : json) : result json :=
  match data with
  | JDict d => Ok (from_option id default (dict_lookup key d))
  | _ => Raise AttributeError
  end.

(** [v.items()] *)
Definition items (v : json) : result (list (string * json)) :=
  match v with
  | JDict d => Ok d
  | _ => Raise AttributeError
  end.

(** [for x in v]: the elements of a list, the keys of a dict, the
    one-character strings of a string. *)
Definition iter (v : json) : result (list json) :=
  match v with
  | JList l => Ok l
  | JDict d => Ok (JStr <$> d.*1)
  | JStr s => Ok ((λ c, JStr (String c EmptyString)) <$> String.list_ascii_of_string s)
  | _ => Raise TypeError
  end.

(** Truth value of an [Optional[int]]. *)
Definition truthy (x : option Z) : bool :=
  match x with
  | Some z => negb (z =? 0)%Z
  | None => false
  end.

(** [x or y] *)
Definition or_ (x y : option Z) : option Z := if truthy x then x else y.

(** [x >= y]; [None] is not ordered. *)
Definition ge (x y : option Z) : result bool :=
  match x, y with
  | Some a, Some b => Ok (b <=? a)%Z
  | _, _ => Raise TypeError
  end.

Definition of_optional_int (x : option Z) : json :=
  match x with Some z => JInt z | None => JNull end.

Definition of_optional_float (x : option float) : json :=
  match x with Some f => JFloat f | None => JNull end.
End py.

(** ** Interfaces of the collaborating classes *)

Module datetime.
Class Interface := {
  t : Type;
  (** [a < b] *)
  lt : t → t → bool;
  (** [a.timestamp()]; it raises for a datetime that the platform cannot
      express as a POSIX timestamp *)
  timestamp : t → result float }.
End datetime.

Module AssetKey.
Class Interface := {
  t : Type;
  #[global] eq_dec :: EqDecision t;
  #[global] countable :: Countable t;
  to_user_string : t → string;
  from_user_string : string → t }.

(** [AssetKey.from_user_string(x)] on a value read from a document: the
    method splits a string and fails on anything else. *)
Definition from_user_value {AK : Interface} (x : json) : result t :=
  match x with
  | JStr s => Ok (from_user_string s)
  | _ => Raise AttributeError
  end.
End AssetKey.

Module TimeWindow.
Section TimeWindow.
Context {DT : datetime.Interface}.

Record t := mk { start : datetime.t; end_ : datetime.t }.
End TimeWindow.
End TimeWindow.

Module Partitions.
(** [PartitionsDefinition] and [PartitionsSubset], with
    [TimeWindowPartitionsDefinition] and [TimeWindowPartitionsSubset] seen
    through their [isinstance] tests. *)
Class Interface {DT : datetime.Interface} := {
  PartitionsDefinition : Type;
  PartitionsSubset : Type;
  (** [partitions_def.deserialize_subset(serialized)]; [None] when it raises *)
  deserialize_subset : PartitionsDefinition → json → option PartitionsSubset;
  (** [partitions_def.empty_subset()] *)
  empty_subset : PartitionsDefinition → PartitionsSubset;
  (** [subset.serialize()] *)
  serialize : PartitionsSubset → string;
  (** [subset.included_time_windows] when
      [isinstance(subset, TimeWindowPartitionsSubset)] *)
  included_time_windows : PartitionsSubset → option (list TimeWindow.t);
  (** [partitions_def.start] when
      [isinstance(partitions_def, TimeWindowPartitionsDefinition)] *)
  start : PartitionsDefinition → option datetime.t;
  (** [subset.get_partition_keys()] *)
  get_partition_keys : PartitionsSubset → gset string;
  (** [partitions_def.subset_with_partition_keys(keys)] *)
  subset_with_partition_keys : PartitionsDefinition → gset string → PartitionsSubset;
  (** [a | b] *)
  union : PartitionsSubset → PartitionsSubset → PartitionsSubset }.
End Partitions.
Export Partitions (PartitionsDefinition, PartitionsSubset).

Module AutoMaterializeAssetEvaluation.
Class Interface {AK : AssetKey.Interface} := {
  t : Type;
  asset_key : t → AssetKey.t;
  is_empty : t → bool;
  (** [serialize_value(evaluation)] *)
  serialize_value : t → string;
  (** [check.inst(deserialize_value(x), AutoMaterializeAssetEvaluation)];
      [None] when either call raises *)
  deserialize_value : json → option t }.
End AutoMaterializeAssetEvaluation.

Module AssetGraph.
Section AssetGraph.
Context {DT : datetime.Interface} {AK : AssetKey.Interface}
        {PT : Partitions.Interface}.

(** The three lookups the cursor makes in the asset graph. *)
Record t := mk {
  root_asset_keys : gset AssetKey.t;
  materializable_asset_keys : gset AssetKey.t;
  get_partitions_def : AssetKey.t → option PartitionsDefinition }.
End AssetGraph.
End AssetGraph.

(** [AssetKeyPartitionKey(asset_key, partition_key)] *)
Abbreviation AssetKeyPartitionKey := (AssetKey.t * option string)%type.

Module AssetSubset.
Section AssetSubset.
Context {DT : datetime.Interface} {AK : AssetKey.Interface}
        {PT : Partitions.Interface}.

(** Modelled from the spec: the class [AssetSubset] (asset_subset.py) is not
    among the sources.  "A tagged union over an asset key plus either (a) a
    boolean flag for unpartitioned assets, or (b) a PartitionSubset for
    partitioned assets." *)
Inductive value_t :=
| BoolValue (b : bool)
| SubsetValue (s : PartitionsSubset).

Record t := mk { asset_key : AssetKey.t; value : value_t }.

Definition is_partitioned (self : t) : bool :=
  match value self with
  | BoolValue _ => false
  | SubsetValue _ => true
  end.

Definition bool_value (self : t) : result bool :=
  match value self with
  | BoolValue b => Ok b
  | SubsetValue _ => Raise (CheckError "not a bool")
  end.

Definition subset_value (self : t) : result PartitionsSubset :=
  match value self with
  | SubsetValue s => Ok s
  | BoolValue _ => Raise (CheckError "not a PartitionsSubset")
  end.

(** Modelled from the spec: [AssetSubset.empty(asset_key, partitions_def)],
    "defaulting to an empty subset". *)
Definition empty (asset_key : AssetKey.t)
    (partitions_def : option PartitionsDefinition) : t :=
  match partitions_def with
  | None => mk asset_key (BoolValue false)
  | Some d => mk asset_key (SubsetValue (Partitions.empty_subset d))
  end.

(** Modelled from the spec: the (asset, partition) pairs of a subset. *)
Definition asset_partitions (self : t) : gset AssetKeyPartitionKey :=
  match value self with
  | BoolValue true => {[ (asset_key self, None) ]}
  | BoolValue false => ∅
  | SubsetValue s =>
      set_map (λ pk, (asset_key self, Some pk)) (Partitions.get_partition_keys s)
  end.

(** Modelled from the spec: "derivable from a raw set of (asset, partition)
    pairs". *)
Definition from_asset_partitions_set (asset_key : AssetKey.t)
    (partitions_def : option PartitionsDefinition)
    (asset_partitions_set : gset AssetKeyPartitionKey) : t :=
  match partitions_def with
  | None => mk asset_key (BoolValue (negb (bool_decide (asset_partitions_set = ∅))))
  | Some d =>
      mk asset_key
         (SubsetValue
            (Partitions.subset_with_partition_keys d
               (list_to_set (omap snd (elements asset_partitions_set)))))
  end.

(** Modelled from the spec: "union (|) which must be type-homogeneous (both
    boolean or both partition-subset for the same asset)". *)
Definition or_ (self other : t) : result t :=
  _ ← check.invariant (bool_decide (asset_key self = asset_key other))
        "asset keys differ";
  match value self, value other with
  | BoolValue a, BoolValue b => Ok (mk (asset_key self) (BoolValue (a || b)))
  | SubsetValue a, SubsetValue b =>
      Ok (mk (asset_key self) (SubsetValue (Partitions.union a b)))
  | _, _ => Raise (CheckError "subsets of different kinds")
  end.
End AssetSubset.
End AssetSubset.

(** ** The per-asset cursor *)

Module AssetDaemonAssetCursor.
Section AssetDaemonAssetCursor.
Context {DT : datetime.Interface} {AK : AssetKey.Interface}
        {PT : Partitions.Interface}
        {EV : AutoMaterializeAssetEvaluation.Interface}.

Record t := mk {
  asset_key : AssetKey.t;
  latest_storage_id : option Z;
  latest_evaluation_timestamp : option float;
  latest_evaluation : option AutoMaterializeAssetEvaluation.t;
  materialized_requested_or_discarded_subset : AssetSubset.t }.

(** [self._replace(materialized_requested_or_discarded_subset=subset)] *)
Definition replace_subset (self : t) (subset : AssetSubset.t) : t :=
  mk (asset_key self) (latest_storage_id self) (latest_evaluation_timestamp self)
     (latest_evaluation self) subset.

Definition with_updates (self : t) (asset_graph : AssetGraph.t)
    (newly_materialized_subset : AssetSubset.t)
    (requested_asset_partitions discarded_asset_partitions : gset AssetKeyPartitionKey)
  : result t :=
  if bool_decide (asset_key self ∉ AssetGraph.root_asset_keys asset_graph)
  then Ok self
  else
    let newly_materialized_requested_or_discarded_asset_partitions :=
      AssetSubset.asset_partitions newly_materialized_subset
      ∪ requested_asset_partitions
      ∪ discarded_asset_partitions in
    let newly_materialized_requested_or_discarded_subset :=
      AssetSubset.from_asset_partitions_set
        (asset_key self)
        (AssetGraph.get_partitions_def asset_graph (asset_key self))
        newly_materialized_requested_or_discarded_asset_partitions in
    subset ← AssetSubset.or_ (materialized_requested_or_discarded_subset self)
               newly_materialized_requested_or_discarded_subset;
    Ok (replace_subset self subset).
End AssetDaemonAssetCursor.
End AssetDaemonAssetCursor.

(** ** The cursor saved between ticks *)

Module AssetDaemonCursor.
Section AssetDaemonCursor.
Context {DT : datetime.Interface} {AK : AssetKey.Interface}
        {PT : Partitions.Interface}
        {EV : AutoMaterializeAssetEvaluation.Interface}.

(** A named tuple does not enforce its annotations: the cursor that
    [from_serialized] builds holds whatever scalars the document had.  The
    record is therefore parametric in the types of its scalar fields: [t] has
    the annotated ones, [decoded] has JSON values. *)
Record cursor {OptionalInt Int Float OptionalFloat : Type} := mk {
  latest_storage_id : OptionalInt;
  handled_root_asset_keys : gset AssetKey.t;
  handled_root_partitions_by_asset_key : gmap AssetKey.t PartitionsSubset;
  evaluation_id : Int;
  last_observe_request_timestamp_by_asset_key : gmap AssetKey.t Float;
  latest_evaluation_by_asset_key : gmap AssetKey.t AutoMaterializeAssetEvaluation.t;
  latest_evaluation_timestamp : OptionalFloat }.
Arguments cursor : clear implicits.
Arguments mk {_ _ _ _}.

Definition t : Type := cursor (option Z) Z float (option float).
Definition decoded : Type := cursor json json json json.

(** The values of a well-typed cursor, as Python values. *)
Definition untyped (self : t) : decoded :=
  mk (py.of_optional_int (latest_storage_id self))
     (handled_root_asset_keys self)
     (handled_root_partitions_by_asset_key self)
     (JInt (evaluation_id self))
     (JFloat <$> last_observe_request_timestamp_by_asset_key self)
     (latest_evaluation_by_asset_key self)
     (py.of_optional_float (latest_evaluation_timestamp self)).

Definition was_previously_handled (self : t) (asset_key : AssetKey.t) : bool :=
  bool_decide (asset_key ∈ handled_root_asset_keys self).

Definition asset_cursor_for_key (self : t) (asset_key : AssetKey.t)
    (partitions_def : option PartitionsDefinition) : AssetDaemonAssetCursor.t :=
  let handled_subset :=
    match handled_root_partitions_by_asset_key self !! asset_key with
    | Some handled_partitions_subset =>
        AssetSubset.mk asset_key (AssetSubset.SubsetValue handled_partitions_subset)
    | None =>
        if bool_decide (asset_key ∈ handled_root_asset_keys self)
        then AssetSubset.mk asset_key (AssetSubset.BoolValue true)
        else AssetSubset.empty asset_key partitions_def
    end in
  AssetDaemonAssetCursor.mk asset_key (latest_storage_id self)
    (latest_evaluation_timestamp self)
    (latest_evaluation_by_asset_key self !! asset_key)
    handled_subset.

(** [{cursor.asset_key for cursor in asset_cursors
      if not subset.is_partitioned and subset.bool_value}] *)
Fixpoint collect_handled_root_asset_keys
    (asset_cursors : list AssetDaemonAssetCursor.t) (acc : gset AssetKey.t)
  : result (gset AssetKey.t) :=
  match asset_cursors with
  | [] => Ok acc
  | cursor :: rest =>
      let subset := AssetDaemonAssetCursor.materialized_requested_or_discarded_subset cursor in
      keep ← (if negb (AssetSubset.is_partitioned subset)
              then AssetSubset.bool_value subset
              else Ok false);
      collect_handled_root_asset_keys rest
        (if keep : bool then {[ AssetDaemonAssetCursor.asset_key cursor ]} ∪ acc else acc)
  end.

(** [{cursor.asset_key: subset.subset_value for cursor in asset_cursors
      if subset.is_partitioned}] *)
Fixpoint collect_handled_root_partitions
    (asset_cursors : list AssetDaemonAssetCursor.t)
    (acc : gmap AssetKey.t PartitionsSubset)
  : result (gmap AssetKey.t PartitionsSubset) :=
  match asset_cursors with
  | [] => Ok acc
  | cursor :: rest =>
      let subset := AssetDaemonAssetCursor.materialized_requested_or_discarded_subset cursor in
      if AssetSubset.is_partitioned subset
      then
        subset_value ← AssetSubset.subset_value subset;
        collect_handled_root_partitions rest
          (<[ AssetDaemonAssetCursor.asset_key cursor := subset_value ]> acc)
      else collect_handled_root_partitions rest acc
  end.

Definition with_updates (self : t)
    (latest_storage_id : option Z)
    (evaluation_id : Z)
    (newly_observe_requested_asset_keys : list AssetKey.t)
    (observe_request_timestamp : float)
    (evaluations : list AutoMaterializeAssetEvaluation.t)
    (evaluation_time : datetime.t)
    (asset_cursors : list AssetDaemonAssetCursor.t)
  : result t :=
  let result_last_observe_request_timestamp_by_asset_key :=
    foldl (λ d asset_key, <[ asset_key := observe_request_timestamp ]> d)
      (AssetDaemonCursor.last_observe_request_timestamp_by_asset_key self)
      newly_observe_requested_asset_keys in
  _ ← (if py.truthy latest_storage_id
          && py.truthy (AssetDaemonCursor.latest_storage_id self)
       then
         condition ← py.ge latest_storage_id (AssetDaemonCursor.latest_storage_id self);
         check.invariant condition
           "Latest storage ID should be >= previous latest storage ID"
       else Ok tt);
  let latest_evaluation_by_asset_key :=
    foldl (λ d evaluation,
             <[ AutoMaterializeAssetEvaluation.asset_key evaluation := evaluation ]> d)
      ∅
      (* don't bother storing empty evaluations on the cursor *)
      (filter (λ evaluation, ¬ AutoMaterializeAssetEvaluation.is_empty evaluation)
         evaluations) in
  handled_root_asset_keys ← collect_handled_root_asset_keys asset_cursors ∅;
  handled_root_partitions_by_asset_key ← collect_handled_root_partitions asset_cursors ∅;
  latest_evaluation_timestamp ← datetime.timestamp evaluation_time;
  Ok (mk (py.or_ latest_storage_id (AssetDaemonCursor.latest_storage_id self))
         handled_root_asset_keys
         handled_root_partitions_by_asset_key
         evaluation_id
         result_last_observe_request_timestamp_by_asset_key
         latest_evaluation_by_asset_key
         (Some latest_evaluation_timestamp)).

Definition empty : t := mk None ∅ ∅ 0%Z ∅ ∅ None.

(** The partitioned cursors of a list, each with its key and its subset:
    the items the dict comprehension of [with_updates] assigns, in order. *)
Definition partitioned_entries (asset_cursors : list AssetDaemonAssetCursor.t)
  : list (AssetKey.t * PartitionsSubset) :=
  omap (λ cursor,
          match AssetSubset.value
                  (AssetDaemonAssetCursor.materialized_requested_or_discarded_subset cursor)
          with
          | AssetSubset.SubsetValue subset =>
              Some (AssetDaemonAssetCursor.asset_key cursor, subset)
          | AssetSubset.BoolValue _ => None
          end) asset_cursors.

(** The seven values [from_serialized] reads off the document, in either
    wire format, before it rebuilds the cursor. *)
Record wire := mk_wire {
  w_latest_storage_id : json;
  serialized_handled_root_asset_keys : json;
  serialized_handled_root_partitions_by_asset_key : json;
  w_evaluation_id : json;
  serialized_last_observe_request_timestamp_by_asset_key : json;
  serialized_latest_evaluation_by_asset_key : json;
  w_latest_evaluation_timestamp : json }.

Definition read_wire (data : json) : result wire :=
  match data with
  | JList l => (* backcompat *)
      _ ← check.invariant (bool_decide (length l ∈ [3; 4])) "Invalid serialized cursor";
      match l with
      | latest_storage_id
          :: serialized_handled_root_asset_keys
          :: serialized_handled_root_partitions_by_asset_key
          :: rest =>
          (* [data[3] if len(data) == 4 else 0] *)
          let evaluation_id := match rest with [x] => x | _ => JInt 0 end in
          Ok (mk_wire latest_storage_id
                serialized_handled_root_asset_keys
                serialized_handled_root_partitions_by_asset_key
                evaluation_id (JDict []) (JDict []) (JInt 0))
      | _ => Raise ValueError
      end
  | _ =>
      latest_storage_id ← py.getitem data "latest_storage_id";
      serialized_handled_root_asset_keys ← py.getitem data "handled_root_asset_keys";
      serialized_handled_root_partitions_by_asset_key ←
        py.getitem data "handled_root_partitions_by_asset_key";
      evaluation_id ← py.getitem data "evaluation_id";
      serialized_last_observe_request_timestamp_by_asset_key ←
        py.get data "last_observe_request_timestamp_by_asset_key" (JDict []);
      serialized_latest_evaluation_by_asset_key ←
        py.get data "latest_evaluation_by_asset_key" (JDict []);
      latest_evaluation_timestamp ← py.get data "latest_evaluation_timestamp" (JInt 0);
      Ok (mk_wire latest_storage_id
            serialized_handled_root_asset_keys
            serialized_handled_root_partitions_by_asset_key
            evaluation_id
            serialized_last_observe_request_timestamp_by_asset_key
            serialized_latest_evaluation_by_asset_key
            latest_evaluation_timestamp)
  end.

(** The [try] block of [from_serialized]: a subset that cannot be read, or
    that has a time window before the start of the partitions definition,
    is replaced by the empty subset. *)
Definition deserialize_subset_or_empty (partitions_def : PartitionsDefinition)
    (serialized_subset : json) : PartitionsSubset :=
  match Partitions.deserialize_subset partitions_def serialized_subset with
  | Some subset =>
      match Partitions.included_time_windows subset, Partitions.start partitions_def with
      | Some time_windows, Some start =>
          if existsb (λ time_window, datetime.lt (TimeWindow.start time_window) start)
               time_windows
          then Partitions.empty_subset partitions_def
          else subset
      | _, _ => subset
      end
  | None => Partitions.empty_subset partitions_def
  end.

(** One turn of the loop over [serialized_handled_root_partitions_by_asset_key]. *)
Definition handled_root_partitions_step (asset_graph : AssetGraph.t)
    (handled_root_partitions_by_asset_key : gmap AssetKey.t PartitionsSubset)
    (item : string * json) : gmap AssetKey.t PartitionsSubset :=
  let key := AssetKey.from_user_string item.1 in
  if bool_decide (key ∉ AssetGraph.materializable_asset_keys asset_graph)
  then handled_root_partitions_by_asset_key
  else
    match AssetGraph.get_partitions_def asset_graph key with
    | None => handled_root_partitions_by_asset_key
    | Some partitions_def =>
        <[ key := deserialize_subset_or_empty partitions_def item.2 ]>
          handled_root_partitions_by_asset_key
    end.

(** The loop over [serialized_latest_evaluation_by_asset_key]. *)
Fixpoint read_evaluations (items : list (string * json))
    (latest_evaluation_by_asset_key : gmap AssetKey.t AutoMaterializeAssetEvaluation.t)
  : result (gmap AssetKey.t AutoMaterializeAssetEvaluation.t) :=
  match items with
  | [] => Ok latest_evaluation_by_asset_key
  | (key_str, serialized_evaluation) :: rest =>
      match AutoMaterializeAssetEvaluation.deserialize_value serialized_evaluation with
      | Some evaluation =>
          read_evaluations rest
            (<[ AssetKey.from_user_string key_str := evaluation ]>
               latest_evaluation_by_asset_key)
      | None => Raise (CheckError "not an AutoMaterializeAssetEvaluation")
      end
  end.

(** [{AssetKey.from_user_string(key_str) for key_str in key_strs}] *)
Fixpoint read_asset_keys (key_strs : list json) (acc : gset AssetKey.t)
  : result (gset AssetKey.t) :=
  match key_strs with
  | [] => Ok acc
  | key_str :: rest =>
      key ← AssetKey.from_user_value key_str;
      read_asset_keys rest ({[ key ]} ∪ acc)
  end.

(** The rest of [from_serialized], once the document has been read. *)
Definition build (w : wire) (asset_graph : AssetGraph.t) : result decoded :=
  items ← py.items (serialized_handled_root_partitions_by_asset_key w);
  let handled_root_partitions_by_asset_key :=
    foldl (handled_root_partitions_step asset_graph) ∅ items in
  items ← py.items (serialized_latest_evaluation_by_asset_key w);
  latest_evaluation_by_asset_key ← read_evaluations items ∅;
  key_strs ← py.iter (serialized_handled_root_asset_keys w);
  handled_root_asset_keys ← read_asset_keys key_strs ∅;
  items ← py.items (serialized_last_observe_request_timestamp_by_asset_key w);
  Ok (mk (w_latest_storage_id w)
         handled_root_asset_keys
         handled_root_partitions_by_asset_key
         (w_evaluation_id w)
         (foldl (λ d item, <[ AssetKey.from_user_string item.1 := item.2 ]> d) ∅ items)
         latest_evaluation_by_asset_key
         (w_latest_evaluation_timestamp w)).

Definition from_serialized (cursor : json) (asset_graph : AssetGraph.t)
  : result decoded :=
  w ← read_wire cursor;
  build w asset_graph.

Definition get_evaluation_id_from_serialized (cursor : json) : result json :=
  match cursor with
  | JList l => (* backcompat *)
      _ ← check.invariant (bool_decide (length l ∈ [3; 4])) "Invalid serialized cursor";
      (* [data[3] if len(data) == 4 else None] *)
      Ok (match l with [_; _; _; x] => x | _ => JNull end)
  | _ => py.getitem cursor "evaluation_id"
  end.

Definition serialize (self : t) : json :=
  let serializable_handled_root_partitions_by_asset_key :=
    py.dict_of
      ((λ kv, (AssetKey.to_user_string kv.1, JStr (Partitions.serialize kv.2)))
         <$> map_to_list (handled_root_partitions_by_asset_key self)) in
  JDict [
    ("latest_storage_id", py.of_optional_int (latest_storage_id self));
    ("handled_root_asset_keys",
       JList ((λ key, JStr (AssetKey.to_user_string key))
                <$> elements (handled_root_asset_keys self)));
    ("handled_root_partitions_by_asset_key",
       JDict serializable_handled_root_partitions_by_asset_key);
    ("evaluation_id", JInt (evaluation_id self));
    ("last_observe_request_timestamp_by_asset_key",
       JDict (py.dict_of
                ((λ kv, (AssetKey.to_user_string kv.1, JFloat kv.2))
                   <$> map_to_list (last_observe_request_timestamp_by_asset_key self))));
    ("latest_evaluation_by_asset_key",
       JDict (py.dict_of
                ((λ kv, (AssetKey.to_user_string kv.1,
                         JStr (AutoMaterializeAssetEvaluation.serialize_value kv.2)))
                   <$> map_to_list (latest_evaluation_by_asset_key self))));
    ("latest_evaluation_timestamp",
       py.of_optional_float (latest_evaluation_timestamp self)) ].
End AssetDaemonCursor.
Arguments cursor {DT AK PT EV} OptionalInt Int Float OptionalFloat.
Arguments mk {DT AK PT EV} {OptionalInt Int Float OptionalFloat}.
End AssetDaemonCursor.

(** ** The legacy wrapper *)

Module LegacyAssetDaemonCursorWrapper.
(** Wrapper class for the legacy cursor, which is stored as a compressed
    string.  [serialized_cursor] is a wire string, hence a document. *)
Record t := mk { serialized_cursor : json }.

(** [base64], [zlib], the utf-8 codec of [str] and [bytes], and the serdes
    layer applied to the wrapper. *)
Class Codec := {
  bytes : Type;
  (** [s.encode("utf-8")] *)
  encode : string → bytes;
  (** [b.decode("utf-8")] *)
  decode : bytes → result string;
  (** [zlib.compress(b)] *)
  compress : bytes → bytes;
  (** [zlib.decompress(b)] *)
  decompress : bytes → result bytes;
  (** [base64.b64encode(b)] *)
  b64encode : bytes → bytes;
  (** [base64.b64decode(s)] *)
  b64decode : string → result bytes;
  (** [serialize_value(wrapper)] *)
  serialize_value : t → string;
  (** [deserialize_value(s, LegacyAssetDaemonCursorWrapper)] *)
  deserialize_value : string → result t }.

Section LegacyAssetDaemonCursorWrapper.
Context {DT : datetime.Interface} {AK : AssetKey.Interface}
        {PT : Partitions.Interface}
        {EV : AutoMaterializeAssetEvaluation.Interface}
        {CD : Codec}.

Definition get_asset_daemon_cursor (self : t) (asset_graph : AssetGraph.t)
  : result AssetDaemonCursor.decoded :=
  AssetDaemonCursor.from_serialized (serialized_cursor self) asset_graph.

Definition from_compressed (compressed : string) : result t :=
  decoded_bytes ← b64decode compressed;
  decompressed_bytes ← decompress decoded_bytes;
  decoded_str ← decode decompressed_bytes;
  deserialize_value decoded_str.

Definition to_compressed (self : t) : result string :=
  let serialized_bytes := encode (serialize_value self) in
  let compressed_bytes := compress serialized_bytes in
  let encoded_str := b64encode compressed_bytes in
  decode encoded_str.
End LegacyAssetDaemonCursorWrapper.

(** What the libraries promise: each decoder undoes its encoder. *)
Record codec_round_trip {CD : Codec} : Prop := {
  decode_encode : ∀ s, decode (encode s) = Ok s;
  decompress_compress : ∀ b, decompress (compress b) = Ok b;
  b64encode_ascii : ∀ b, returns (decode (b64encode b));
  b64decode_b64encode : ∀ b s, decode (b64encode b) = Ok s → b64decode s = Ok b }.
End LegacyAssetDaemonCursorWrapper.

(** ** Sequences of updates *)

Module Tick.
Section Tick.
Context {DT : datetime.Interface} {AK : AssetKey.Interface}
        {PT : Partitions.Interface}
        {EV : AutoMaterializeAssetEvaluation.Interface}.

(** The arguments of one call of [AssetDaemonCursor.with_updates]. *)
Record t := mk {
  latest_storage_id : option Z;
  evaluation_id : Z;
  newly_observe_requested_asset_keys : list AssetKey.t;
  observe_request_timestamp : float;
  evaluations : list AutoMaterializeAssetEvaluation.t;
  evaluation_time : datetime.t;
  asset_cursors : list AssetDaemonAssetCursor.t }.

Definition apply (cursor : AssetDaemonCursor.t) (tick : t)
  : result AssetDaemonCursor.t :=
  AssetDaemonCursor.with_updates cursor
    (latest_storage_id tick) (evaluation_id tick)
    (newly_observe_requested_asset_keys tick) (observe_request_timestamp tick)
    (evaluations tick) (evaluation_time tick) (asset_cursors tick).

(** The cursors returned by a sequence of calls, each applied to the cursor
    the previous one returned; the first failure ends the sequence. *)
Fixpoint run (cursor : AssetDaemonCursor.t) (ticks : list t)
  : result (list AssetDaemonCursor.t) :=
  match ticks with
  | [] => Ok []
  | tick :: rest =>
      next ← apply cursor tick;
      later ← run next rest;
      Ok (next :: later)
  end.

(** Every call passes a storage id that is neither [None] nor [0]. *)
Definition storage_ids (ticks : list t) (ids : list Z) : Prop :=
  latest_storage_id <$> ticks = Some <$> ids ∧ Forall (λ n, n ≠ 0%Z) ids.
End Tick.
End Tick.

(** ** Contracts of the collaborators, and valid cursors *)

Section Contracts.
Context {DT : datetime.Interface} {AK : AssetKey.Interface}
        {PT : Partitions.Interface}
        {EV : AutoMaterializeAssetEvaluation.Interface}.

(** The string form of an asset key reads back as the key. *)
Definition asset_key_round_trip : Prop :=
  ∀ key : AssetKey.t, AssetKey.from_user_string (AssetKey.to_user_string key) = key.

(** Distinct strings denote distinct asset keys. *)
Definition asset_key_strings_distinct : Prop :=
  ∀ s1 s2 : string, AssetKey.from_user_string s1 = AssetKey.from_user_string s2 → s1 = s2.

(** A serialized evaluation reads back as the evaluation. *)
Definition evaluation_round_trip : Prop :=
  ∀ evaluation : AutoMaterializeAssetEvaluation.t,
    AutoMaterializeAssetEvaluation.deserialize_value
      (JStr (AutoMaterializeAssetEvaluation.serialize_value evaluation))
    = Some evaluation.

(** The asset keys a cursor holds, in any of its four collections, read back
    from their user strings. *)
Definition asset_keys_read_back (self : AssetDaemonCursor.t) : Prop :=
  ∀ key : AssetKey.t,
    key ∈ AssetDaemonCursor.handled_root_asset_keys self ∨
    is_Some (AssetDaemonCursor.handled_root_partitions_by_asset_key self !! key) ∨
    is_Some (AssetDaemonCursor.last_observe_request_timestamp_by_asset_key self !! key) ∨
    is_Some (AssetDaemonCursor.latest_evaluation_by_asset_key self !! key) →
    AssetKey.from_user_string (AssetKey.to_user_string key) = key.

(** The evaluations a cursor holds read back from their serialized values. *)
Definition evaluations_read_back (self : AssetDaemonCursor.t) : Prop :=
  ∀ key evaluation,
    AssetDaemonCursor.latest_evaluation_by_asset_key self !! key = Some evaluation →
    AutoMaterializeAssetEvaluation.deserialize_value
      (JStr (AutoMaterializeAssetEvaluation.serialize_value evaluation))
    = Some evaluation.

(** Every key of [handled_root_partitions_by_asset_key] is a materializable
    asset whose current partitions definition reads the serialized subset
    back. *)
Definition handled_partitions_readable (asset_graph : AssetGraph.t)
    (self : AssetDaemonCursor.t) : Prop :=
  ∀ key subset,
    AssetDaemonCursor.handled_root_partitions_by_asset_key self !! key = Some subset →
    key ∈ AssetGraph.materializable_asset_keys asset_graph ∧
    ∃ partitions_def,
      AssetGraph.get_partitions_def asset_graph key = Some partitions_def ∧
      Partitions.deserialize_subset partitions_def (JStr (Partitions.serialize subset))
      = Some subset.

(** Some included time window of [subset] starts before the start of
    [partitions_def], both being time-windowed. *)
Definition window_before_start (partitions_def : PartitionsDefinition)
    (subset : PartitionsSubset) : Prop :=
  ∃ time_windows start time_window,
    Partitions.included_time_windows subset = Some time_windows ∧
    Partitions.start partitions_def = Some start ∧
    time_window ∈ time_windows ∧
    datetime.lt (TimeWindow.start time_window) start = true.

(** No handled subset has a time window before the start of the partitions
    definition of its asset. *)
Definition handled_partitions_within_start (asset_graph : AssetGraph.t)
    (self : AssetDaemonCursor.t) : Prop :=
  ∀ key subset partitions_def,
    AssetDaemonCursor.handled_root_partitions_by_asset_key self !! key = Some subset →
    AssetGraph.get_partitions_def asset_graph key = Some partitions_def →
    ¬ window_before_start partitions_def subset.
(** The values read off a document, with an empty dictionary in place of
    [serialized_handled_root_partitions_by_asset_key]. *)
Definition without_handled_partitions (w : AssetDaemonCursor.wire) : AssetDaemonCursor.wire :=
  AssetDaemonCursor.mk_wire
    (AssetDaemonCursor.w_latest_storage_id w)
    (AssetDaemonCursor.serialized_handled_root_asset_keys w)
    (JDict [])
    (AssetDaemonCursor.w_evaluation_id w)
    (AssetDaemonCursor.serialized_last_observe_request_timestamp_by_asset_key w)
    (AssetDaemonCursor.serialized_latest_evaluation_by_asset_key w)
    (AssetDaemonCursor.w_latest_evaluation_timestamp w).

(** The subset read from [serialized] is not kept: it cannot be read, or it
    has a time window before the start of the partitions definition. *)
Definition subset_dropped (partitions_def : PartitionsDefinition) (serialized : json) : Prop :=
  Partitions.deserialize_subset partitions_def serialized = None ∨
  ∃ subset,
    Partitions.deserialize_subset partitions_def serialized = Some subset ∧
    window_before_start partitions_def subset.

(** What reading a serialized cursor back leaves of the handled subset of
    [key]: nothing when the asset is no longer materializable or no longer
    partitioned, else what the current partitions definition reads. *)
Definition handled_partitions_read_back (asset_graph : AssetGraph.t)
    (key : AssetKey.t) (subset : PartitionsSubset) : option PartitionsSubset :=
  if bool_decide (key ∈ AssetGraph.materializable_asset_keys asset_graph)
  then
    (λ partitions_def,
       AssetDaemonCursor.deserialize_subset_or_empty partitions_def
         (JStr (Partitions.serialize subset)))
      <$> AssetGraph.get_partitions_def asset_graph key
  else None.
End Contracts.

(** ** A small instance of the interfaces

    Asset keys are their user strings and instants are integers, of which
    the negative ones have no timestamp.  A daily
    subset is a string with one character per time window, which starts at the
    code of the character; a static subset is a string with one character per
    partition key. *)

Module Sample.
#[export] Instance instants : datetime.Interface := {|
  datetime.t := Z;
  datetime.lt := Z.ltb;
  datetime.timestamp := λ z,
    if (z <? 0)%Z then Raise ValueError else Ok (PrimFloat.of_uint63 (Uint63.of_Z z)) |}.

#[export] Instance asset_keys : AssetKey.Interface := {|
  AssetKey.t := string;
  AssetKey.to_user_string := id;
  AssetKey.from_user_string := id |}.

Inductive definition :=
| Daily (start : Z)
| Static (partition_keys : string).

Inductive subset :=
| Windows (starts : string)
| Keys (partition_keys : string).

Definition code (c : ascii) : Z := Z.of_nat (nat_of_ascii c).

(** The time window of one instant that starts at [start]. *)
Definition window (start : Z) : TimeWindow.t := TimeWindow.mk start (start + 1)%Z.

Definition chars (s : string) : list string :=
  (λ c, String c EmptyString) <$> String.list_ascii_of_string s.

Definition text (keys : gset string) : string :=
  foldr String.append EmptyString (elements keys).

Definition deserialize_subset (d : definition) (serialized : json) : option subset :=
  match d, serialized with
  | Daily _, JStr (String "W" starts) => Some (Windows starts)
  | Static allowed, JStr (String "K" keys) =>
      if forallb (λ c, existsb (Ascii.eqb c) (String.list_ascii_of_string allowed))
           (String.list_ascii_of_string keys)
      then Some (Keys keys)
      else None
  | _, _ => None
  end.

#[export] Instance partitions : Partitions.Interface := {|
  Partitions.PartitionsDefinition := definition;
  Partitions.PartitionsSubset := subset;
  Partitions.deserialize_subset := deserialize_subset;
  Partitions.empty_subset := λ d,
    match d with Daily _ => Windows EmptyString | Static _ => Keys EmptyString end;
  Partitions.serialize := λ s,
    match s with Windows w => String "W" w | Keys k => String "K" k end;
  Partitions.included_time_windows := λ s,
    match s with
    | Windows w =>
        Some ((λ c, window (code c)) <$> String.list_ascii_of_string w)
    | Keys _ => None
    end;
  Partitions.start := λ d,
    match d with Daily start => Some start | Static _ => None end;
  Partitions.get_partition_keys := λ s,
    match s with Windows w => list_to_set (chars w) | Keys k => list_to_set (chars k) end;
  Partitions.subset_with_partition_keys := λ d keys,
    match d with Daily _ => Windows (text keys) | Static _ => Keys (text keys) end;
  Partitions.union := λ a b,
    match a, b with
    | Windows x, Windows y => Windows (x +:+ y)
    | Keys x, Keys y => Keys (x +:+ y)
    | _, _ => a
    end |}.

(** An evaluation is the key of its asset and whether it is empty. *)
#[export] Instance evaluations : AutoMaterializeAssetEvaluation.Interface := {|
  AutoMaterializeAssetEvaluation.t := string * bool;
  AutoMaterializeAssetEvaluation.asset_key := fst;
  AutoMaterializeAssetEvaluation.is_empty := snd;
  AutoMaterializeAssetEvaluation.serialize_value := λ e,
    String (if e.2 then "E" else "N")%char e.1;
  AutoMaterializeAssetEvaluation.deserialize_value := λ x,
    match x with
    | JStr (String "E" key) => Some (key, true)
    | JStr (String "N" key) => Some (key, false)
    | _ => None
    end |}.

(** The evaluation of the asset [key], empty or not. *)
Definition evaluation (key : string) (empty : bool) : AutoMaterializeAssetEvaluation.t :=
  (key, empty).

(** A graph with an unpartitioned root ["a"], a daily root ["d"] whose
    partitions start at instant 100, and a downstream asset ["z"]. *)
Definition graph : AssetGraph.t :=
  AssetGraph.mk {[ "a"; "d" ]} {[ "a"; "d"; "z" ]}
    (λ key, if String.eqb key "d" then Some (Daily 100) else None).

(** A graph without assets. *)
Definition no_assets : AssetGraph.t := AssetGraph.mk ∅ ∅ (λ _, None).

(** A cursor whose latest storage id is [id]. *)
Definition at_storage_id (id : Z) : AssetDaemonCursor.t :=
  AssetDaemonCursor.mk (Some id) ∅ ∅ 1%Z ∅ ∅ None.

(** The handled state of an unpartitioned and of a partitioned asset. *)
Definition flag (b : bool) : AssetSubset.value_t := AssetSubset.BoolValue b.
Definition part (s : subset) : AssetSubset.value_t := AssetSubset.SubsetValue s.

(** The subset [value] of the asset [key], and its per-asset cursor. *)
Definition asset_subset (key : string) (value : AssetSubset.value_t) : AssetSubset.t :=
  AssetSubset.mk key value.

Definition asset_cursor (key : string) (value : AssetSubset.value_t)
  : AssetDaemonAssetCursor.t :=
  AssetDaemonAssetCursor.mk key None None None (asset_subset key value).

(** The partition [partition_key] of the asset [key]. *)
Definition asset_partition (key : string) (partition_key : option string)
  : AssetKeyPartitionKey :=
  (key, partition_key).

(** A tick that reports storage id [id] and nothing else. *)
Definition tick (id : Z) : Tick.t := Tick.mk (Some id) 2%Z [] 0%float [] 0%Z [].

(** A cursor that has handled the windows [starts] of the daily asset. *)
Definition handled_windows (starts : string) : AssetDaemonCursor.t :=
  AssetDaemonCursor.mk (Some 7%Z) {[ "a" ]} {[ "d" := Windows starts ]} 3%Z
    {[ "s" := 0.5%float ]} {[ "a" := ("a", false) ]} (Some 1.5%float).

(** A codec that writes nothing down: bytes are strings, compression and
    base64 are the identity, and a wrapper is written as the storage id of
    its legacy list of three elements, one character per unit. *)
Definition wrapper_text (wrapper : LegacyAssetDaemonCursorWrapper.t) : string :=
  match LegacyAssetDaemonCursorWrapper.serialized_cursor wrapper with
  | JList [JInt id; JList []; JDict []] =>
      String.string_of_list_ascii (replicate (Z.to_nat id) "i"%char)
  | _ => EmptyString
  end.

Definition wrapper_of_text (s : string) : LegacyAssetDaemonCursorWrapper.t :=
  LegacyAssetDaemonCursorWrapper.mk
    (JList [JInt (Z.of_nat (String.length s)); JList []; JDict []]).

#[export] Instance codec : LegacyAssetDaemonCursorWrapper.Codec := {|
  LegacyAssetDaemonCursorWrapper.bytes := string;
  LegacyAssetDaemonCursorWrapper.encode := id;
  LegacyAssetDaemonCursorWrapper.decode := Ok;
  LegacyAssetDaemonCursorWrapper.compress := id;
  LegacyAssetDaemonCursorWrapper.decompress := Ok;
  LegacyAssetDaemonCursorWrapper.b64encode := id;
  LegacyAssetDaemonCursorWrapper.b64decode := Ok;
  LegacyAssetDaemonCursorWrapper.serialize_value := wrapper_text;
  LegacyAssetDaemonCursorWrapper.deserialize_value := λ s, Ok (wrapper_of_text s) |}.
End Sample.
Import (hints) Sample.

(** * Properties *)

(** ** Results *)

Lemma bind_Ok {A B} (f : A → result B) (a : A) : (Ok a ≫= f) = f a.
Proof. reflexivity. Qed.

Lemma bind_Raise {A B} (f : A → result B) (e : exn) : (Raise e ≫= f) = Raise e.
Proof. reflexivity. Qed.

Lemma bind_Ok_inv {A B} (f : A → result B) (m : result A) (b : B) :
  (m ≫= f) = Ok b → ∃ a, m = Ok a ∧ f a = Ok b.
Proof. destruct m as [a|e]; [eauto | discriminate]. Qed.

Lemma invariant_Ok_inv (condition : bool) (desc : string) (u : unit) :
  check.invariant condition desc = Ok u → condition = true.
Proof. by destruct condition. Qed.

(** ** Dictionaries built by a loop of assignments *)

Section Assignments.
Context `{Countable K} {V X : Type}.
Implicit Types (key : X → K) (val : X → V) (d : gmap K V) (xs : list X).

(** After [for x in xs: d[key x] = val x], an entry is either an old one or
    was assigned by some [x]. *)
Lemma lookup_assignments_Some key val xs d k v :
  foldl (λ d x, <[ key x := val x ]> d) d xs !! k = Some v →
  d !! k = Some v ∨ ∃ x, x ∈ xs ∧ key x = k ∧ val x = v.
Proof.
  revert d. induction xs as [|x xs IH]; intros d; cbn; [by left|].
  intros [Hd | (y & ? & ? & ?)]%IH.
  - destruct (decide (key x = k)) as [<-|Hne].
    + rewrite lookup_insert_eq in Hd. right. exists x.
      split; [left | by inversion Hd].
    + rewrite lookup_insert_ne in Hd by done. by left.
  - right. exists y. split; [by right | done].
Qed.

(** The last assignment to a key is the one that stays. *)
Lemma lookup_assignments_last key val xs1 x xs2 d :
  (∀ y, y ∈ xs2 → key y ≠ key x) →
  foldl (λ d x, <[ key x := val x ]> d) d (xs1 ++ x :: xs2) !! key x = Some (val x).
Proof.
  intros Hlater. rewrite foldl_app. cbn.
  generalize (foldl (λ d x, <[ key x := val x ]> d) d xs1). intros d'.
  assert (<[ key x := val x ]> d' !! key x = Some (val x)) as Hnow
    by apply lookup_insert_eq.
  revert Hnow. generalize (<[ key x := val x ]> d'). clear d'.
  induction xs2 as [|y ys IH]; intros d' Hnow; cbn; [done|].
  apply IH.
  - intros z Hz. apply Hlater. by right.
  - rewrite lookup_insert_ne; [done|]. apply Hlater. left.
Qed.

(** A key that is never assigned keeps its entry. *)
Lemma lookup_assignments_other key val xs d k :
  (∀ x, x ∈ xs → key x ≠ k) →
  foldl (λ d x, <[ key x := val x ]> d) d xs !! k = d !! k.
Proof.
  revert d. induction xs as [|x xs IH]; intros d Hk; cbn; [done|].
  rewrite IH.
  - apply lookup_insert_ne, Hk. left.
  - intros y Hy. apply Hk. by right.
Qed.

(** Every assigned key ends up in the dictionary. *)
Lemma lookup_assignments_is_Some key val xs d x :
  x ∈ xs → is_Some (foldl (λ d x, <[ key x := val x ]> d) d xs !! key x).
Proof.
  revert d. induction xs as [|y ys IH] using rev_ind; intros d Hx.
  - by apply elem_of_nil in Hx.
  - rewrite foldl_app. cbn. apply elem_of_app in Hx as [Hx | Hx].
    + destruct (decide (key y = key x)) as [->|Hne].
      * rewrite lookup_insert_eq. eauto.
      * rewrite lookup_insert_ne by done. by apply IH.
    + apply list_elem_of_singleton in Hx as ->. rewrite lookup_insert_eq. eauto.
Qed.
End Assignments.

(** ** [AssetDaemonCursor.with_updates] *)

Section WithUpdates.
Context {DT : datetime.Interface} {AK : AssetKey.Interface}
        {PT : Partitions.Interface}
        {EV : AutoMaterializeAssetEvaluation.Interface}.
Implicit Types (self : AssetDaemonCursor.t) (key : AssetKey.t)
  (asset_cursors : list AssetDaemonAssetCursor.t)
  (evaluations : list AutoMaterializeAssetEvaluation.t).

Local Abbreviation subset_of cursor :=
  (AssetDaemonAssetCursor.materialized_requested_or_discarded_subset cursor).
Local Abbreviation value_of cursor := (AssetSubset.value (subset_of cursor)).

(** The set comprehension never raises, and collects the keys of the
    unpartitioned cursors whose value is [True]. *)
Lemma collect_handled_root_asset_keys_spec asset_cursors (acc : gset AssetKey.t) :
  ∃ keys,
    AssetDaemonCursor.collect_handled_root_asset_keys asset_cursors acc = Ok keys ∧
    ∀ key, key ∈ keys ↔
      key ∈ acc ∨
      ∃ cursor, cursor ∈ asset_cursors ∧
        AssetDaemonAssetCursor.asset_key cursor = key ∧
        value_of cursor = AssetSubset.BoolValue true.
Proof.
  revert acc. induction asset_cursors as [|cursor rest IH]; intros acc.
  - exists acc. split; [done|]. intros key. split; [by left|].
    intros [?|(c & Hc & _)]; [done|]. by apply elem_of_nil in Hc.
  - cbn [AssetDaemonCursor.collect_handled_root_asset_keys].
    unfold AssetSubset.is_partitioned, AssetSubset.bool_value.
    destruct (value_of cursor) as [[]|s] eqn:Hvalue; cbn [negb]; rewrite bind_Ok.
    + destruct (IH ({[ AssetDaemonAssetCursor.asset_key cursor ]} ∪ acc))
        as (keys & -> & Hkeys).
      exists keys. split; [done|]. intros key. rewrite Hkeys.
      rewrite elem_of_union, elem_of_singleton. split.
      * intros [[->|?]|(c & ? & ? & ?)]; [right|by left|right].
        -- exists cursor. split; [left | done].
        -- exists c. split; [by right | done].
      * intros [?|(c & [->|?]%elem_of_cons & <- & ?)]; [by left; right|by left; left|].
        right. by exists c.
    + destruct (IH acc) as (keys & -> & Hkeys).
      exists keys. split; [done|]. intros key. rewrite Hkeys. split.
      * intros [?|(c & ? & ? & ?)]; [by left|right].
        exists c. split; [by right | done].
      * intros [?|(c & [->|?]%elem_of_cons & ? & Hc)]; [by left|congruence|].
        right. by exists c.
    + destruct (IH acc) as (keys & -> & Hkeys).
      exists keys. split; [done|]. intros key. rewrite Hkeys. split.
      * intros [?|(c & ? & ? & ?)]; [by left|right].
        exists c. split; [by right | done].
      * intros [?|(c & [->|?]%elem_of_cons & ? & Hc)]; [by left|congruence|].
        right. by exists c.
Qed.

(** The dict comprehension never raises, and assigns the subset of each
    partitioned cursor to its key, in the order of the list. *)
Lemma collect_handled_root_partitions_spec asset_cursors
    (acc : gmap AssetKey.t PartitionsSubset) :
  AssetDaemonCursor.collect_handled_root_partitions asset_cursors acc
  = Ok (foldl (λ d entry, <[ entry.1 := entry.2 ]> d) acc
          (AssetDaemonCursor.partitioned_entries asset_cursors)).
Proof.
  revert acc. induction asset_cursors as [|cursor rest IH]; intros acc; [done|].
  cbn [AssetDaemonCursor.collect_handled_root_partitions].
  unfold AssetDaemonCursor.partitioned_entries, AssetSubset.is_partitioned, AssetSubset.subset_value.
  cbn [omap list_omap].
  destruct (value_of cursor) as [b|s] eqn:Hvalue.
  - apply IH.
  - rewrite bind_Ok. cbn [foldl]. apply IH.
Qed.

Lemma elem_of_partitioned_entries asset_cursors key subset :
  (key, subset) ∈ AssetDaemonCursor.partitioned_entries asset_cursors ↔
  ∃ cursor, cursor ∈ asset_cursors ∧
    AssetDaemonAssetCursor.asset_key cursor = key ∧
    value_of cursor = AssetSubset.SubsetValue subset.
Proof.
  unfold AssetDaemonCursor.partitioned_entries. rewrite list_elem_of_omap. split.
  - intros (cursor & Hin & Hentry). exists cursor. split; [done|].
    destruct (value_of cursor); by inversion Hentry.
  - intros (cursor & Hin & <- & Hvalue). exists cursor. split; [done|].
    by rewrite Hvalue.
Qed.

(** What a call that returns has checked and built. *)
Lemma with_updates_Ok_inv self latest_storage_id evaluation_id
    newly_observe_requested_asset_keys observe_request_timestamp evaluations
    evaluation_time asset_cursors (new_cursor : AssetDaemonCursor.t) :
  AssetDaemonCursor.with_updates self latest_storage_id evaluation_id
    newly_observe_requested_asset_keys observe_request_timestamp evaluations
    evaluation_time asset_cursors = Ok new_cursor →
  ∃ keys latest_evaluation_timestamp,
    AssetDaemonCursor.collect_handled_root_asset_keys asset_cursors ∅ = Ok keys ∧
    datetime.timestamp evaluation_time = Ok latest_evaluation_timestamp ∧
    new_cursor =
      AssetDaemonCursor.mk
        (py.or_ latest_storage_id (AssetDaemonCursor.latest_storage_id self))
        keys
        (foldl (λ d entry, <[ entry.1 := entry.2 ]> d) ∅
           (AssetDaemonCursor.partitioned_entries asset_cursors))
        evaluation_id
        (foldl (λ d asset_key, <[ asset_key := observe_request_timestamp ]> d)
           (AssetDaemonCursor.last_observe_request_timestamp_by_asset_key self)
           newly_observe_requested_asset_keys)
        (foldl (λ d evaluation,
                  <[ AutoMaterializeAssetEvaluation.asset_key evaluation := evaluation ]> d)
           ∅
           (filter (λ evaluation, ¬ AutoMaterializeAssetEvaluation.is_empty evaluation)
              evaluations))
        (Some latest_evaluation_timestamp).
Proof.
  unfold AssetDaemonCursor.with_updates.
  intros (_ & _ & Hrest)%bind_Ok_inv.
  apply bind_Ok_inv in Hrest as (keys & Hkeys & Hrest).
  rewrite collect_handled_root_partitions_spec, bind_Ok in Hrest.
  apply bind_Ok_inv in Hrest as (latest_evaluation_timestamp & Htimestamp & Hrest).
  exists keys, latest_evaluation_timestamp. split; [done|]. split; [done|].
  by inversion Hrest.
Qed.

(** The check of the storage ids and the timestamp of the evaluation time
    are all that can make a call raise. *)
Lemma with_updates_returns self latest_storage_id evaluation_id
    newly_observe_requested_asset_keys observe_request_timestamp evaluations
    evaluation_time asset_cursors :
  (∀ new old, latest_storage_id = Some new →
     AssetDaemonCursor.latest_storage_id self = Some old →
     new ≠ 0%Z → old ≠ 0%Z → (old ≤ new)%Z) →
  returns (datetime.timestamp evaluation_time) →
  returns (AssetDaemonCursor.with_updates self latest_storage_id evaluation_id
    newly_observe_requested_asset_keys observe_request_timestamp evaluations
    evaluation_time asset_cursors).
Proof.
  intros Hids [latest_evaluation_timestamp Htimestamp].
  unfold AssetDaemonCursor.with_updates, returns.
  destruct (collect_handled_root_asset_keys_spec asset_cursors ∅) as (keys & -> & _).
  rewrite collect_handled_root_partitions_spec, Htimestamp.
  destruct latest_storage_id as [new|],
    (AssetDaemonCursor.latest_storage_id self) as [old|] eqn:Hold;
    cbn [py.truthy andb py.ge]; try (rewrite !bind_Ok; eauto; fail).
  - destruct (Z.eqb_spec new 0) as [->|Hnew]; cbn [negb andb];
      [rewrite !bind_Ok; eauto|].
    destruct (Z.eqb_spec old 0) as [->|Hold0]; cbn [negb andb];
      [rewrite !bind_Ok; eauto|].
    rewrite bind_Ok.
    assert ((old <=? new)%Z = true) as -> by (apply Z.leb_le; eauto).
    cbn [check.invariant]. rewrite !bind_Ok. eauto.
  - destruct (negb (new =? 0)%Z); cbn [andb]; rewrite !bind_Ok; eauto.
Qed.

(** A storage id below the previous one, both different from 0, makes the
    call raise. *)
Lemma with_updates_raises self new old evaluation_id
    newly_observe_requested_asset_keys observe_request_timestamp evaluations
    evaluation_time asset_cursors :
  AssetDaemonCursor.latest_storage_id self = Some old →
  new ≠ 0%Z → old ≠ 0%Z → (new < old)%Z →
  AssetDaemonCursor.with_updates self (Some new) evaluation_id
    newly_observe_requested_asset_keys observe_request_timestamp evaluations
    evaluation_time asset_cursors
  = Raise (CheckError "Latest storage ID should be >= previous latest storage ID").
Proof.
  intros Hold Hnew Hold0 Hlt. unfold AssetDaemonCursor.with_updates.
  rewrite Hold. cbn [py.truthy py.ge].
  destruct (Z.eqb_spec new 0) as [|_]; [done|].
  destruct (Z.eqb_spec old 0) as [|_]; [done|].
  cbn [negb andb]. rewrite bind_Ok.
  assert ((old <=? new)%Z = false) as -> by (apply Z.leb_gt; lia).
  reflexivity.
Qed.
End WithUpdates.

(** ** The storage id across updates *)

Section StorageIds.
Context {DT : datetime.Interface} {AK : AssetKey.Interface}
        {PT : Partitions.Interface}
        {EV : AutoMaterializeAssetEvaluation.Interface}.
Implicit Types (self cursor : AssetDaemonCursor.t).

Lemma apply_storage_id cursor tick next old new :
  AssetDaemonCursor.latest_storage_id cursor = Some old → old ≠ 0%Z →
  Tick.latest_storage_id tick = Some new → new ≠ 0%Z →
  Tick.apply cursor tick = Ok next →
  (old ≤ new)%Z ∧ AssetDaemonCursor.latest_storage_id next = Some new.
Proof.
  intros Hold Hold0 Hnew Hnew0 Hnext. unfold Tick.apply in Hnext.
  rewrite Hnew in Hnext. split.
  - destruct (Z.le_gt_cases old new) as [|Hlt]; [done|].
    rewrite (with_updates_raises _ _ old) in Hnext by done. discriminate.
  - apply with_updates_Ok_inv in Hnext as (keys & ? & _ & _ & ->). cbn.
    unfold py.or_. cbn. by destruct (Z.eqb_spec new 0).
Qed.

Lemma run_storage_ids ticks : ∀ cursor old ids cursors,
  AssetDaemonCursor.latest_storage_id cursor = Some old → old ≠ 0%Z →
  Tick.storage_ids ticks ids →
  Tick.run cursor ticks = Ok cursors →
  AssetDaemonCursor.latest_storage_id <$> cursors = Some <$> ids ∧
  Sorted Z.le (old :: ids).
Proof.
  induction ticks as [|tick rest IH]; intros cursor old ids cursors Hold Hold0 [Hids Hne] Hrun.
  - destruct ids; [|discriminate]. inversion Hrun. split; [done|].
    repeat constructor.
  - destruct ids as [|new ids]; [discriminate|].
    cbn in Hids. injection Hids as Hnew Hids. apply Forall_cons in Hne as [Hnew0 Hne].
    cbn [Tick.run] in Hrun.
    apply bind_Ok_inv in Hrun as (next & Hnext & Hrun).
    apply bind_Ok_inv in Hrun as (later & Hlater & Hrun). inversion Hrun; subst cursors.
    destruct (apply_storage_id _ _ _ _ _ Hold Hold0 Hnew Hnew0 Hnext) as [Hle Hid].
    destruct (IH next new ids later Hid Hnew0 (conj Hids Hne) Hlater) as [Hlids Hsorted].
    split.
    + cbn. by rewrite Hid, Hlids.
    + constructor; [done|]. by constructor.
Qed.

(** The same from any cursor, whatever its storage id: the first call that
    returns leaves the id it was passed. *)
Lemma run_storage_ids_any ticks cursor ids cursors :
  Tick.storage_ids ticks ids →
  Tick.run cursor ticks = Ok cursors →
  AssetDaemonCursor.latest_storage_id <$> cursors = Some <$> ids ∧
  Sorted Z.le ids.
Proof.
  intros [Hids Hne] Hrun. destruct ticks as [|tick rest].
  - destruct ids; [|discriminate]. inversion Hrun. split; [done | constructor].
  - destruct ids as [|new ids]; [discriminate|].
    cbn in Hids. injection Hids as Hnew Hids. apply Forall_cons in Hne as [Hnew0 Hne].
    cbn [Tick.run] in Hrun.
    apply bind_Ok_inv in Hrun as (next & Hnext & Hrun).
    apply bind_Ok_inv in Hrun as (later & Hlater & Hrun). inversion Hrun; subst cursors.
    assert (AssetDaemonCursor.latest_storage_id next = Some new) as Hid.
    { unfold Tick.apply in Hnext. rewrite Hnew in Hnext.
      apply with_updates_Ok_inv in Hnext as (keys & ? & _ & _ & ->). cbn.
      unfold py.or_. cbn. by destruct (Z.eqb_spec new 0). }
    destruct (run_storage_ids rest next new ids later Hid Hnew0 (conj Hids Hne) Hlater)
      as [Hlids Hsorted].
    split; [|done]. cbn. by rewrite Hid, Hlids.
Qed.

(** Calls whose storage ids never go down, at evaluation times that have a
    timestamp, all return. *)
Lemma run_returns ticks : ∀ cursor old ids,
  AssetDaemonCursor.latest_storage_id cursor = Some old → old ≠ 0%Z →
  Tick.storage_ids ticks ids →
  Sorted Z.le (old :: ids) →
  Forall (λ tick, returns (datetime.timestamp (Tick.evaluation_time tick))) ticks →
  returns (Tick.run cursor ticks).
Proof.
  induction ticks as [|tick rest IH];
    intros cursor old ids Hold Hold0 [Hids Hne] Hsorted Htimes.
  - by exists [].
  - destruct ids as [|new ids]; [discriminate|].
    cbn in Hids. injection Hids as Hnew Hids. apply Forall_cons in Hne as [Hnew0 Hne].
    apply Sorted_inv in Hsorted as [Hsorted Hle]. apply HdRel_inv in Hle.
    apply Forall_cons in Htimes as [Htime Htimes].
    destruct (with_updates_returns cursor (Tick.latest_storage_id tick)
                (Tick.evaluation_id tick) (Tick.newly_observe_requested_asset_keys tick)
                (Tick.observe_request_timestamp tick) (Tick.evaluations tick)
                (Tick.evaluation_time tick) (Tick.asset_cursors tick)) as [next Hnext].
    { rewrite Hnew, Hold. by intros ? ? [= <-] [= <-] _ _. }
    { exact Htime. }
    destruct (apply_storage_id _ _ _ _ _ Hold Hold0 Hnew Hnew0 Hnext) as [_ Hid].
    destruct (IH next new ids Hid Hnew0 (conj Hids Hne) Hsorted Htimes) as [later Hlater].
    exists (next :: later). cbn [Tick.run]. unfold Tick.apply.
    by rewrite Hnext, bind_Ok, Hlater.
Qed.

(** C1, amended.  For a cursor whose [latest_storage_id] is neither [None]
    nor [0], a call of [with_updates] with a storage id that is neither
    [None] nor [0] raises the check error when the new id is below the
    previous one; when it is not below, the call returns provided the
    evaluation time has a timestamp.  Consequently, along every sequence of
    calls that return, all with such storage ids and from any cursor,
    [latest_storage_id] is the id just passed and never decreases, nor is
    the first id below the one of a cursor that had such an id. *)
Theorem with_updates_storage_id_monotone self :
  (∀ old new evaluation_id newly_observe_requested_asset_keys observe_request_timestamp
     evaluations evaluation_time asset_cursors,
     AssetDaemonCursor.latest_storage_id self = Some old → old ≠ 0%Z →
     new ≠ 0%Z →
     ((new < old)%Z →
      AssetDaemonCursor.with_updates self (Some new) evaluation_id
        newly_observe_requested_asset_keys observe_request_timestamp evaluations
        evaluation_time asset_cursors
      = Raise (CheckError "Latest storage ID should be >= previous latest storage ID")) ∧
     ((old ≤ new)%Z →
      returns (datetime.timestamp evaluation_time) →
      returns (AssetDaemonCursor.with_updates self (Some new) evaluation_id
        newly_observe_requested_asset_keys observe_request_timestamp evaluations
        evaluation_time asset_cursors))) ∧
  (∀ ticks ids cursors,
     Tick.storage_ids ticks ids →
     Tick.run self ticks = Ok cursors →
     AssetDaemonCursor.latest_storage_id <$> cursors = Some <$> ids ∧
     Sorted Z.le ids ∧
     ∀ old, AssetDaemonCursor.latest_storage_id self = Some old → old ≠ 0%Z →
            Sorted Z.le (old :: ids)).
Proof.
  split.
  - intros old new ? ? ? ? ? ? Hold Hold0 Hnew0. split.
    + intros Hlt. by apply (with_updates_raises _ _ old).
    + intros Hle Htime. apply with_updates_returns; [|done].
      intros ? ? [= <-] ? _ _. congruence.
  - intros ticks ids cursors Hids Hrun.
    destruct (run_storage_ids_any _ _ _ _ Hids Hrun) as [Hlids Hsorted].
    split; [done|]. split; [done|].
    intros old Hold Hold0. by apply (run_storage_ids ticks self old ids cursors).
Qed.

(** C5, amended.  When a call of [with_updates] returns, the new
    [latest_storage_id] is the argument if that is neither [None] nor [0],
    and the previous value otherwise. *)
Theorem with_updates_latest_storage_id self latest_storage_id evaluation_id
    newly_observe_requested_asset_keys observe_request_timestamp evaluations
    evaluation_time asset_cursors new_cursor :
  AssetDaemonCursor.with_updates self latest_storage_id evaluation_id
    newly_observe_requested_asset_keys observe_request_timestamp evaluations
    evaluation_time asset_cursors = Ok new_cursor →
  (∀ new, latest_storage_id = Some new → new ≠ 0%Z →
     AssetDaemonCursor.latest_storage_id new_cursor = Some new) ∧
  (latest_storage_id = None ∨ latest_storage_id = Some 0%Z →
     AssetDaemonCursor.latest_storage_id new_cursor
     = AssetDaemonCursor.latest_storage_id self).
Proof.
  intros (keys & ? & _ & _ & ->)%with_updates_Ok_inv. cbn. unfold py.or_. split.
  - intros new -> Hnew. cbn. by destruct (Z.eqb_spec new 0).
  - by intros [-> | ->].
Qed.
End StorageIds.

(** A cursor at storage id 5 rejects id 3 and accepts id 8; the ticks 6, 6, 9
    leave the ids 6, 6, 9. *)
Lemma with_updates_storage_id_monotone_witness :
  AssetDaemonCursor.with_updates (Sample.at_storage_id 5) (Some 3%Z) 2%Z [] 0%float [] 0%Z []
  = Raise (CheckError "Latest storage ID should be >= previous latest storage ID") ∧
  returns (AssetDaemonCursor.with_updates (Sample.at_storage_id 5) (Some 8%Z) 2%Z []
             0%float [] 0%Z []) ∧
  ∃ cursors,
    Tick.run (Sample.at_storage_id 5) [Sample.tick 6; Sample.tick 6; Sample.tick 9]
    = Ok cursors ∧
    AssetDaemonCursor.latest_storage_id <$> cursors = [Some 6; Some 6; Some 9]%Z ∧
    Sorted Z.le [5; 6; 6; 9]%Z.
Proof.
  destruct (with_updates_storage_id_monotone (Sample.at_storage_id 5)) as [Hcall Hrun].
  assert (Tick.storage_ids [Sample.tick 6; Sample.tick 6; Sample.tick 9] [6; 6; 9]%Z)
    as Hids by (split; [reflexivity | repeat constructor; lia]).
  split; [|split].
  - destruct (Hcall 5%Z 3%Z 2%Z [] 0%float [] 0%Z []) as [Hraise _];
      [reflexivity | lia | lia |].
    apply Hraise. lia.
  - destruct (Hcall 5%Z 8%Z 2%Z [] 0%float [] 0%Z []) as [_ Hreturn];
      [reflexivity | lia | lia |].
    apply Hreturn; [lia | by eexists].
  - destruct (run_returns [Sample.tick 6; Sample.tick 6; Sample.tick 9]
                (Sample.at_storage_id 5) 5%Z [6; 6; 9]%Z) as [cursors Hcursors];
      [reflexivity | lia | exact Hids | repeat constructor; lia
      | repeat constructor; by eexists |].
    exists cursors. split; [exact Hcursors|].
    destruct (Hrun _ _ _ Hids Hcursors) as (Hlids & _ & Hsorted).
    split; [exact Hlids|]. apply Hsorted; [reflexivity | lia].
Defined.

(** C1 fails as stated: a cursor at storage id 5 is given the id 0, which is
    not [None] and is below 5, and the call returns; a cursor at storage id 0
    is given the id -1, and the call returns a cursor at storage id -1. *)
Lemma with_updates_storage_id_zero_unchecked :
  AssetDaemonCursor.latest_storage_id (Sample.at_storage_id 5) = Some 5%Z ∧
  ¬ (5 ≤ 0)%Z ∧
  returns (AssetDaemonCursor.with_updates (Sample.at_storage_id 5) (Some 0%Z) 2%Z []
             0%float [] 0%Z []) ∧
  ∃ next,
    AssetDaemonCursor.with_updates (Sample.at_storage_id 0) (Some (-1)%Z) 2%Z []
      0%float [] 0%Z [] = Ok next ∧
    AssetDaemonCursor.latest_storage_id next = Some (-1)%Z ∧
    ¬ (0 ≤ -1)%Z.
Proof.
  split; [reflexivity|]. split; [lia|]. split.
  - apply with_updates_returns; [by intros ? ? [= <-] _ ? | by eexists].
  - destruct (with_updates_returns (Sample.at_storage_id 0) (Some (-1)%Z) 2%Z []
                0%float [] 0%Z []) as [next Hnext]; [by intros ? ? _ [= <-] _ ? | by eexists |].
    exists next. split; [exact Hnext|]. split; [|lia].
    by apply with_updates_Ok_inv in Hnext as (keys & ? & _ & _ & ->).
Qed.

(** A cursor at storage id 5 that is given the id 8 moves to 8. *)
Lemma with_updates_latest_storage_id_witness :
  ∃ new_cursor,
    AssetDaemonCursor.with_updates (Sample.at_storage_id 5) (Some 8%Z) 2%Z [] 0%float [] 0%Z []
    = Ok new_cursor ∧
    AssetDaemonCursor.latest_storage_id new_cursor = Some 8%Z.
Proof.
  destruct (with_updates_returns (Sample.at_storage_id 5) (Some 8%Z) 2%Z []
              0%float [] 0%Z []) as [new_cursor Hcall];
    [intros ? ? [= <-] [= <-] _ _; lia | by eexists |].
  exists new_cursor. split; [exact Hcall|].
  apply (with_updates_latest_storage_id _ _ _ _ _ _ _ _ _ Hcall); [reflexivity | lia].
Defined.

(** C5 fails as stated: the storage id 0 is not [None], yet the cursor keeps
    the previous id 5. *)
Lemma with_updates_latest_storage_id_zero_kept :
  ∃ new_cursor,
    AssetDaemonCursor.with_updates (Sample.at_storage_id 5) (Some 0%Z) 2%Z [] 0%float [] 0%Z []
    = Ok new_cursor ∧
    AssetDaemonCursor.latest_storage_id new_cursor = Some 5%Z ∧
    AssetDaemonCursor.latest_storage_id new_cursor ≠ Some 0%Z.
Proof.
  destruct (with_updates_returns (Sample.at_storage_id 5) (Some 0%Z) 2%Z []
              0%float [] 0%Z []) as [new_cursor Hcall]; [by intros ? ? [= <-] _ ? | by eexists |].
  exists new_cursor. split; [exact Hcall|].
  apply with_updates_Ok_inv in Hcall as (keys & ? & _ & _ & ->).
  split; [reflexivity | discriminate].
Qed.

(** ** The handled state and the evaluations after an update *)

Section Rebuild.
Context {DT : datetime.Interface} {AK : AssetKey.Interface}
        {PT : Partitions.Interface}
        {EV : AutoMaterializeAssetEvaluation.Interface}.
Implicit Types (self : AssetDaemonCursor.t) (key : AssetKey.t)
  (asset_cursors : list AssetDaemonAssetCursor.t)
  (evaluations : list AutoMaterializeAssetEvaluation.t).

Local Abbreviation subset_of cursor :=
  (AssetDaemonAssetCursor.materialized_requested_or_discarded_subset cursor).
Local Abbreviation value_of cursor := (AssetSubset.value (subset_of cursor)).

Lemma partitioned_entries_app asset_cursors1 asset_cursors2 :
  AssetDaemonCursor.partitioned_entries (asset_cursors1 ++ asset_cursors2)
  = AssetDaemonCursor.partitioned_entries asset_cursors1
    ++ AssetDaemonCursor.partitioned_entries asset_cursors2.
Proof. apply omap_app. Qed.

(** The two handled fields of the cursor an update returns, read off the
    values of [asset_cursors]. *)
Lemma handled_state_after_update self latest_storage_id evaluation_id
    newly_observe_requested_asset_keys observe_request_timestamp evaluations
    evaluation_time asset_cursors new_cursor :
  AssetDaemonCursor.with_updates self latest_storage_id evaluation_id
    newly_observe_requested_asset_keys observe_request_timestamp evaluations
    evaluation_time asset_cursors = Ok new_cursor →
  (∀ key,
     key ∈ AssetDaemonCursor.handled_root_asset_keys new_cursor ↔
     ∃ cursor, cursor ∈ asset_cursors ∧
       AssetDaemonAssetCursor.asset_key cursor = key ∧
       value_of cursor = AssetSubset.BoolValue true) ∧
  AssetDaemonCursor.handled_root_partitions_by_asset_key new_cursor
  = foldl (λ d entry, <[ entry.1 := entry.2 ]> d) ∅
      (AssetDaemonCursor.partitioned_entries asset_cursors).
Proof.
  intros (keys & ? & Hcollect & _ & ->)%with_updates_Ok_inv. cbn.
  destruct (collect_handled_root_asset_keys_spec asset_cursors ∅)
    as (keys' & Hcollect' & Hkeys).
  rewrite Hcollect in Hcollect'. injection Hcollect' as <-.
  split; [|done]. intros key. rewrite Hkeys. split; [|by right].
  intros [Hempty|?]; [by apply not_elem_of_empty in Hempty | done].
Qed.

Lemma bool_value_true (subset : AssetSubset.t) :
  AssetSubset.value subset = AssetSubset.BoolValue true ↔
  AssetSubset.is_partitioned subset = false ∧ AssetSubset.bool_value subset = Ok true.
Proof.
  unfold AssetSubset.is_partitioned, AssetSubset.bool_value.
  destruct (AssetSubset.value subset) as [[]|]; intuition congruence.
Qed.

Lemma subset_value_Ok (subset : AssetSubset.t) (value : PartitionsSubset) :
  AssetSubset.value subset = AssetSubset.SubsetValue value ↔
  AssetSubset.is_partitioned subset = true ∧ AssetSubset.subset_value subset = Ok value.
Proof.
  unfold AssetSubset.is_partitioned, AssetSubset.subset_value.
  destruct (AssetSubset.value subset); intuition congruence.
Qed.

(** C3.  [with_updates] rebuilds the handled state from [asset_cursors]
    alone: [handled_root_asset_keys] is exactly the set of keys of the cursors
    whose subset is unpartitioned and true; every entry of
    [handled_root_partitions_by_asset_key] is the subset of a partitioned
    cursor, and every partitioned cursor gives its key its subset (the last
    one, if the key comes several times); a key that no cursor carries is in
    neither, whatever the previous cursor held; and the two fields do not
    depend on the previous cursor nor on the other arguments. *)
Theorem with_updates_rebuilds_handled_state self latest_storage_id evaluation_id
    newly_observe_requested_asset_keys observe_request_timestamp evaluations
    evaluation_time asset_cursors new_cursor :
  AssetDaemonCursor.with_updates self latest_storage_id evaluation_id
    newly_observe_requested_asset_keys observe_request_timestamp evaluations
    evaluation_time asset_cursors = Ok new_cursor →
  (∀ key,
     key ∈ AssetDaemonCursor.handled_root_asset_keys new_cursor ↔
     ∃ cursor, cursor ∈ asset_cursors ∧
       AssetDaemonAssetCursor.asset_key cursor = key ∧
       AssetSubset.is_partitioned (subset_of cursor) = false ∧
       AssetSubset.bool_value (subset_of cursor) = Ok true) ∧
  (∀ key subset,
     AssetDaemonCursor.handled_root_partitions_by_asset_key new_cursor !! key = Some subset →
     ∃ cursor, cursor ∈ asset_cursors ∧
       AssetDaemonAssetCursor.asset_key cursor = key ∧
       AssetSubset.is_partitioned (subset_of cursor) = true ∧
       AssetSubset.subset_value (subset_of cursor) = Ok subset) ∧
  (∀ before cursor after subset,
     asset_cursors = before ++ cursor :: after →
     AssetSubset.is_partitioned (subset_of cursor) = true →
     AssetSubset.subset_value (subset_of cursor) = Ok subset →
     (∀ later, later ∈ after →
        AssetSubset.is_partitioned (subset_of later) = true →
        AssetDaemonAssetCursor.asset_key later ≠ AssetDaemonAssetCursor.asset_key cursor) →
     AssetDaemonCursor.handled_root_partitions_by_asset_key new_cursor
       !! AssetDaemonAssetCursor.asset_key cursor = Some subset) ∧
  (∀ key,
     (∀ cursor, cursor ∈ asset_cursors → AssetDaemonAssetCursor.asset_key cursor ≠ key) →
     (key ∉ AssetDaemonCursor.handled_root_asset_keys new_cursor) ∧
     (AssetDaemonCursor.handled_root_partitions_by_asset_key new_cursor !! key = None)) ∧
  (∀ self' latest_storage_id' evaluation_id' newly_observe_requested_asset_keys'
     observe_request_timestamp' evaluations' evaluation_time' new_cursor',
     AssetDaemonCursor.with_updates self' latest_storage_id' evaluation_id'
       newly_observe_requested_asset_keys' observe_request_timestamp' evaluations'
       evaluation_time' asset_cursors = Ok new_cursor' →
     AssetDaemonCursor.handled_root_asset_keys new_cursor'
     = AssetDaemonCursor.handled_root_asset_keys new_cursor ∧
     AssetDaemonCursor.handled_root_partitions_by_asset_key new_cursor'
     = AssetDaemonCursor.handled_root_partitions_by_asset_key new_cursor).
Proof.
  intros Hcall.
  destruct (handled_state_after_update _ _ _ _ _ _ _ _ _ Hcall) as [Hkeys Hentries].
  rewrite Hentries.
  split; [|split; [|split; [|split]]].
  - intros key. rewrite Hkeys. split.
    + intros (cursor & ? & ? & Hvalue). exists cursor. apply bool_value_true in Hvalue. tauto.
    + intros (cursor & ? & ? & Hvalue). exists cursor.
      split; [done|]. split; [done|]. by apply bool_value_true.
  - intros key subset [Hempty | ([k s] & Hin & Hk & Hs)]%lookup_assignments_Some;
      [by rewrite lookup_empty in Hempty|].
    cbn in Hk, Hs. subst k s.
    apply elem_of_partitioned_entries in Hin as (cursor & ? & ? & Hvalue).
    exists cursor. apply subset_value_Ok in Hvalue. tauto.
  - intros before cursor after subset -> Hpartitioned Hsubset Hlater.
    assert (value_of cursor = AssetSubset.SubsetValue subset) as Hvalue
      by by apply subset_value_Ok.
    rewrite partitioned_entries_app.
    unfold AssetDaemonCursor.partitioned_entries at 2. cbn [omap list_omap].
    rewrite Hvalue.
    rewrite (lookup_assignments_last fst snd _
               (AssetDaemonAssetCursor.asset_key cursor, subset)); [done|].
    intros [k s] (later & Hin & <- & Hvalue')%elem_of_partitioned_entries. cbn.
    apply Hlater; [done|]. unfold AssetSubset.is_partitioned. by rewrite Hvalue'.
  - intros key Habsent. split.
    + rewrite Hkeys. intros (cursor & Hin & Hkey & _). by apply (Habsent cursor).
    + rewrite lookup_assignments_other; [apply lookup_empty|].
      intros [k s] (cursor & Hin & <- & _)%elem_of_partitioned_entries. cbn.
      by apply Habsent.
  - intros ? ? ? ? ? ? ? ? Hcall'.
    destruct (handled_state_after_update _ _ _ _ _ _ _ _ _ Hcall') as [Hkeys' ->].
    split; [|done]. apply set_eq. intros key. by rewrite Hkeys, Hkeys'.
Qed.

(** C8, amended.  When the cursors of [asset_cursors] that carry the same
    asset key agree on being partitioned or not, no asset key is both in
    [handled_root_asset_keys] and a key of
    [handled_root_partitions_by_asset_key] after [with_updates]. *)
Theorem with_updates_handled_state_exclusive self latest_storage_id evaluation_id
    newly_observe_requested_asset_keys observe_request_timestamp evaluations
    evaluation_time asset_cursors new_cursor :
  (∀ cursor1 cursor2,
     cursor1 ∈ asset_cursors → cursor2 ∈ asset_cursors →
     AssetDaemonAssetCursor.asset_key cursor1 = AssetDaemonAssetCursor.asset_key cursor2 →
     AssetSubset.is_partitioned (subset_of cursor1)
     = AssetSubset.is_partitioned (subset_of cursor2)) →
  AssetDaemonCursor.with_updates self latest_storage_id evaluation_id
    newly_observe_requested_asset_keys observe_request_timestamp evaluations
    evaluation_time asset_cursors = Ok new_cursor →
  ∀ key,
    ¬ (key ∈ AssetDaemonCursor.handled_root_asset_keys new_cursor ∧
       key ∈ dom (AssetDaemonCursor.handled_root_partitions_by_asset_key new_cursor)).
Proof.
  intros Hagree Hcall key [Hunpartitioned [subset Hpartitioned]%elem_of_dom].
  destruct (handled_state_after_update _ _ _ _ _ _ _ _ _ Hcall) as [Hkeys Hentries].
  rewrite Hentries in Hpartitioned.
  apply Hkeys in Hunpartitioned as (cursor1 & Hin1 & Hkey1 & Hvalue1).
  apply lookup_assignments_Some in Hpartitioned as [Hempty | ([k s] & Hin & Hk & Hs)];
    [by rewrite lookup_empty in Hempty|].
  cbn in Hk, Hs. subst k s.
  apply elem_of_partitioned_entries in Hin as (cursor2 & Hin2 & Hkey2 & Hvalue2).
  assert (AssetDaemonAssetCursor.asset_key cursor1 = AssetDaemonAssetCursor.asset_key cursor2)
    as Hsame by congruence.
  specialize (Hagree cursor1 cursor2 Hin1 Hin2 Hsame).
  unfold AssetSubset.is_partitioned in Hagree.
  rewrite Hvalue1, Hvalue2 in Hagree. discriminate.
Qed.

(** C9.  The evaluations of the cursor [with_updates] returns come from the
    [evaluations] argument alone: every stored evaluation is one of them, is
    stored under its own asset key and is not empty; every evaluation that is
    not empty has its asset key stored; and the field does not depend on the
    previous cursor nor on the other arguments. *)
Theorem with_updates_keeps_non_empty_evaluations self latest_storage_id evaluation_id
    newly_observe_requested_asset_keys observe_request_timestamp evaluations
    evaluation_time asset_cursors new_cursor :
  AssetDaemonCursor.with_updates self latest_storage_id evaluation_id
    newly_observe_requested_asset_keys observe_request_timestamp evaluations
    evaluation_time asset_cursors = Ok new_cursor →
  (∀ key evaluation,
     AssetDaemonCursor.latest_evaluation_by_asset_key new_cursor !! key = Some evaluation →
     evaluation ∈ evaluations ∧
     AutoMaterializeAssetEvaluation.asset_key evaluation = key ∧
     AutoMaterializeAssetEvaluation.is_empty evaluation = false) ∧
  (∀ evaluation,
     evaluation ∈ evaluations →
     AutoMaterializeAssetEvaluation.is_empty evaluation = false →
     AutoMaterializeAssetEvaluation.asset_key evaluation
     ∈ dom (AssetDaemonCursor.latest_evaluation_by_asset_key new_cursor)) ∧
  (∀ self' latest_storage_id' evaluation_id' newly_observe_requested_asset_keys'
     observe_request_timestamp' evaluation_time' asset_cursors' new_cursor',
     AssetDaemonCursor.with_updates self' latest_storage_id' evaluation_id'
       newly_observe_requested_asset_keys' observe_request_timestamp' evaluations
       evaluation_time' asset_cursors' = Ok new_cursor' →
     AssetDaemonCursor.latest_evaluation_by_asset_key new_cursor'
     = AssetDaemonCursor.latest_evaluation_by_asset_key new_cursor).
Proof.
  intros (keys & ? & _ & _ & ->)%with_updates_Ok_inv. cbn. split; [|split].
  - intros key evaluation
      [Hempty | (e & [Hnon_empty Hin]%list_elem_of_filter & Hkey & He)]%lookup_assignments_Some;
      [by rewrite lookup_empty in Hempty|].
    subst e. split; [done|]. split; [done|].
    by destruct (AutoMaterializeAssetEvaluation.is_empty evaluation).
  - intros evaluation Hin Hnon_empty. apply elem_of_dom.
    apply (lookup_assignments_is_Some AutoMaterializeAssetEvaluation.asset_key id).
    apply list_elem_of_filter. split; [|done]. rewrite Hnon_empty. exact id.
  - by intros ? ? ? ? ? ? ? ? (keys' & ? & _ & _ & ->)%with_updates_Ok_inv.
Qed.

(** C10.  On an asset that is not a root of the graph,
    [AssetDaemonAssetCursor.with_updates] returns its cursor as it is, whatever
    the newly materialized, requested and discarded partitions. *)
Theorem asset_cursor_with_updates_non_root (self : AssetDaemonAssetCursor.t)
    (asset_graph : AssetGraph.t) newly_materialized_subset
    requested_asset_partitions discarded_asset_partitions :
  AssetDaemonAssetCursor.asset_key self ∉ AssetGraph.root_asset_keys asset_graph →
  AssetDaemonAssetCursor.with_updates self asset_graph newly_materialized_subset
    requested_asset_partitions discarded_asset_partitions = Ok self.
Proof.
  intros Hnon_root. unfold AssetDaemonAssetCursor.with_updates.
  by rewrite bool_decide_eq_true_2.
Qed.
End Rebuild.

(** Two cursors for distinct assets, one unpartitioned and handled, one
    partitioned: each asset lands in its own field. *)
Lemma with_updates_rebuilds_handled_state_witness :
  ∃ new_cursor,
    AssetDaemonCursor.with_updates (Sample.handled_windows "x") None 4%Z [] 0%float [] 0%Z
      [Sample.asset_cursor "b" (Sample.flag true);
       Sample.asset_cursor "d" (Sample.part (Sample.Windows "y"))]
    = Ok new_cursor ∧
    ("b" ∈ AssetDaemonCursor.handled_root_asset_keys new_cursor) ∧
    ("a" ∉ AssetDaemonCursor.handled_root_asset_keys new_cursor) ∧
    AssetDaemonCursor.handled_root_partitions_by_asset_key new_cursor !! "d"
    = Some (Sample.Windows "y").
Proof.
  destruct (with_updates_returns (Sample.handled_windows "x") None 4%Z [] 0%float [] 0%Z
              [Sample.asset_cursor "b" (Sample.flag true);
               Sample.asset_cursor "d" (Sample.part (Sample.Windows "y"))])
    as [new_cursor Hcall]; [discriminate | by eexists |].
  exists new_cursor. split; [exact Hcall|].
  destruct (with_updates_rebuilds_handled_state _ _ _ _ _ _ _ _ _ Hcall)
    as (Hkeys & _ & Hlast & Habsent & _).
  split; [|split].
  - apply Hkeys. exists (Sample.asset_cursor "b" (Sample.flag true)).
    split; [left|]. by repeat split.
  - apply (Habsent "a"). intros cursor Hin.
    repeat (apply elem_of_cons in Hin as [-> | Hin]; [discriminate|]).
    by apply elem_of_nil in Hin.
  - apply (Hlast [Sample.asset_cursor "b" (Sample.flag true)]
             (Sample.asset_cursor "d" (Sample.part (Sample.Windows "y"))) []);
      [reflexivity..|].
    intros later Hin. by apply elem_of_nil in Hin.
Defined.

(** Cursors for distinct assets leave no key in both fields. *)
Lemma with_updates_handled_state_exclusive_witness :
  ∃ new_cursor,
    AssetDaemonCursor.with_updates (Sample.at_storage_id 5) None 4%Z [] 0%float [] 0%Z
      [Sample.asset_cursor "a" (Sample.flag true);
       Sample.asset_cursor "d" (Sample.part (Sample.Windows "y"))]
    = Ok new_cursor ∧
    ¬ ("a" ∈ AssetDaemonCursor.handled_root_asset_keys new_cursor ∧
       "a" ∈ dom (AssetDaemonCursor.handled_root_partitions_by_asset_key new_cursor)).
Proof.
  destruct (with_updates_returns (Sample.at_storage_id 5) None 4%Z [] 0%float [] 0%Z
              [Sample.asset_cursor "a" (Sample.flag true);
               Sample.asset_cursor "d" (Sample.part (Sample.Windows "y"))])
    as [new_cursor Hcall]; [discriminate | by eexists |].
  exists new_cursor. split; [exact Hcall|].
  refine (with_updates_handled_state_exclusive _ _ _ _ _ _ _ _ _ _ Hcall "a").
  intros cursor1 cursor2 Hin1 Hin2.
  repeat (apply elem_of_cons in Hin1 as [-> | Hin1]);
    repeat (apply elem_of_cons in Hin2 as [-> | Hin2]);
    try (by apply elem_of_nil in Hin1); try (by apply elem_of_nil in Hin2);
    cbn; congruence.
Defined.

(** C8 fails as stated: two cursors for the asset ["a"], one unpartitioned
    and true, one partitioned, put ["a"] in both fields. *)
Lemma with_updates_handled_state_overlap :
  ∃ new_cursor,
    AssetDaemonCursor.with_updates (Sample.at_storage_id 5) None 4%Z [] 0%float [] 0%Z
      [Sample.asset_cursor "a" (Sample.flag true);
       Sample.asset_cursor "a" (Sample.part (Sample.Keys "x"))]
    = Ok new_cursor ∧
    "a" ∈ AssetDaemonCursor.handled_root_asset_keys new_cursor ∧
    "a" ∈ dom (AssetDaemonCursor.handled_root_partitions_by_asset_key new_cursor).
Proof.
  destruct (with_updates_returns (Sample.at_storage_id 5) None 4%Z [] 0%float [] 0%Z
              [Sample.asset_cursor "a" (Sample.flag true);
               Sample.asset_cursor "a" (Sample.part (Sample.Keys "x"))])
    as [new_cursor Hcall]; [discriminate | by eexists |].
  exists new_cursor. split; [exact Hcall|].
  destruct (handled_state_after_update _ _ _ _ _ _ _ _ _ Hcall) as [Hkeys ->]. split.
  - apply Hkeys. exists (Sample.asset_cursor "a" (Sample.flag true)).
    split; [left | done].
  - apply elem_of_dom. cbn. rewrite lookup_insert_eq. eauto.
Qed.

(** An empty and a non-empty evaluation: only the second is stored. *)
Lemma with_updates_keeps_non_empty_evaluations_witness :
  ∃ new_cursor,
    AssetDaemonCursor.with_updates (Sample.at_storage_id 5) None 4%Z [] 0%float
      [("a", true); ("d", false)] 0%Z []
    = Ok new_cursor ∧
    AssetDaemonCursor.latest_evaluation_by_asset_key new_cursor !! "a" = None ∧
    "d" ∈ dom (AssetDaemonCursor.latest_evaluation_by_asset_key new_cursor).
Proof.
  destruct (with_updates_returns (Sample.at_storage_id 5) None 4%Z [] 0%float
              [("a", true); ("d", false)] 0%Z [])
    as [new_cursor Hcall]; [discriminate | by eexists |].
  exists new_cursor. split; [exact Hcall|].
  destruct (with_updates_keeps_non_empty_evaluations _ _ _ _ _ _ _ _ _ Hcall)
    as (Hstored & Hkept & _).
  split.
  - destruct (AssetDaemonCursor.latest_evaluation_by_asset_key new_cursor !! "a")
      as [[key empty]|] eqn:Hlookup; [|done].
    destruct (Hstored _ _ Hlookup) as (Hin & Hkey & Hempty). cbn in Hkey, Hempty. subst.
    repeat (apply elem_of_cons in Hin as [[=] | Hin]).
    by apply elem_of_nil in Hin.
  - apply (Hkept ("d", false)); [right; left | reflexivity].
Defined.

(** The downstream asset ["z"] is not a root of the sample graph. *)
Lemma asset_cursor_with_updates_non_root_witness :
  AssetDaemonAssetCursor.with_updates
    (Sample.asset_cursor "z" (Sample.flag false)) Sample.graph
    (Sample.asset_subset "z" (Sample.flag true)) {[ Sample.asset_partition "z" None ]} ∅
  = Ok (Sample.asset_cursor "z" (Sample.flag false)).
Proof.
  apply asset_cursor_with_updates_non_root.
  cbn. rewrite elem_of_union, !elem_of_singleton. by intros [|].
Defined.

(** ** Reading a cursor back: the two wire formats *)

Section WireFormats.
Context {DT : datetime.Interface} {AK : AssetKey.Interface}
        {PT : Partitions.Interface}
        {EV : AutoMaterializeAssetEvaluation.Interface}.
Implicit Types (data : json) (asset_graph : AssetGraph.t)
  (w : AssetDaemonCursor.wire) (cursor : AssetDaemonCursor.decoded).

Lemma read_wire_bad_length (l : list json) :
  length l ≠ 3 → length l ≠ 4 →
  AssetDaemonCursor.read_wire (JList l) = Raise (CheckError "Invalid serialized cursor").
Proof.
  intros H3 H4. unfold AssetDaemonCursor.read_wire.
  rewrite bool_decide_eq_false_2; [done|].
  intros [?|[?|[]%elem_of_nil]%elem_of_cons]%elem_of_cons; congruence.
Qed.

Lemma read_wire_three (a b c : json) :
  AssetDaemonCursor.read_wire (JList [a; b; c])
  = Ok (AssetDaemonCursor.mk_wire a b c (JInt 0) (JDict []) (JDict []) (JInt 0)).
Proof.
  unfold AssetDaemonCursor.read_wire.
  rewrite bool_decide_eq_true_2; [done|]. cbn. left.
Qed.

Lemma read_wire_four (a b c d : json) :
  AssetDaemonCursor.read_wire (JList [a; b; c; d])
  = Ok (AssetDaemonCursor.mk_wire a b c d (JDict []) (JDict []) (JInt 0)).
Proof.
  unfold AssetDaemonCursor.read_wire.
  rewrite bool_decide_eq_true_2; [done|]. cbn. right. left.
Qed.

(** A list that [read_wire] accepts has three or four elements. *)
Lemma read_wire_list_inv (l : list json) w :
  AssetDaemonCursor.read_wire (JList l) = Ok w →
  (∃ a b c, l = [a; b; c]) ∨ (∃ a b c d, l = [a; b; c; d]).
Proof.
  intros Hw.
  destruct l as [|a [|b [|c [|d [|e l]]]]];
    try (rewrite read_wire_bad_length in Hw by (cbn; lia); discriminate).
  - left. eauto.
  - right. eauto.
Qed.

(** In the current format the evaluation id is the value under
    ["evaluation_id"]. *)
Lemma read_wire_dict_evaluation_id data w :
  (∀ l, data ≠ JList l) →
  AssetDaemonCursor.read_wire data = Ok w →
  py.getitem data "evaluation_id" = Ok (AssetDaemonCursor.w_evaluation_id w).
Proof.
  intros Hdata Hw.
  assert (AssetDaemonCursor.read_wire data =
    (latest_storage_id ← py.getitem data "latest_storage_id";
     serialized_handled_root_asset_keys ← py.getitem data "handled_root_asset_keys";
     serialized_handled_root_partitions_by_asset_key ←
       py.getitem data "handled_root_partitions_by_asset_key";
     evaluation_id ← py.getitem data "evaluation_id";
     serialized_last_observe_request_timestamp_by_asset_key ←
       py.get data "last_observe_request_timestamp_by_asset_key" (JDict []);
     serialized_latest_evaluation_by_asset_key ←
       py.get data "latest_evaluation_by_asset_key" (JDict []);
     latest_evaluation_timestamp ← py.get data "latest_evaluation_timestamp" (JInt 0);
     Ok (AssetDaemonCursor.mk_wire latest_storage_id
           serialized_handled_root_asset_keys
           serialized_handled_root_partitions_by_asset_key
           evaluation_id
           serialized_last_observe_request_timestamp_by_asset_key
           serialized_latest_evaluation_by_asset_key
           latest_evaluation_timestamp))) as Hread.
  { destruct data; try reflexivity. by destruct (Hdata l). }
  rewrite Hread in Hw.
  apply bind_Ok_inv in Hw as (? & _ & Hw).
  apply bind_Ok_inv in Hw as (? & _ & Hw).
  apply bind_Ok_inv in Hw as (? & _ & Hw).
  apply bind_Ok_inv in Hw as (evaluation_id & Hid & Hw).
  apply bind_Ok_inv in Hw as (? & _ & Hw).
  apply bind_Ok_inv in Hw as (? & _ & Hw).
  apply bind_Ok_inv in Hw as (? & _ & Hw).
  injection Hw as <-. exact Hid.
Qed.

(** What [build] copies from the document as it is. *)
Lemma build_Ok_inv w asset_graph cursor :
  AssetDaemonCursor.build w asset_graph = Ok cursor →
  ∃ partition_items evaluation_items key_strs observe_items,
    py.items (AssetDaemonCursor.serialized_handled_root_partitions_by_asset_key w)
    = Ok partition_items ∧
    py.items (AssetDaemonCursor.serialized_latest_evaluation_by_asset_key w)
    = Ok evaluation_items ∧
    py.iter (AssetDaemonCursor.serialized_handled_root_asset_keys w) = Ok key_strs ∧
    py.items (AssetDaemonCursor.serialized_last_observe_request_timestamp_by_asset_key w)
    = Ok observe_items ∧
    AssetDaemonCursor.read_evaluations evaluation_items ∅
    = Ok (AssetDaemonCursor.latest_evaluation_by_asset_key cursor) ∧
    AssetDaemonCursor.read_asset_keys key_strs ∅
    = Ok (AssetDaemonCursor.handled_root_asset_keys cursor) ∧
    AssetDaemonCursor.latest_storage_id cursor = AssetDaemonCursor.w_latest_storage_id w ∧
    AssetDaemonCursor.evaluation_id cursor = AssetDaemonCursor.w_evaluation_id w ∧
    AssetDaemonCursor.latest_evaluation_timestamp cursor
    = AssetDaemonCursor.w_latest_evaluation_timestamp w ∧
    AssetDaemonCursor.handled_root_partitions_by_asset_key cursor
    = foldl (AssetDaemonCursor.handled_root_partitions_step asset_graph) ∅ partition_items ∧
    AssetDaemonCursor.last_observe_request_timestamp_by_asset_key cursor
    = foldl (λ d item, <[ AssetKey.from_user_string item.1 := item.2 ]> d) ∅ observe_items.
Proof.
  unfold AssetDaemonCursor.build. intros Hbuild.
  apply bind_Ok_inv in Hbuild as (partition_items & Hpartitions & Hbuild).
  apply bind_Ok_inv in Hbuild as (evaluation_items & Hevaluations & Hbuild).
  apply bind_Ok_inv in Hbuild as (evaluations & Hread & Hbuild).
  apply bind_Ok_inv in Hbuild as (key_strs & Hiter & Hbuild).
  apply bind_Ok_inv in Hbuild as (keys & Hkeys & Hbuild).
  apply bind_Ok_inv in Hbuild as (observe_items & Hobserve & Hbuild).
  injection Hbuild as <-.
  exists partition_items, evaluation_items, key_strs, observe_items. by repeat split.
Qed.

(** The legacy documents of the specification's scenarios, with or without
    the evaluation id [x]. *)
Lemma from_serialized_legacy_scenario asset_graph (rest : list json) (x : json) :
  rest = [] ∧ x = JInt 0 ∨ rest = [x] →
  AssetDaemonCursor.from_serialized
    (JList (JInt 100 :: JList [JStr "a"] :: JDict [] :: rest)) asset_graph
  = Ok (AssetDaemonCursor.mk (JInt 100) {[ AssetKey.from_user_string "a" ]} ∅ x ∅ ∅ (JInt 0)).
Proof.
  unfold AssetDaemonCursor.from_serialized.
  intros [[-> ->] | ->]; [rewrite read_wire_three | rewrite read_wire_four];
    rewrite bind_Ok; unfold AssetDaemonCursor.build; cbn;
    by rewrite (right_id_L ∅ (∪)).
Qed.

(** C7.  [from_serialized] on a JSON list: a list whose length is neither 3
    nor 4 raises the check error; a list of three elements that is read has
    its first element as storage id, the evaluation id 0 and no observe
    timestamps nor evaluations; a list of four elements that is read has its
    fourth element as evaluation id; [[100, ["a"], {}]] and
    [[100, ["a"], {}, 7]] are read as the specification says. *)
Theorem from_serialized_legacy_list asset_graph :
  (∀ l, length l ≠ 3 → length l ≠ 4 →
     AssetDaemonCursor.from_serialized (JList l) asset_graph
     = Raise (CheckError "Invalid serialized cursor")) ∧
  (∀ a b c cursor,
     AssetDaemonCursor.from_serialized (JList [a; b; c]) asset_graph = Ok cursor →
     AssetDaemonCursor.latest_storage_id cursor = a ∧
     AssetDaemonCursor.evaluation_id cursor = JInt 0 ∧
     AssetDaemonCursor.last_observe_request_timestamp_by_asset_key cursor = ∅ ∧
     AssetDaemonCursor.latest_evaluation_by_asset_key cursor = ∅) ∧
  (∀ a b c d cursor,
     AssetDaemonCursor.from_serialized (JList [a; b; c; d]) asset_graph = Ok cursor →
     AssetDaemonCursor.latest_storage_id cursor = a ∧
     AssetDaemonCursor.evaluation_id cursor = d ∧
     AssetDaemonCursor.last_observe_request_timestamp_by_asset_key cursor = ∅ ∧
     AssetDaemonCursor.latest_evaluation_by_asset_key cursor = ∅) ∧
  AssetDaemonCursor.from_serialized
    (JList [JInt 100; JList [JStr "a"]; JDict []]) asset_graph
  = Ok (AssetDaemonCursor.mk (JInt 100) {[ AssetKey.from_user_string "a" ]} ∅
          (JInt 0) ∅ ∅ (JInt 0)) ∧
  AssetDaemonCursor.from_serialized
    (JList [JInt 100; JList [JStr "a"]; JDict []; JInt 7]) asset_graph
  = Ok (AssetDaemonCursor.mk (JInt 100) {[ AssetKey.from_user_string "a" ]} ∅
          (JInt 7) ∅ ∅ (JInt 0)).
Proof.
  split; [|split; [|split; [|split]]].
  - intros l H3 H4. unfold AssetDaemonCursor.from_serialized.
    by rewrite read_wire_bad_length.
  - intros a b c cursor. unfold AssetDaemonCursor.from_serialized.
    rewrite read_wire_three, bind_Ok.
    intros (? & ? & ? & ? & _ & [= <-] & _ & [= <-] & Hread & _ & ? & ? & _ & _ & ->)%build_Ok_inv.
    cbn in *. by injection Hread as <-.
  - intros a b c d cursor. unfold AssetDaemonCursor.from_serialized.
    rewrite read_wire_four, bind_Ok.
    intros (? & ? & ? & ? & _ & [= <-] & _ & [= <-] & Hread & _ & ? & ? & _ & _ & ->)%build_Ok_inv.
    cbn in *. by injection Hread as <-.
  - apply (from_serialized_legacy_scenario _ [] (JInt 0)). by left.
  - apply (from_serialized_legacy_scenario _ [JInt 7] (JInt 7)). by right.
Qed.

(** C4, amended.  For every document that [from_serialized] reads,
    [get_evaluation_id_from_serialized] returns the evaluation id of the
    cursor read, in the current format and for a legacy list of four
    elements; for a legacy list of three elements it returns [None], while
    the cursor read has the evaluation id 0. *)
Theorem get_evaluation_id_from_serialized_agrees data asset_graph cursor :
  AssetDaemonCursor.from_serialized data asset_graph = Ok cursor →
  match data with
  | JList [_; _; _] =>
      AssetDaemonCursor.get_evaluation_id_from_serialized data = Ok JNull ∧
      AssetDaemonCursor.evaluation_id cursor = JInt 0
  | _ =>
      AssetDaemonCursor.get_evaluation_id_from_serialized data
      = Ok (AssetDaemonCursor.evaluation_id cursor)
  end.
Proof.
  unfold AssetDaemonCursor.from_serialized.
  intros (w & Hw & Hbuild)%bind_Ok_inv.
  apply build_Ok_inv in Hbuild
    as (? & ? & ? & ? & _ & _ & _ & _ & _ & _ & _ & Hid & _).
  rewrite Hid.
  assert (∀ l, data = JList l →
    (∃ a b c, l = [a; b; c]) ∨ (∃ a b c d, l = [a; b; c; d])) as Hlist.
  { intros l ->. by apply (read_wire_list_inv _ w). }
  destruct data as [| | | | |l|items];
    try (by apply read_wire_dict_evaluation_id).
  destruct (Hlist l eq_refl) as [(a & b & c & ->) | (a & b & c & d & ->)].
  - rewrite read_wire_three in Hw. injection Hw as <-. split; [|done].
    unfold AssetDaemonCursor.get_evaluation_id_from_serialized.
    rewrite bool_decide_eq_true_2; [done|]. cbn. left.
  - rewrite read_wire_four in Hw. injection Hw as <-.
    unfold AssetDaemonCursor.get_evaluation_id_from_serialized.
    rewrite bool_decide_eq_true_2; [done|]. cbn. right. left.
Qed.
End WireFormats.

(** The empty list is rejected, and the two legacy scenarios are read on the
    sample graph. *)
Lemma from_serialized_legacy_list_witness :
  AssetDaemonCursor.from_serialized (JList []) Sample.graph
  = Raise (CheckError "Invalid serialized cursor") ∧
  AssetDaemonCursor.from_serialized
    (JList [JInt 100; JList [JStr "a"]; JDict []; JInt 7]) Sample.graph
  = Ok (AssetDaemonCursor.mk (JInt 100) {[ "a" ]} ∅ (JInt 7) ∅ ∅ (JInt 0)) ∧
  ∀ cursor,
    AssetDaemonCursor.from_serialized
      (JList [JInt 100; JList [JStr "a"]; JDict []]) Sample.graph = Ok cursor →
    AssetDaemonCursor.evaluation_id cursor = JInt 0.
Proof.
  destruct (from_serialized_legacy_list Sample.graph)
    as (Hlength & Hthree & _ & Hscenario3 & Hscenario4).
  split; [|split].
  - apply Hlength; cbn; lia.
  - exact Hscenario4.
  - intros cursor Hcursor. by destruct (Hthree _ _ _ _ Hcursor) as (_ & ? & _).
Defined.

(** The legacy list of four elements: the peek returns the 7 that the cursor
    holds. *)
Lemma get_evaluation_id_from_serialized_agrees_witness :
  AssetDaemonCursor.get_evaluation_id_from_serialized
    (JList [JInt 100; JList [JStr "a"]; JDict []; JInt 7])
  = Ok (JInt 7).
Proof.
  exact (get_evaluation_id_from_serialized_agrees
           (JList [JInt 100; JList [JStr "a"]; JDict []; JInt 7]) Sample.graph _
           (from_serialized_legacy_scenario Sample.graph [JInt 7] (JInt 7)
              (or_intror eq_refl))).
Defined.

(** C4 fails as stated: the legacy list [[100, ["a"], {}]] is read as a
    cursor with evaluation id 0, and the peek returns [None], not 0. *)
Lemma get_evaluation_id_from_serialized_legacy_none :
  AssetDaemonCursor.from_serialized
    (JList [JInt 100; JList [JStr "a"]; JDict []]) Sample.graph
  = Ok (AssetDaemonCursor.mk (JInt 100) {[ "a" ]} ∅ (JInt 0) ∅ ∅ (JInt 0)) ∧
  AssetDaemonCursor.get_evaluation_id_from_serialized
    (JList [JInt 100; JList [JStr "a"]; JDict []])
  = Ok JNull ∧
  Ok JNull ≠ Ok (JInt 0).
Proof.
  split; [|split; [|discriminate]].
  - apply (from_serialized_legacy_scenario Sample.graph [] (JInt 0)). by left.
  - unfold AssetDaemonCursor.get_evaluation_id_from_serialized.
    rewrite bool_decide_eq_true_2; [done|]. cbn. left.
Qed.

(** ** Reading a cursor back: the handled partitions *)

Section HandledPartitions.
Context {DT : datetime.Interface} {AK : AssetKey.Interface}
        {PT : Partitions.Interface}
        {EV : AutoMaterializeAssetEvaluation.Interface}.
Implicit Types (data : json) (asset_graph : AssetGraph.t)
  (w : AssetDaemonCursor.wire) (cursor : AssetDaemonCursor.decoded)
  (partitions_def : PartitionsDefinition) (subset : PartitionsSubset).

Lemma deserialize_subset_or_empty_dropped partitions_def (serialized : json) :
  subset_dropped partitions_def serialized →
  AssetDaemonCursor.deserialize_subset_or_empty partitions_def serialized
  = Partitions.empty_subset partitions_def.
Proof.
  unfold AssetDaemonCursor.deserialize_subset_or_empty.
  intros [-> | (subset & -> & time_windows & start & time_window & -> & -> & Hin & Hlt)];
    [done|].
  assert (existsb (λ time_window, datetime.lt (TimeWindow.start time_window) start)
            time_windows = true) as ->; [|done].
  apply existsb_exists. exists time_window. split; [by apply list_elem_of_In | done].
Qed.

Lemma deserialize_subset_or_empty_kept partitions_def (serialized : json) subset :
  Partitions.deserialize_subset partitions_def serialized = Some subset →
  ¬ window_before_start partitions_def subset →
  AssetDaemonCursor.deserialize_subset_or_empty partitions_def serialized = subset.
Proof.
  intros Hsubset Hwithin. unfold AssetDaemonCursor.deserialize_subset_or_empty.
  rewrite Hsubset.
  destruct (Partitions.included_time_windows subset) as [time_windows|] eqn:Hwindows;
    [|done].
  destruct (Partitions.start partitions_def) as [start|] eqn:Hstart; [|done].
  destruct (existsb _ time_windows) eqn:Hexists; [|done].
  apply existsb_exists in Hexists as (time_window & Hin & Hlt).
  destruct Hwithin. exists time_windows, start, time_window.
  split; [done|]. split; [done|]. split; [by apply list_elem_of_In | done].
Qed.

(** The entry the loop leaves for an asset key, when the document has a
    single serialized value for it. *)
Lemma handled_root_partitions_lookup asset_graph (items : list (string * json))
    (acc : gmap AssetKey.t PartitionsSubset) (key_str : string) (serialized : json)
    partitions_def :
  (key_str, serialized) ∈ items →
  (∀ other value, (other, value) ∈ items →
     AssetKey.from_user_string other = AssetKey.from_user_string key_str →
     value = serialized) →
  AssetKey.from_user_string key_str ∈ AssetGraph.materializable_asset_keys asset_graph →
  AssetGraph.get_partitions_def asset_graph (AssetKey.from_user_string key_str)
  = Some partitions_def →
  foldl (AssetDaemonCursor.handled_root_partitions_step asset_graph) acc items
    !! AssetKey.from_user_string key_str
  = Some (AssetDaemonCursor.deserialize_subset_or_empty partitions_def serialized).
Proof.
  intros Hin Hsingle Hmaterializable Hdef.
  induction items as [|[other value] items IH] using rev_ind;
    [by apply elem_of_nil in Hin|].
  rewrite foldl_app. cbn [foldl].
  unfold AssetDaemonCursor.handled_root_partitions_step at 1. cbn [fst snd].
  destruct (decide (AssetKey.from_user_string other = AssetKey.from_user_string key_str))
    as [Hsame | Hother].
  - rewrite Hsame. rewrite bool_decide_eq_false_2 by (intros Hnot; by apply Hnot).
    rewrite Hdef.
    rewrite (Hsingle other value); [apply lookup_insert_eq | | done].
    apply elem_of_app. right. left.
  - assert (foldl (AssetDaemonCursor.handled_root_partitions_step asset_graph) acc items
              !! AssetKey.from_user_string key_str
            = Some (AssetDaemonCursor.deserialize_subset_or_empty partitions_def serialized))
      as Hbefore.
    { apply IH.
      - apply elem_of_app in Hin as [?|[= -> ->]%list_elem_of_singleton]; [done|].
        by destruct Hother.
      - intros ? ? ?. apply Hsingle. apply elem_of_app. by left. }
    destruct (bool_decide _); [done|].
    destruct (AssetGraph.get_partitions_def asset_graph (AssetKey.from_user_string other));
      [|done].
    by rewrite lookup_insert_ne.
Qed.

(** The loop over the handled partitions never raises: [build] returns as
    soon as it does on the document without them. *)
Lemma build_without_handled_partitions w asset_graph (items : list (string * json)) cursor :
  AssetDaemonCursor.serialized_handled_root_partitions_by_asset_key w = JDict items →
  AssetDaemonCursor.build (without_handled_partitions w) asset_graph = Ok cursor →
  AssetDaemonCursor.build w asset_graph
  = Ok (AssetDaemonCursor.mk
          (AssetDaemonCursor.latest_storage_id cursor)
          (AssetDaemonCursor.handled_root_asset_keys cursor)
          (foldl (AssetDaemonCursor.handled_root_partitions_step asset_graph) ∅ items)
          (AssetDaemonCursor.evaluation_id cursor)
          (AssetDaemonCursor.last_observe_request_timestamp_by_asset_key cursor)
          (AssetDaemonCursor.latest_evaluation_by_asset_key cursor)
          (AssetDaemonCursor.latest_evaluation_timestamp cursor)).
Proof.
  intros Hitems
    (? & evaluation_items & key_strs & observe_items
       & _ & Hevaluations & Hiter & Hobserve & Hread & Hkeys & -> & -> & -> & _ & ->)%build_Ok_inv.
  cbn in Hevaluations, Hiter, Hobserve.
  unfold AssetDaemonCursor.build.
  rewrite Hitems. cbn [py.items]. rewrite bind_Ok.
  rewrite Hevaluations, bind_Ok, Hread, bind_Ok, Hiter, bind_Ok, Hkeys, bind_Ok.
  by rewrite Hobserve, bind_Ok.
Qed.

(** C6.  While a document is read, an entry of the handled partitions whose
    key is a materializable asset with a partitions definition, and whose
    serialized subset cannot be read or has a time window before the start of
    that definition, leaves the empty subset under that key, and does not
    make [from_serialized] raise: it returns whenever the rest of the document
    is read.  The document has no other serialized value for that asset
    key. *)
Theorem from_serialized_drops_unreadable_subset data asset_graph w
    (items : list (string * json)) (key_str : string) (serialized : json) partitions_def :
  AssetDaemonCursor.read_wire data = Ok w →
  AssetDaemonCursor.serialized_handled_root_partitions_by_asset_key w = JDict items →
  (key_str, serialized) ∈ items →
  (∀ other value, (other, value) ∈ items →
     AssetKey.from_user_string other = AssetKey.from_user_string key_str →
     value = serialized) →
  AssetKey.from_user_string key_str ∈ AssetGraph.materializable_asset_keys asset_graph →
  AssetGraph.get_partitions_def asset_graph (AssetKey.from_user_string key_str)
  = Some partitions_def →
  subset_dropped partitions_def serialized →
  (∀ cursor,
     AssetDaemonCursor.from_serialized data asset_graph = Ok cursor →
     AssetDaemonCursor.handled_root_partitions_by_asset_key cursor
       !! AssetKey.from_user_string key_str
     = Some (Partitions.empty_subset partitions_def)) ∧
  (returns (AssetDaemonCursor.build (without_handled_partitions w) asset_graph) →
   returns (AssetDaemonCursor.from_serialized data asset_graph)).
Proof.
  intros Hw Hitems Hin Hsingle Hmaterializable Hdef Hdropped.
  unfold AssetDaemonCursor.from_serialized. rewrite Hw, bind_Ok. split.
  - intros cursor (partition_items & ? & ? & ? & Hitems' & _ & _ & _ & _ & _ & _ & _ & _
                    & -> & _)%build_Ok_inv.
    rewrite Hitems in Hitems'. injection Hitems' as <-.
    rewrite (handled_root_partitions_lookup _ _ _ _ serialized partitions_def) by done.
    by rewrite deserialize_subset_or_empty_dropped.
  - intros [cursor Hcursor]. eexists.
    by apply (build_without_handled_partitions _ _ items).
Qed.
End HandledPartitions.

(** The daily asset ["d"] of the sample graph starts at instant 100: a subset
    with a window at instant 65 is dropped, and so is a subset that is not a
    daily one. *)
Lemma from_serialized_drops_unreadable_subset_witness :
  (∃ cursor,
     AssetDaemonCursor.from_serialized
       (JList [JInt 1; JList []; JDict [("d", JStr "WA")]]) Sample.graph = Ok cursor ∧
     AssetDaemonCursor.handled_root_partitions_by_asset_key cursor !! "d"
     = Some (Sample.Windows "")) ∧
  (∃ cursor,
     AssetDaemonCursor.from_serialized
       (JList [JInt 1; JList []; JDict [("d", JStr "Kx")]]) Sample.graph = Ok cursor ∧
     AssetDaemonCursor.handled_root_partitions_by_asset_key cursor !! "d"
     = Some (Sample.Windows "")).
Proof.
  assert (∀ serialized,
    subset_dropped (Sample.Daily 100) serialized →
    ∃ cursor,
      AssetDaemonCursor.from_serialized
        (JList [JInt 1; JList []; JDict [("d", serialized)]]) Sample.graph = Ok cursor ∧
      AssetDaemonCursor.handled_root_partitions_by_asset_key cursor !! "d"
      = Some (Sample.Windows "")) as Hdrop.
  { intros serialized Hdropped.
    destruct (from_serialized_drops_unreadable_subset
                (JList [JInt 1; JList []; JDict [("d", serialized)]]) Sample.graph
                _ [("d", serialized)] "d" serialized (Sample.Daily 100)
                (read_wire_three _ _ _) eq_refl) as [Hempty Hreturns].
    - left.
    - by intros ? ? [[= _ ->]|[]%elem_of_nil]%elem_of_cons _.
    - cbn. rewrite !elem_of_union, !elem_of_singleton. auto.
    - reflexivity.
    - exact Hdropped.
    - destruct Hreturns as [cursor Hcursor]; [by eexists|].
      exists cursor. split; [exact Hcursor | by apply Hempty]. }
  split; apply Hdrop.
  - right. exists (Sample.Windows "A"). split; [reflexivity|].
    exists [Sample.window 65], 100%Z, (Sample.window 65).
    split; [reflexivity|]. split; [reflexivity|]. split; [left | reflexivity].
  - by left.
Defined.

(** ** Serializing a cursor and reading it back *)

Section DictOf.
Implicit Types (d kvs : list (string * json)) (k : string) (v : json).

Lemma setitem_fresh d k v : k ∉ d.*1 → py.setitem d k v = d ++ [(k, v)].
Proof.
  induction d as [|[k' v'] d IH]; intros Hfresh; cbn; [done|].
  cbn in Hfresh. apply not_elem_of_cons in Hfresh as [Hne Hfresh].
  destruct (String.eqb_spec k' k) as [->|_]; [done|]. by rewrite IH.
Qed.

(** A dict comprehension over items with distinct keys keeps them all, in
    order. *)
Lemma dict_of_NoDup kvs : NoDup kvs.*1 → py.dict_of kvs = kvs.
Proof.
  unfold py.dict_of. intros Hkvs.
  assert (∀ d, NoDup (d ++ kvs).*1 →
    foldl (λ d kv, py.setitem d kv.1 kv.2) d kvs = d ++ kvs) as Hfold.
  { clear Hkvs. induction kvs as [|[k v] kvs IH]; intros d Hd; cbn.
    - by rewrite app_nil_r.
    - rewrite setitem_fresh.
      + rewrite IH; rewrite <- app_assoc; [done|]. exact Hd.
      + rewrite fmap_app in Hd. apply NoDup_app in Hd as (_ & Hd & _).
        intros Hk. apply (Hd k Hk). left. }
  by apply (Hfold []).
Qed.
End DictOf.

Section MapToList.
Context `{Countable K} {V W : Type}.

(** Assigning the items of a dictionary one by one rebuilds it. *)
Lemma assignments_map_to_list (g : V → W) (m : gmap K V) :
  foldl (λ d x, <[ x.1 := g x.2 ]> d) ∅ (map_to_list m) = g <$> m.
Proof.
  apply map_eq. intros k. rewrite lookup_fmap.
  destruct (m !! k) as [v|] eqn:Hk; cbn.
  - pose proof (NoDup_fst_map_to_list m) as Hkeys.
    apply elem_of_map_to_list, list_elem_of_split in Hk as (l1 & l2 & Hsplit).
    rewrite Hsplit in Hkeys |- *.
    apply (lookup_assignments_last fst (λ x, g x.2) l1 (k, v) l2).
    intros [k' v'] Hin Hsame. cbn in Hsame. subst k'.
    rewrite fmap_app in Hkeys. apply NoDup_app in Hkeys as (_ & _ & Hkeys).
    cbn in Hkeys. apply NoDup_cons in Hkeys as [Hkeys _].
    apply Hkeys. by apply (list_elem_of_fmap_2 fst _ (k, v')).
  - rewrite (lookup_assignments_other fst (λ x, g x.2)); [apply lookup_empty|].
    intros [k' v'] Hin%elem_of_map_to_list Hsame. cbn in Hsame. congruence.
Qed.
End MapToList.

Section RoundTrip.
Context {DT : datetime.Interface} {AK : AssetKey.Interface}
        {PT : Partitions.Interface}
        {EV : AutoMaterializeAssetEvaluation.Interface}.
Implicit Types (self : AssetDaemonCursor.t) (asset_graph : AssetGraph.t).

Lemma to_user_string_inj :
  asset_key_round_trip → Inj (=) (=) AssetKey.to_user_string.
Proof. intros Hkeys k1 k2 Hsame. by rewrite <- (Hkeys k1), Hsame. Qed.

(** The items [serialize] writes for a dictionary have distinct keys. *)
Lemma serialized_items_NoDup {V} (g : V → json) (m : gmap AssetKey.t V) :
  asset_key_round_trip →
  NoDup ((λ kv, (AssetKey.to_user_string kv.1, g kv.2)) <$> map_to_list m).*1.
Proof.
  intros Hkeys. rewrite <- list_fmap_compose.
  rewrite (list_fmap_ext _ (AssetKey.to_user_string ∘ fst) (map_to_list m)) by done.
  rewrite list_fmap_compose.
  apply (NoDup_fmap_2 _ (Inj0 := to_user_string_inj Hkeys)), NoDup_fst_map_to_list.
Qed.

Lemma foldl_fmap_steps {A B C} (step : C → B → C) (step' : C → A → C) (f : A → B)
    (l : list A) (acc : C) :
  (∀ acc x, x ∈ l → step acc (f x) = step' acc x) →
  foldl step acc (f <$> l) = foldl step' acc l.
Proof.
  revert acc. induction l as [|x l IH]; intros acc Hstep; cbn; [done|].
  rewrite Hstep by left. apply IH. intros ? ? ?. apply Hstep. by right.
Qed.

Lemma read_evaluations_serialized
    (l : list (AssetKey.t * AutoMaterializeAssetEvaluation.t))
    (acc : gmap AssetKey.t AutoMaterializeAssetEvaluation.t) :
  asset_key_round_trip → evaluation_round_trip →
  AssetDaemonCursor.read_evaluations
    ((λ kv, (AssetKey.to_user_string kv.1,
             JStr (AutoMaterializeAssetEvaluation.serialize_value kv.2))) <$> l) acc
  = Ok (foldl (λ d x, <[ x.1 := id x.2 ]> d) acc l).
Proof.
  intros Hkeys Hevaluations. revert acc.
  induction l as [|[key evaluation] l IH]; intros acc; cbn; [done|].
  by rewrite Hevaluations, Hkeys, IH.
Qed.

Lemma read_asset_keys_serialized (l : list AssetKey.t) (acc : gset AssetKey.t) :
  asset_key_round_trip →
  AssetDaemonCursor.read_asset_keys ((λ key, JStr (AssetKey.to_user_string key)) <$> l) acc
  = Ok (list_to_set l ∪ acc).
Proof.
  intros Hkeys. revert acc.
  induction l as [|key l IH]; intros acc; cbn.
  - by rewrite (left_id_L ∅ (∪)).
  - rewrite Hkeys, IH. f_equal.
    by rewrite (assoc_L (∪)), (comm_L (∪) (list_to_set l)).
Qed.

(** The same for the asset keys and the evaluations that a cursor holds. *)
Lemma serialized_items_NoDup_held {V} (g : V → json) (m : gmap AssetKey.t V) :
  (∀ key, is_Some (m !! key) →
     AssetKey.from_user_string (AssetKey.to_user_string key) = key) →
  NoDup ((λ kv, (AssetKey.to_user_string kv.1, g kv.2)) <$> map_to_list m).*1.
Proof.
  intros Hkeys. rewrite <- list_fmap_compose.
  rewrite (list_fmap_ext _ (AssetKey.to_user_string ∘ fst) (map_to_list m)) by done.
  rewrite list_fmap_compose.
  apply NoDup_fmap_2_strong; [|apply NoDup_fst_map_to_list].
  assert (∀ key, key ∈ (map_to_list m).*1 → is_Some (m !! key)) as Hheld.
  { intros key ([key' v] & -> & Hin%elem_of_map_to_list)%list_elem_of_fmap. by eexists. }
  intros k1 k2 Hk1%Hheld%Hkeys Hk2%Hheld%Hkeys Hsame. congruence.
Qed.

Lemma read_evaluations_serialized_held
    (l : list (AssetKey.t * AutoMaterializeAssetEvaluation.t))
    (acc : gmap AssetKey.t AutoMaterializeAssetEvaluation.t) :
  (∀ key evaluation, (key, evaluation) ∈ l →
     AssetKey.from_user_string (AssetKey.to_user_string key) = key ∧
     AutoMaterializeAssetEvaluation.deserialize_value
       (JStr (AutoMaterializeAssetEvaluation.serialize_value evaluation))
     = Some evaluation) →
  AssetDaemonCursor.read_evaluations
    ((λ kv, (AssetKey.to_user_string kv.1,
             JStr (AutoMaterializeAssetEvaluation.serialize_value kv.2))) <$> l) acc
  = Ok (foldl (λ d x, <[ x.1 := id x.2 ]> d) acc l).
Proof.
  revert acc. induction l as [|[key evaluation] l IH]; intros acc Hheld; cbn; [done|].
  destruct (Hheld key evaluation) as [-> ->]; [left|].
  apply IH. intros ? ? ?. apply Hheld. by right.
Qed.

Lemma read_asset_keys_serialized_held (l : list AssetKey.t) (acc : gset AssetKey.t) :
  (∀ key, key ∈ l → AssetKey.from_user_string (AssetKey.to_user_string key) = key) →
  AssetDaemonCursor.read_asset_keys ((λ key, JStr (AssetKey.to_user_string key)) <$> l) acc
  = Ok (list_to_set l ∪ acc).
Proof.
  revert acc. induction l as [|key l IH]; intros acc Hheld; cbn.
  - by rewrite (left_id_L ∅ (∪)).
  - rewrite Hheld by left. rewrite IH by (intros ? ?; apply Hheld; by right). f_equal.
    by rewrite (assoc_L (∪)), (comm_L (∪) (list_to_set l)).
Qed.

(** C2, amended.  A cursor is read back from its serialized form as it was,
    field by field, when every asset key it holds reads back from its user
    string, every evaluation it holds reads back from its serialized value,
    every key of its handled partitions is a materializable asset whose
    current partitions definition reads the serialized subset back, and no
    such subset has a time window before the start of that definition.  The
    fields are equal as values: a timestamp is read back as the float that
    was written. *)
Theorem from_serialized_serialize asset_graph self :
  asset_keys_read_back self →
  evaluations_read_back self →
  handled_partitions_readable asset_graph self →
  handled_partitions_within_start asset_graph self →
  AssetDaemonCursor.from_serialized (AssetDaemonCursor.serialize self) asset_graph
  = Ok (AssetDaemonCursor.untyped self).
Proof.
  intros Hkeys Hevaluations Hreadable Hwithin.
  unfold AssetDaemonCursor.from_serialized, AssetDaemonCursor.serialize.
  rewrite (dict_of_NoDup _
             (serialized_items_NoDup_held
                (λ subset, JStr (Partitions.serialize subset)) _
                (λ key Hheld, Hkeys key (or_intror (or_introl Hheld))))).
  rewrite (dict_of_NoDup _
             (serialized_items_NoDup_held JFloat _
                (λ key Hheld, Hkeys key (or_intror (or_intror (or_introl Hheld)))))).
  rewrite (dict_of_NoDup _
             (serialized_items_NoDup_held
                (λ evaluation,
                   JStr (AutoMaterializeAssetEvaluation.serialize_value evaluation))
                _ (λ key Hheld, Hkeys key (or_intror (or_intror (or_intror Hheld)))))).
  change (AssetDaemonCursor.read_wire (JDict ?d))
    with (AssetDaemonCursor.read_wire (JDict d)).
  cbn [AssetDaemonCursor.read_wire py.getitem py.get py.dict_lookup String.eqb
       Ascii.eqb Bool.eqb from_option id mbind result_bind].
  unfold AssetDaemonCursor.build.
  cbn [AssetDaemonCursor.serialized_handled_root_partitions_by_asset_key
       AssetDaemonCursor.serialized_latest_evaluation_by_asset_key
       AssetDaemonCursor.serialized_handled_root_asset_keys
       AssetDaemonCursor.serialized_last_observe_request_timestamp_by_asset_key
       AssetDaemonCursor.w_latest_storage_id AssetDaemonCursor.w_evaluation_id
       AssetDaemonCursor.w_latest_evaluation_timestamp py.items py.iter].
  rewrite !bind_Ok.
  rewrite read_evaluations_serialized_held.
  2:{ intros key evaluation Hin%elem_of_map_to_list. split.
      - apply Hkeys. do 3 right. by eexists.
      - by apply (Hevaluations key). }
  rewrite !bind_Ok.
  rewrite read_asset_keys_serialized_held.
  2:{ intros key Hin%elem_of_elements. apply Hkeys. by left. }
  rewrite !bind_Ok.
  rewrite (foldl_fmap_steps _ (λ d x, <[ x.1 := id x.2 ]> d)).
  2:{ intros acc [key subset] Hin%elem_of_map_to_list.
      destruct (Hreadable key subset Hin) as (Hmaterializable & partitions_def & Hdef & Hsubset).
      unfold AssetDaemonCursor.handled_root_partitions_step. cbn [fst snd].
      rewrite Hkeys by (right; left; by eexists).
      rewrite bool_decide_eq_false_2 by (intros Hnot; by apply Hnot).
      rewrite Hdef.
      rewrite (deserialize_subset_or_empty_kept _ _ subset); [done | done |].
      by apply (Hwithin key). }
  rewrite (foldl_fmap_steps _ (λ d x, <[ x.1 := JFloat x.2 ]> d)).
  2:{ intros acc [key timestamp] Hin%elem_of_map_to_list. cbn [fst snd].
      rewrite Hkeys; [done|]. do 2 right. left. by eexists. }
  rewrite !assignments_map_to_list, !map_fmap_id.
  rewrite (right_id_L ∅ (∪)), list_to_set_elements_L.
  reflexivity.
Qed.
End RoundTrip.

(** The sample cursor whose daily asset has handled the window at instant
    120, past the start 100 of its partitions, is read back as it was. *)
Lemma from_serialized_serialize_witness :
  AssetDaemonCursor.from_serialized
    (AssetDaemonCursor.serialize (Sample.handled_windows "x")) Sample.graph
  = Ok (AssetDaemonCursor.untyped (Sample.handled_windows "x")).
Proof.
  apply from_serialized_serialize.
  - by intros key _.
  - by intros key [asset_key []] _.
  - intros key subset Hlookup.
    unfold Sample.handled_windows in Hlookup.
    cbn [AssetDaemonCursor.handled_root_partitions_by_asset_key] in Hlookup.
    apply lookup_singleton_Some in Hlookup as [<- <-]. split.
    + cbn. rewrite !elem_of_union, !elem_of_singleton. auto.
    + by exists (Sample.Daily 100).
  - intros key subset partitions_def Hlookup.
    unfold Sample.handled_windows in Hlookup.
    cbn [AssetDaemonCursor.handled_root_partitions_by_asset_key] in Hlookup.
    apply lookup_singleton_Some in Hlookup as [<- <-]. intros [= <-].
    intros (time_windows & start & time_window & [= <-] & [= <-] & Hin & Hlt).
    apply list_elem_of_singleton in Hin as ->. discriminate.
Defined.

(** C2 fails as stated: the daily asset ["d"] is materializable and its
    partitions definition reads the serialized subset back, but the window at
    instant 65 is before the start 100, and the cursor read back has the empty
    subset for ["d"]. *)
Lemma from_serialized_serialize_start_shift :
  handled_partitions_readable Sample.graph (Sample.handled_windows "A") ∧
  ∃ cursor,
    AssetDaemonCursor.from_serialized
      (AssetDaemonCursor.serialize (Sample.handled_windows "A")) Sample.graph = Ok cursor ∧
    AssetDaemonCursor.handled_root_partitions_by_asset_key cursor !! "d"
    = Some (Sample.Windows "") ∧
    AssetDaemonCursor.handled_root_partitions_by_asset_key
      (AssetDaemonCursor.untyped (Sample.handled_windows "A")) !! "d"
    = Some (Sample.Windows "A") ∧
    cursor ≠ AssetDaemonCursor.untyped (Sample.handled_windows "A").
Proof.
  split.
  - intros key subset Hlookup.
    unfold Sample.handled_windows in Hlookup.
    cbn [AssetDaemonCursor.handled_root_partitions_by_asset_key] in Hlookup.
    apply lookup_singleton_Some in Hlookup as [<- <-]. split.
    + cbn. rewrite !elem_of_union, !elem_of_singleton. auto.
    + by exists (Sample.Daily 100).
  - assert (AssetDaemonCursor.from_serialized
              (AssetDaemonCursor.serialize (Sample.handled_windows "A")) Sample.graph
            = Ok (AssetDaemonCursor.untyped (Sample.handled_windows ""))) as Hread.
    { unfold AssetDaemonCursor.from_serialized, AssetDaemonCursor.serialize.
      cbn [Sample.handled_windows AssetDaemonCursor.handled_root_partitions_by_asset_key
           AssetDaemonCursor.last_observe_request_timestamp_by_asset_key
           AssetDaemonCursor.latest_evaluation_by_asset_key
           AssetDaemonCursor.handled_root_asset_keys].
      rewrite !map_to_list_singleton, elements_singleton.
      reflexivity. }
    eexists. split; [exact Hread|].
    split; [apply lookup_singleton_eq|]. split; [apply lookup_singleton_eq|].
    intros Hsame.
    apply (f_equal (λ c, AssetDaemonCursor.handled_root_partitions_by_asset_key c !! "d"))
      in Hsame.
    cbn in Hsame. rewrite !lookup_singleton_eq in Hsame. discriminate.
Qed.

(** * Further properties of the updates *)

Section Updates.
Context {DT : datetime.Interface} {AK : AssetKey.Interface}
        {PT : Partitions.Interface}
        {EV : AutoMaterializeAssetEvaluation.Interface}.
Implicit Types (self : AssetDaemonCursor.t) (key : AssetKey.t)
  (asset_cursors : list AssetDaemonAssetCursor.t)
  (evaluations : list AutoMaterializeAssetEvaluation.t).

Local Abbreviation subset_of cursor :=
  (AssetDaemonAssetCursor.materialized_requested_or_discarded_subset cursor).
Local Abbreviation value_of cursor := (AssetSubset.value (subset_of cursor)).

(** X1.  After [with_updates], every newly observe-requested key has the
    timestamp of this request, and every other key has the timestamp it had
    (or none). *)
Theorem with_updates_observe_request_timestamps self latest_storage_id evaluation_id
    newly_observe_requested_asset_keys observe_request_timestamp evaluations
    evaluation_time asset_cursors new_cursor :
  AssetDaemonCursor.with_updates self latest_storage_id evaluation_id
    newly_observe_requested_asset_keys observe_request_timestamp evaluations
    evaluation_time asset_cursors = Ok new_cursor →
  ∀ key,
    AssetDaemonCursor.last_observe_request_timestamp_by_asset_key new_cursor !! key
    = if bool_decide (key ∈ newly_observe_requested_asset_keys)
      then Some observe_request_timestamp
      else AssetDaemonCursor.last_observe_request_timestamp_by_asset_key self !! key.
Proof.
  intros (keys & ? & _ & _ & ->)%with_updates_Ok_inv key. cbn.
  generalize (AssetDaemonCursor.last_observe_request_timestamp_by_asset_key self).
  intros d.
  induction newly_observe_requested_asset_keys as [|k l IH] using rev_ind.
  - by rewrite bool_decide_eq_false_2 by apply not_elem_of_nil.
  - rewrite foldl_app. cbn [foldl].
    destruct (decide (k = key)) as [->|Hne].
    + rewrite lookup_insert_eq, bool_decide_eq_true_2; [done|].
      apply elem_of_app. right. left.
    + rewrite lookup_insert_ne, IH by done.
      apply (f_equal (λ b : bool, if b then _ else _)).
      apply bool_decide_ext. rewrite elem_of_app, list_elem_of_singleton. intuition congruence.
Qed.

(** A call whose storage ids pass the check raises what the timestamp of
    the evaluation time raises. *)
Lemma with_updates_raises_timestamp self latest_storage_id evaluation_id
    newly_observe_requested_asset_keys observe_request_timestamp evaluations
    evaluation_time asset_cursors (e : exn) :
  (∀ new old, latest_storage_id = Some new →
     AssetDaemonCursor.latest_storage_id self = Some old →
     new ≠ 0%Z → old ≠ 0%Z → (old ≤ new)%Z) →
  datetime.timestamp evaluation_time = Raise e →
  AssetDaemonCursor.with_updates self latest_storage_id evaluation_id
    newly_observe_requested_asset_keys observe_request_timestamp evaluations
    evaluation_time asset_cursors = Raise e.
Proof.
  intros Hids Htimestamp. unfold AssetDaemonCursor.with_updates.
  destruct (collect_handled_root_asset_keys_spec asset_cursors ∅) as (keys & -> & _).
  rewrite collect_handled_root_partitions_spec, Htimestamp.
  destruct latest_storage_id as [new|],
    (AssetDaemonCursor.latest_storage_id self) as [old|] eqn:Hold;
    cbn [py.truthy andb py.ge]; try (by rewrite !bind_Ok).
  - destruct (Z.eqb_spec new 0) as [->|Hnew]; cbn [negb andb];
      [by rewrite !bind_Ok|].
    destruct (Z.eqb_spec old 0) as [->|Hold0]; cbn [negb andb];
      [by rewrite !bind_Ok|].
    rewrite bind_Ok.
    assert ((old <=? new)%Z = true) as -> by (apply Z.leb_le; eauto).
    cbn [check.invariant]. by rewrite !bind_Ok.
  - destruct (negb (new =? 0)%Z); cbn [andb]; by rewrite !bind_Ok.
Qed.

(** X2.  [with_updates] raises exactly when both storage ids are integers
    other than 0 and the new one is below the previous one, or the timestamp
    of the evaluation time raises.  In the first case it raises the check
    error, the check coming first; otherwise it raises what the timestamp
    raises.  In particular a cursor that has no storage id yet, and a call
    that passes none, are refused for their evaluation time only. *)
Theorem with_updates_raises_iff self latest_storage_id evaluation_id
    newly_observe_requested_asset_keys observe_request_timestamp evaluations
    evaluation_time asset_cursors :
  (raises (AssetDaemonCursor.with_updates self latest_storage_id evaluation_id
      newly_observe_requested_asset_keys observe_request_timestamp evaluations
      evaluation_time asset_cursors) ↔
   (∃ new old,
      latest_storage_id = Some new ∧
      AssetDaemonCursor.latest_storage_id self = Some old ∧
      new ≠ 0%Z ∧ old ≠ 0%Z ∧ (new < old)%Z) ∨
   raises (datetime.timestamp evaluation_time)) ∧
  (∀ e,
     AssetDaemonCursor.with_updates self latest_storage_id evaluation_id
       newly_observe_requested_asset_keys observe_request_timestamp evaluations
       evaluation_time asset_cursors = Raise e →
     ((∃ new old,
         latest_storage_id = Some new ∧
         AssetDaemonCursor.latest_storage_id self = Some old ∧
         new ≠ 0%Z ∧ old ≠ 0%Z ∧ (new < old)%Z) ∧
      e = CheckError "Latest storage ID should be >= previous latest storage ID") ∨
     (¬ (∃ new old,
           latest_storage_id = Some new ∧
           AssetDaemonCursor.latest_storage_id self = Some old ∧
           new ≠ 0%Z ∧ old ≠ 0%Z ∧ (new < old)%Z) ∧
      datetime.timestamp evaluation_time = Raise e)).
Proof.
  assert ((∃ new old,
             latest_storage_id = Some new ∧
             AssetDaemonCursor.latest_storage_id self = Some old ∧
             new ≠ 0%Z ∧ old ≠ 0%Z ∧ (new < old)%Z) ∨
          (∀ new old, latest_storage_id = Some new →
             AssetDaemonCursor.latest_storage_id self = Some old →
             new ≠ 0%Z → old ≠ 0%Z → (old ≤ new)%Z)) as [Hbelow | Hids].
  { destruct latest_storage_id as [new|] eqn:Hnew; [|by right].
    destruct (AssetDaemonCursor.latest_storage_id self) as [old|] eqn:Hold;
      [|by right].
    destruct (Z.lt_ge_cases new old) as [Hlt | Hge].
    - destruct (decide (new = 0%Z)) as [->|Hnew0];
        [right; by intros ? ? [= <-] _ ?|].
      destruct (decide (old = 0%Z)) as [->|Hold0];
        [right; by intros ? ? _ [= <-] _ ?|].
      left. by exists new, old.
    - right. intros ? ? [= <-] [= <-] _ _. lia. }
  - destruct Hbelow as (new & old & -> & Hold & Hnew0 & Hold0 & Hlt).
    rewrite (with_updates_raises _ _ old) by done. split.
    + split; [left; by exists new, old | by eexists].
    + intros e [= <-]. left. split; [by exists new, old | done].
  - assert (¬ (∃ new old,
                 latest_storage_id = Some new ∧
                 AssetDaemonCursor.latest_storage_id self = Some old ∧
                 new ≠ 0%Z ∧ old ≠ 0%Z ∧ (new < old)%Z)) as Hnot.
    { intros (new & old & Hnew & Hold & Hnew0 & Hold0 & Hlt).
      pose proof (Hids new old Hnew Hold Hnew0 Hold0). lia. }
    destruct (datetime.timestamp evaluation_time) as [timestamp|e0] eqn:Htimestamp.
    + destruct (with_updates_returns self latest_storage_id evaluation_id
                  newly_observe_requested_asset_keys observe_request_timestamp evaluations
                  evaluation_time asset_cursors Hids) as [r Hr].
      { rewrite Htimestamp. by eexists. }
      rewrite Hr. split.
      * split; [by intros [e ?]|]. intros [Hbelow | [e ?]]; [by destruct Hnot | done].
      * by intros e.
    + rewrite (with_updates_raises_timestamp _ _ _ _ _ _ _ _ e0 Hids Htimestamp). split.
      * split; [intros _; right; by eexists | by eexists].
      * intros e [= <-]. by right.
Qed.

(** X3.  When several evaluations are for the same asset, the last one that
    is not empty is the one stored: an empty evaluation that comes later does
    not remove it. *)
Theorem with_updates_last_non_empty_evaluation self latest_storage_id evaluation_id
    newly_observe_requested_asset_keys observe_request_timestamp evaluations
    evaluation_time asset_cursors new_cursor before evaluation after :
  AssetDaemonCursor.with_updates self latest_storage_id evaluation_id
    newly_observe_requested_asset_keys observe_request_timestamp evaluations
    evaluation_time asset_cursors = Ok new_cursor →
  evaluations = before ++ evaluation :: after →
  AutoMaterializeAssetEvaluation.is_empty evaluation = false →
  (∀ later, later ∈ after →
     AutoMaterializeAssetEvaluation.is_empty later = false →
     AutoMaterializeAssetEvaluation.asset_key later
     ≠ AutoMaterializeAssetEvaluation.asset_key evaluation) →
  AssetDaemonCursor.latest_evaluation_by_asset_key new_cursor
    !! AutoMaterializeAssetEvaluation.asset_key evaluation
  = Some evaluation.
Proof.
  intros (keys & ? & _ & _ & ->)%with_updates_Ok_inv -> Hnon_empty Hlater. cbn.
  rewrite filter_app, filter_cons_True by (rewrite Hnon_empty; exact id).
  apply (lookup_assignments_last AutoMaterializeAssetEvaluation.asset_key id).
  intros later [Hlater_non_empty Hin]%list_elem_of_filter. apply Hlater; [done|].
  by destruct (AutoMaterializeAssetEvaluation.is_empty later).
Qed.

(** The handled state [asset_cursor_for_key] gives a key. *)
Lemma asset_cursor_for_key_value self key (partitions_def : option PartitionsDefinition) :
  value_of (AssetDaemonCursor.asset_cursor_for_key self key partitions_def)
  = match AssetDaemonCursor.handled_root_partitions_by_asset_key self !! key with
    | Some subset => AssetSubset.SubsetValue subset
    | None =>
        if bool_decide (key ∈ AssetDaemonCursor.handled_root_asset_keys self)
        then AssetSubset.BoolValue true
        else AssetSubset.value (AssetSubset.empty key partitions_def)
    end.
Proof.
  unfold AssetDaemonCursor.asset_cursor_for_key. cbn.
  destruct (_ !! key); [done|]. by case_bool_decide.
Qed.

Lemma empty_value_not_true key (partitions_def : option PartitionsDefinition) :
  AssetSubset.value (AssetSubset.empty key partitions_def) ≠ AssetSubset.BoolValue true.
Proof. by destruct partitions_def. Qed.

(** X4.  The per-asset cursors that [asset_cursor_for_key] derives from one
    cursor, for any keys and with the partitions definition of each key, can
    be passed to [with_updates] without any asset key ending both in
    [handled_root_asset_keys] and in [handled_root_partitions_by_asset_key],
    even when a key comes twice or the cursor itself held a key in both. *)
Theorem with_updates_of_derived_cursors_exclusive self (derived_from : AssetDaemonCursor.t)
    (partitions_defs : AssetKey.t → option PartitionsDefinition) (keys : list AssetKey.t)
    latest_storage_id evaluation_id newly_observe_requested_asset_keys
    observe_request_timestamp evaluations evaluation_time new_cursor :
  AssetDaemonCursor.with_updates self latest_storage_id evaluation_id
    newly_observe_requested_asset_keys observe_request_timestamp evaluations
    evaluation_time
    ((λ key, AssetDaemonCursor.asset_cursor_for_key derived_from key (partitions_defs key))
       <$> keys)
  = Ok new_cursor →
  AssetDaemonCursor.handled_root_asset_keys new_cursor
  ## dom (AssetDaemonCursor.handled_root_partitions_by_asset_key new_cursor).
Proof.
  intros Hcall.
  destruct (handled_state_after_update _ _ _ _ _ _ _ _ _ Hcall) as [Hkeys Hentries].
  apply elem_of_disjoint. intros key Hunpartitioned [subset Hpartitioned]%elem_of_dom.
  rewrite Hentries in Hpartitioned.
  apply Hkeys in Hunpartitioned as (cursor1 & Hin1 & Hkey1 & Hvalue1).
  apply lookup_assignments_Some in Hpartitioned as [Hempty | ([k s] & Hin & Hk & Hs)];
    [by rewrite lookup_empty in Hempty|].
  cbn in Hk, Hs. subst k s.
  apply elem_of_partitioned_entries in Hin as (cursor2 & Hin2 & Hkey2 & Hvalue2).
  apply list_elem_of_fmap in Hin1 as (key1 & -> & _).
  apply list_elem_of_fmap in Hin2 as (key2 & -> & _).
  cbn in Hkey1, Hkey2. subst key1 key2.
  rewrite asset_cursor_for_key_value in Hvalue1, Hvalue2.
  destruct (AssetDaemonCursor.handled_root_partitions_by_asset_key derived_from !! key);
    [done|].
  case_bool_decide; [done|]. by apply empty_value_not_true in Hvalue1.
Qed.

(** X5.  Deriving the per-asset cursors of some keys and folding them back
    with [with_updates] keeps the handled state of these keys: a key with
    handled partitions keeps its subset, a handled unpartitioned key stays
    handled, and no key becomes handled that was not. *)
Theorem with_updates_of_derived_cursors_keeps_handled self
    (partitions_defs : AssetKey.t → option PartitionsDefinition) (keys : list AssetKey.t)
    latest_storage_id evaluation_id newly_observe_requested_asset_keys
    observe_request_timestamp evaluations evaluation_time new_cursor :
  AssetDaemonCursor.with_updates self latest_storage_id evaluation_id
    newly_observe_requested_asset_keys observe_request_timestamp evaluations
    evaluation_time
    ((λ key, AssetDaemonCursor.asset_cursor_for_key self key (partitions_defs key)) <$> keys)
  = Ok new_cursor →
  (∀ key subset,
     key ∈ keys →
     AssetDaemonCursor.handled_root_partitions_by_asset_key self !! key = Some subset →
     AssetDaemonCursor.handled_root_partitions_by_asset_key new_cursor !! key = Some subset) ∧
  (∀ key,
     key ∈ AssetDaemonCursor.handled_root_asset_keys new_cursor ↔
     key ∈ keys ∧
     key ∈ AssetDaemonCursor.handled_root_asset_keys self ∧
     AssetDaemonCursor.handled_root_partitions_by_asset_key self !! key = None).
Proof.
  intros Hcall.
  destruct (handled_state_after_update _ _ _ _ _ _ _ _ _ Hcall) as [Hkeys Hentries].
  split.
  - intros key subset Hin Hsubset. rewrite Hentries.
    destruct (lookup_assignments_is_Some fst snd
                (AssetDaemonCursor.partitioned_entries
                   ((λ key, AssetDaemonCursor.asset_cursor_for_key self key
                              (partitions_defs key)) <$> keys))
                ∅ (key, subset)) as [stored Hstored].
    { apply elem_of_partitioned_entries.
      exists (AssetDaemonCursor.asset_cursor_for_key self key (partitions_defs key)).
      split; [|split; [done|]].
      { exact (list_elem_of_fmap_2
                 (λ key, AssetDaemonCursor.asset_cursor_for_key self key (partitions_defs key))
                 _ _ Hin). }
      by rewrite asset_cursor_for_key_value, Hsubset. }
    cbn [fst] in Hstored. rewrite Hstored. f_equal.
    apply lookup_assignments_Some in Hstored as [Hempty | ([k s] & Hentry & Hk & Hs)];
      [by rewrite lookup_empty in Hempty|].
    cbn in Hk, Hs. subst k s.
    apply elem_of_partitioned_entries in Hentry
      as (cursor & (key' & -> & _)%list_elem_of_fmap & Hkey & Hvalue).
    cbn in Hkey. subst key'.
    rewrite asset_cursor_for_key_value, Hsubset in Hvalue. congruence.
  - intros key. rewrite Hkeys. split.
    + intros (cursor & (key' & -> & Hin)%list_elem_of_fmap & Hkey & Hvalue).
      cbn in Hkey. subst key'. rewrite asset_cursor_for_key_value in Hvalue.
      destruct (AssetDaemonCursor.handled_root_partitions_by_asset_key self !! key);
        [done|].
      case_bool_decide; [done|]. by apply empty_value_not_true in Hvalue.
    + intros (Hin & Hhandled & Hnone).
      exists (AssetDaemonCursor.asset_cursor_for_key self key (partitions_defs key)).
      split; [|split; [done|]].
      { exact (list_elem_of_fmap_2
                 (λ key, AssetDaemonCursor.asset_cursor_for_key self key (partitions_defs key))
                 _ _ Hin). }
      by rewrite asset_cursor_for_key_value, Hnone, bool_decide_eq_true_2.
Qed.
End Updates.

Section AssetCursorUpdates.
Context {DT : datetime.Interface} {AK : AssetKey.Interface}
        {PT : Partitions.Interface}
        {EV : AutoMaterializeAssetEvaluation.Interface}.

(** X6.  When [AssetDaemonAssetCursor.with_updates] returns, on a root or
    not, the cursor returned differs from the one it was called on by its
    handled subset at most: the asset key, the storage id, the evaluation and
    its timestamp are the same. *)
Theorem asset_cursor_with_updates_frame (self new_cursor : AssetDaemonAssetCursor.t)
    (asset_graph : AssetGraph.t) newly_materialized_subset
    requested_asset_partitions discarded_asset_partitions :
  AssetDaemonAssetCursor.with_updates self asset_graph newly_materialized_subset
    requested_asset_partitions discarded_asset_partitions = Ok new_cursor →
  new_cursor
  = AssetDaemonAssetCursor.replace_subset self
      (AssetDaemonAssetCursor.materialized_requested_or_discarded_subset new_cursor) ∧
  (AssetDaemonAssetCursor.asset_key self ∉ AssetGraph.root_asset_keys asset_graph →
   new_cursor = self).
Proof.
  unfold AssetDaemonAssetCursor.with_updates. case_bool_decide as Hroot.
  - intros [= Hsame]. subst new_cursor. split; [by destruct self | done].
  - intros (subset & _ & [= <-])%bind_Ok_inv. split; [done|].
    intros Hnon_root. exfalso. exact (Hnon_root Hroot).
Qed.
End AssetCursorUpdates.

(** The keys ["s"] and ["t"] are observed at 2.5: ["s"], which had the
    timestamp 0.5, and ["t"] now have 2.5, and ["u"] has none. *)
Lemma with_updates_observe_request_timestamps_witness :
  ∃ new_cursor,
    AssetDaemonCursor.with_updates (Sample.handled_windows "x") None 4%Z ["s"; "t"]
      2.5%float [] 0%Z [] = Ok new_cursor ∧
    AssetDaemonCursor.last_observe_request_timestamp_by_asset_key new_cursor !! "s"
    = Some 2.5%float ∧
    AssetDaemonCursor.last_observe_request_timestamp_by_asset_key new_cursor !! "u" = None.
Proof.
  destruct (with_updates_returns (Sample.handled_windows "x") None 4%Z ["s"; "t"]
              2.5%float [] 0%Z []) as [new_cursor Hcall]; [discriminate | by eexists |].
  exists new_cursor. split; [exact Hcall|].
  pose proof (with_updates_observe_request_timestamps _ _ _ _ _ _ _ _ _ Hcall) as Hstamps.
  split.
  - rewrite Hstamps, bool_decide_eq_true_2; [done | left].
  - rewrite Hstamps, bool_decide_eq_false_2.
    + apply lookup_singleton_ne. discriminate.
    + intros [[=]|[[=]|[]%elem_of_nil]%elem_of_cons]%elem_of_cons.
Defined.

(** A non-empty evaluation of ["a"] followed by an empty one: the first is
    stored. *)
Lemma with_updates_last_non_empty_evaluation_witness :
  ∃ new_cursor,
    AssetDaemonCursor.with_updates (Sample.at_storage_id 5) None 4%Z [] 0%float
      [Sample.evaluation "d" false; Sample.evaluation "a" false; Sample.evaluation "a" true] 0%Z [] = Ok new_cursor ∧
    AssetDaemonCursor.latest_evaluation_by_asset_key new_cursor !! "a"
    = Some (Sample.evaluation "a" false).
Proof.
  destruct (with_updates_returns (Sample.at_storage_id 5) None 4%Z [] 0%float
              [Sample.evaluation "d" false; Sample.evaluation "a" false; Sample.evaluation "a" true] 0%Z [])
    as [new_cursor Hcall]; [discriminate | by eexists |].
  exists new_cursor. split; [exact Hcall|].
  apply (with_updates_last_non_empty_evaluation _ _ _ _ _ _ _ _ _
           [Sample.evaluation "d" false] (Sample.evaluation "a" false)
           [Sample.evaluation "a" true] Hcall); [done..|].
  intros later [->|[]%elem_of_nil]%elem_of_cons. discriminate.
Defined.

(** The cursors derived for the keys ["a"], ["d"], ["a"] of the sample
    cursor. *)
Lemma with_updates_of_derived_cursors_exclusive_witness :
  ∃ new_cursor,
    AssetDaemonCursor.with_updates (Sample.handled_windows "x") None 4%Z [] 0%float [] 0%Z
      ((λ key, AssetDaemonCursor.asset_cursor_for_key (Sample.handled_windows "x") key
                 (AssetGraph.get_partitions_def Sample.graph key)) <$> ["a"; "d"; "a"])
    = Ok new_cursor ∧
    AssetDaemonCursor.handled_root_asset_keys new_cursor
    ## dom (AssetDaemonCursor.handled_root_partitions_by_asset_key new_cursor).
Proof.
  destruct (with_updates_returns (Sample.handled_windows "x") None 4%Z [] 0%float [] 0%Z
      ((λ key, AssetDaemonCursor.asset_cursor_for_key (Sample.handled_windows "x") key
                 (AssetGraph.get_partitions_def Sample.graph key)) <$> ["a"; "d"; "a"]))
    as [new_cursor Hcall]; [discriminate | by eexists |].
  exists new_cursor. split; [exact Hcall|].
  exact (with_updates_of_derived_cursors_exclusive _ _ _ _ _ _ _ _ _ _ _ Hcall).
Defined.

(** Folding the derived cursors of ["a"] and ["d"] back keeps ["a"] handled
    and the windows of ["d"]. *)
Lemma with_updates_of_derived_cursors_keeps_handled_witness :
  ∃ new_cursor,
    AssetDaemonCursor.with_updates (Sample.handled_windows "x") None 4%Z [] 0%float [] 0%Z
      ((λ key, AssetDaemonCursor.asset_cursor_for_key (Sample.handled_windows "x") key
                 (AssetGraph.get_partitions_def Sample.graph key)) <$> ["a"; "d"])
    = Ok new_cursor ∧
    AssetDaemonCursor.handled_root_partitions_by_asset_key new_cursor !! "d"
    = Some (Sample.Windows "x") ∧
    "a" ∈ AssetDaemonCursor.handled_root_asset_keys new_cursor.
Proof.
  destruct (with_updates_returns (Sample.handled_windows "x") None 4%Z [] 0%float [] 0%Z
      ((λ key, AssetDaemonCursor.asset_cursor_for_key (Sample.handled_windows "x") key
                 (AssetGraph.get_partitions_def Sample.graph key)) <$> ["a"; "d"]))
    as [new_cursor Hcall]; [discriminate | by eexists |].
  exists new_cursor. split; [exact Hcall|].
  destruct (with_updates_of_derived_cursors_keeps_handled _ _ _ _ _ _ _ _ _ _ Hcall)
    as [Hpartitions Hkeys].
  split.
  - apply Hpartitions; [right; left | apply lookup_singleton_eq].
  - apply Hkeys. split; [left|]. split; [by apply elem_of_singleton|].
    apply lookup_singleton_ne. discriminate.
Defined.

(** The root ["a"] of the sample graph is materialized: its cursor changes
    by its subset only. *)
Lemma asset_cursor_with_updates_frame_witness :
  ∃ new_cursor,
    AssetDaemonAssetCursor.with_updates (Sample.asset_cursor "a" (Sample.flag false))
      Sample.graph (Sample.asset_subset "a" (Sample.flag true)) ∅ ∅ = Ok new_cursor ∧
    AssetDaemonAssetCursor.asset_key new_cursor = "a" ∧
    AssetDaemonAssetCursor.latest_storage_id new_cursor = None.
Proof.
  assert (returns (AssetDaemonAssetCursor.with_updates
                     (Sample.asset_cursor "a" (Sample.flag false)) Sample.graph
                     (Sample.asset_subset "a" (Sample.flag true)) ∅ ∅))
    as [new_cursor Hcall].
  { unfold AssetDaemonAssetCursor.with_updates.
    rewrite bool_decide_eq_false_2.
    - by eexists.
    - intros Hnot. apply Hnot. cbn. apply elem_of_union. left. by apply elem_of_singleton. }
  exists new_cursor. split; [exact Hcall|].
  destruct (asset_cursor_with_updates_frame _ _ _ _ _ _ Hcall) as [-> _]. by split.
Defined.

(** The storage id 3 after the storage id 5 is refused with the check
    error, and the storage id 8 is refused at the instant -1, which has no
    timestamp, with the error of the timestamp. *)
Lemma with_updates_raises_iff_witness :
  raises (AssetDaemonCursor.with_updates (Sample.at_storage_id 5) (Some 3%Z) 4%Z []
            0%float [] 0%Z []) ∧
  raises (AssetDaemonCursor.with_updates (Sample.at_storage_id 5) (Some 8%Z) 4%Z []
            0%float [] (-1)%Z []) ∧
  ∀ e,
    AssetDaemonCursor.with_updates (Sample.at_storage_id 5) (Some 8%Z) 4%Z []
      0%float [] (-1)%Z [] = Raise e →
    e = ValueError.
Proof.
  split; [|split].
  - apply (proj1 (with_updates_raises_iff (Sample.at_storage_id 5) (Some 3%Z) 4%Z []
                    0%float [] 0%Z [])).
    left. exists 3%Z, 5%Z. repeat split; (reflexivity || discriminate).
  - apply (proj1 (with_updates_raises_iff (Sample.at_storage_id 5) (Some 8%Z) 4%Z []
                    0%float [] (-1)%Z [])).
    right. by exists ValueError.
  - intros e He.
    destruct (proj2 (with_updates_raises_iff (Sample.at_storage_id 5) (Some 8%Z) 4%Z []
                       0%float [] (-1)%Z []) e He)
      as [[(new & old & [= <-] & [= <-] & _ & _ & Hlt) _] | [_ Htimestamp]].
    + discriminate.
    + by injection Htimestamp as <-.
Defined.

(** * Further properties of reading a cursor back *)

Section Reading.
Context {DT : datetime.Interface} {AK : AssetKey.Interface}
        {PT : Partitions.Interface}
        {EV : AutoMaterializeAssetEvaluation.Interface}.
Implicit Types (data : json) (asset_graph : AssetGraph.t)
  (w : AssetDaemonCursor.wire) (cursor : AssetDaemonCursor.decoded)
  (d : list (string * json)).

(** The values read off a document in the current format. *)
Lemma read_wire_dict d :
  AssetDaemonCursor.read_wire (JDict d)
  = (latest_storage_id ← py.getitem (JDict d) "latest_storage_id";
     serialized_handled_root_asset_keys ← py.getitem (JDict d) "handled_root_asset_keys";
     serialized_handled_root_partitions_by_asset_key ←
       py.getitem (JDict d) "handled_root_partitions_by_asset_key";
     evaluation_id ← py.getitem (JDict d) "evaluation_id";
     Ok (AssetDaemonCursor.mk_wire latest_storage_id
           serialized_handled_root_asset_keys
           serialized_handled_root_partitions_by_asset_key
           evaluation_id
           (from_option id (JDict [])
              (py.dict_lookup "last_observe_request_timestamp_by_asset_key" d))
           (from_option id (JDict []) (py.dict_lookup "latest_evaluation_by_asset_key" d))
           (from_option id (JInt 0) (py.dict_lookup "latest_evaluation_timestamp" d)))).
Proof. reflexivity. Qed.

Lemma getitem_Ok_inv d (key : string) (v : json) :
  py.getitem (JDict d) key = Ok v → py.dict_lookup key d = Some v.
Proof. cbn. destruct (py.dict_lookup key d); by intros [= <-]. Qed.

Lemma getitem_missing d (key : string) :
  py.dict_lookup key d = None → py.getitem (JDict d) key = Raise (KeyError key).
Proof. cbn. by intros ->. Qed.

Lemma getitem_present d (key : string) (v : json) :
  py.dict_lookup key d = Some v → py.getitem (JDict d) key = Ok v.
Proof. cbn. by intros ->. Qed.

Lemma read_wire_dict_Ok_inv d w :
  AssetDaemonCursor.read_wire (JDict d) = Ok w →
  py.dict_lookup "latest_storage_id" d = Some (AssetDaemonCursor.w_latest_storage_id w) ∧
  py.dict_lookup "handled_root_asset_keys" d
  = Some (AssetDaemonCursor.serialized_handled_root_asset_keys w) ∧
  py.dict_lookup "handled_root_partitions_by_asset_key" d
  = Some (AssetDaemonCursor.serialized_handled_root_partitions_by_asset_key w) ∧
  py.dict_lookup "evaluation_id" d = Some (AssetDaemonCursor.w_evaluation_id w) ∧
  AssetDaemonCursor.serialized_last_observe_request_timestamp_by_asset_key w
  = from_option id (JDict [])
      (py.dict_lookup "last_observe_request_timestamp_by_asset_key" d) ∧
  AssetDaemonCursor.serialized_latest_evaluation_by_asset_key w
  = from_option id (JDict []) (py.dict_lookup "latest_evaluation_by_asset_key" d) ∧
  AssetDaemonCursor.w_latest_evaluation_timestamp w
  = from_option id (JInt 0) (py.dict_lookup "latest_evaluation_timestamp" d).
Proof.
  rewrite read_wire_dict. intros Hw.
  apply bind_Ok_inv in Hw as (? & ?%getitem_Ok_inv & Hw).
  apply bind_Ok_inv in Hw as (? & ?%getitem_Ok_inv & Hw).
  apply bind_Ok_inv in Hw as (? & ?%getitem_Ok_inv & Hw).
  apply bind_Ok_inv in Hw as (? & ?%getitem_Ok_inv & Hw).
  injection Hw as <-. by repeat split.
Qed.

(** X7.  A scalar or a string is rejected by the first subscript, and a
    document in the current format that lacks one of the four required fields
    is rejected with the [KeyError] of a required field it lacks; the asset
    graph plays no part. *)
Theorem from_serialized_rejects_malformed asset_graph :
  (∀ data,
     match data with JList _ | JDict _ => False | _ => True end →
     AssetDaemonCursor.from_serialized data asset_graph = Raise TypeError) ∧
  (∀ d (field : string),
     field ∈ ["latest_storage_id"; "handled_root_asset_keys";
              "handled_root_partitions_by_asset_key"; "evaluation_id"] →
     py.dict_lookup field d = None →
     ∃ missing : string,
       missing ∈ ["latest_storage_id"; "handled_root_asset_keys";
                  "handled_root_partitions_by_asset_key"; "evaluation_id"] ∧
       py.dict_lookup missing d = None ∧
       AssetDaemonCursor.from_serialized (JDict d) asset_graph = Raise (KeyError missing)).
Proof.
  split.
  - by intros [| | | | | |].
  - intros d field Hfield Hmissing.
    unfold AssetDaemonCursor.from_serialized. rewrite read_wire_dict.
    destruct (py.dict_lookup "latest_storage_id" d) as [a|] eqn:Ha.
    2:{ exists "latest_storage_id". split; [left|]. split; [done|].
        by rewrite (getitem_missing _ _ Ha). }
    rewrite (getitem_present _ _ _ Ha), bind_Ok.
    destruct (py.dict_lookup "handled_root_asset_keys" d) as [b|] eqn:Hb.
    2:{ exists "handled_root_asset_keys". split; [right; left|]. split; [done|].
        by rewrite (getitem_missing _ _ Hb). }
    rewrite (getitem_present _ _ _ Hb), bind_Ok.
    destruct (py.dict_lookup "handled_root_partitions_by_asset_key" d) as [c|] eqn:Hc.
    2:{ exists "handled_root_partitions_by_asset_key". split; [do 2 right; left|]. split; [done|].
        by rewrite (getitem_missing _ _ Hc). }
    rewrite (getitem_present _ _ _ Hc), bind_Ok.
    destruct (py.dict_lookup "evaluation_id" d) as [e|] eqn:He.
    2:{ exists "evaluation_id". split; [do 3 right; left|]. split; [done|].
        by rewrite (getitem_missing _ _ He). }
    exfalso.
    repeat (apply elem_of_cons in Hfield as [-> | Hfield]; [congruence|]).
    by apply elem_of_nil in Hfield.
Qed.

(** X8.  A document in the current format that is read gives the cursor the
    values under ["latest_storage_id"] and ["evaluation_id"] as they are; a
    missing ["latest_evaluation_timestamp"] reads as 0, and missing observe
    request timestamps or evaluations read as empty dictionaries. *)
Theorem from_serialized_optional_fields d asset_graph cursor :
  AssetDaemonCursor.from_serialized (JDict d) asset_graph = Ok cursor →
  py.dict_lookup "latest_storage_id" d = Some (AssetDaemonCursor.latest_storage_id cursor) ∧
  py.dict_lookup "evaluation_id" d = Some (AssetDaemonCursor.evaluation_id cursor) ∧
  AssetDaemonCursor.latest_evaluation_timestamp cursor
  = from_option id (JInt 0) (py.dict_lookup "latest_evaluation_timestamp" d) ∧
  (py.dict_lookup "last_observe_request_timestamp_by_asset_key" d = None →
   AssetDaemonCursor.last_observe_request_timestamp_by_asset_key cursor = ∅) ∧
  (py.dict_lookup "latest_evaluation_by_asset_key" d = None →
   AssetDaemonCursor.latest_evaluation_by_asset_key cursor = ∅).
Proof.
  unfold AssetDaemonCursor.from_serialized.
  intros (w & (Ha & _ & _ & He & Hobserve & Hevaluations & Htimestamp)%read_wire_dict_Ok_inv
            & Hbuild)%bind_Ok_inv.
  apply build_Ok_inv in Hbuild
    as (? & evaluation_items & ? & observe_items & _ & Hitems & _ & Hitems' & Hread & _
          & -> & -> & -> & _ & ->).
  split; [done|]. split; [done|]. split; [done|]. split.
  - intros Hnone. rewrite Hobserve, Hnone in Hitems'. by injection Hitems' as <-.
  - intros Hnone. rewrite Hevaluations, Hnone in Hitems. injection Hitems as <-.
    cbn in Hread. by injection Hread as <-.
Qed.

(** A document in the current format that only has the four required
    fields. *)
Lemma read_wire_required_only d (a b c e : json) :
  py.dict_lookup "latest_storage_id" d = Some a →
  py.dict_lookup "handled_root_asset_keys" d = Some b →
  py.dict_lookup "handled_root_partitions_by_asset_key" d = Some c →
  py.dict_lookup "evaluation_id" d = Some e →
  py.dict_lookup "last_observe_request_timestamp_by_asset_key" d = None →
  py.dict_lookup "latest_evaluation_by_asset_key" d = None →
  py.dict_lookup "latest_evaluation_timestamp" d = None →
  AssetDaemonCursor.read_wire (JDict d)
  = Ok (AssetDaemonCursor.mk_wire a b c e (JDict []) (JDict []) (JInt 0)).
Proof.
  intros Ha Hb Hc He Hobserve Hevaluations Htimestamp.
  rewrite read_wire_dict.
  rewrite (getitem_present _ _ _ Ha), (getitem_present _ _ _ Hb),
    (getitem_present _ _ _ Hc), (getitem_present _ _ _ He).
  by rewrite Hobserve, Hevaluations, Htimestamp.
Qed.

(** X9.  A document in the current format with the four required fields and
    none of the three later ones is read exactly as the legacy list of those
    four values, in the order storage id, handled keys, handled partitions,
    evaluation id. *)
Theorem from_serialized_formats_agree d asset_graph (a b c e : json) :
  py.dict_lookup "latest_storage_id" d = Some a →
  py.dict_lookup "handled_root_asset_keys" d = Some b →
  py.dict_lookup "handled_root_partitions_by_asset_key" d = Some c →
  py.dict_lookup "evaluation_id" d = Some e →
  py.dict_lookup "last_observe_request_timestamp_by_asset_key" d = None →
  py.dict_lookup "latest_evaluation_by_asset_key" d = None →
  py.dict_lookup "latest_evaluation_timestamp" d = None →
  AssetDaemonCursor.from_serialized (JDict d) asset_graph
  = AssetDaemonCursor.from_serialized (JList [a; b; c; e]) asset_graph.
Proof.
  intros Ha Hb Hc He Hobserve Hevaluations Htimestamp.
  unfold AssetDaemonCursor.from_serialized.
  by rewrite read_wire_four, (read_wire_required_only d a b c e).
Qed.

(** What the loop over the handled partitions leaves under a key. *)
Lemma handled_root_partitions_step_Some asset_graph (items : list (string * json))
    (acc : gmap AssetKey.t PartitionsSubset) (key : AssetKey.t) (subset : PartitionsSubset) :
  foldl (AssetDaemonCursor.handled_root_partitions_step asset_graph) acc items !! key
  = Some subset →
  acc !! key = Some subset ∨
  key ∈ AssetGraph.materializable_asset_keys asset_graph ∧
  ∃ partitions_def (key_str : string) (serialized : json),
    (key_str, serialized) ∈ items ∧
    AssetKey.from_user_string key_str = key ∧
    AssetGraph.get_partitions_def asset_graph key = Some partitions_def ∧
    subset = AssetDaemonCursor.deserialize_subset_or_empty partitions_def serialized.
Proof.
  revert acc. induction items as [|[key_str serialized] items IH]; intros acc; cbn [foldl];
    [by left|].
  intros [Hacc | (Hmaterializable & partitions_def & key_str' & serialized' & Hin & ?)]%IH.
  - unfold AssetDaemonCursor.handled_root_partitions_step in Hacc. cbn [fst snd] in Hacc.
    destruct (decide (AssetKey.from_user_string key_str
                      ∈ AssetGraph.materializable_asset_keys asset_graph))
      as [Hmaterializable | Hnot].
    + rewrite bool_decide_eq_false_2 in Hacc by (intros Hnot; by apply Hnot).
      destruct (AssetGraph.get_partitions_def asset_graph
                  (AssetKey.from_user_string key_str)) as [partitions_def|] eqn:Hdef;
        [|by left].
      destruct (decide (AssetKey.from_user_string key_str = key)) as [Hsame | Hother].
      * rewrite Hsame, lookup_insert_eq in Hacc. injection Hacc as <-.
        right. rewrite <- Hsame. split; [done|].
        exists partitions_def, key_str, serialized. split; [left | done].
      * rewrite lookup_insert_ne in Hacc by done. by left.
    + rewrite bool_decide_eq_true_2 in Hacc by done. by left.
  - right. split; [done|]. exists partitions_def, key_str', serialized'.
    split; [by right | done].
Qed.

(** X10.  Whatever the document says, the handled partitions of the cursor read
    only have keys that are materializable assets of the current graph with a
    partitions definition, and each subset is what that definition reads
    from a value the document has for the key. *)
Theorem from_serialized_handled_partitions_current data asset_graph cursor
    (key : AssetKey.t) (subset : PartitionsSubset) :
  AssetDaemonCursor.from_serialized data asset_graph = Ok cursor →
  AssetDaemonCursor.handled_root_partitions_by_asset_key cursor !! key = Some subset →
  key ∈ AssetGraph.materializable_asset_keys asset_graph ∧
  ∃ partitions_def (serialized : json),
    AssetGraph.get_partitions_def asset_graph key = Some partitions_def ∧
    subset = AssetDaemonCursor.deserialize_subset_or_empty partitions_def serialized.
Proof.
  unfold AssetDaemonCursor.from_serialized.
  intros (w & _ & Hbuild)%bind_Ok_inv.
  apply build_Ok_inv in Hbuild
    as (partition_items & ? & ? & ? & _ & _ & _ & _ & _ & _ & _ & _ & _ & -> & _).
  intros [Hempty | (Hmaterializable & partitions_def & ? & serialized & _ & _ & Hdef & ->)]
           %handled_root_partitions_step_Some.
  - by rewrite lookup_empty in Hempty.
  - split; [done|]. by exists partitions_def, serialized.
Qed.

(** X11.  The asset graph only decides the handled partitions: a document read
    against one graph is read against any other, with the same storage id,
    handled keys, evaluation id, observe request timestamps, evaluations and
    evaluation timestamp. *)
Theorem from_serialized_any_asset_graph data asset_graph asset_graph' cursor :
  AssetDaemonCursor.from_serialized data asset_graph = Ok cursor →
  ∃ cursor',
    AssetDaemonCursor.from_serialized data asset_graph' = Ok cursor' ∧
    AssetDaemonCursor.latest_storage_id cursor' = AssetDaemonCursor.latest_storage_id cursor ∧
    AssetDaemonCursor.handled_root_asset_keys cursor'
    = AssetDaemonCursor.handled_root_asset_keys cursor ∧
    AssetDaemonCursor.evaluation_id cursor' = AssetDaemonCursor.evaluation_id cursor ∧
    AssetDaemonCursor.last_observe_request_timestamp_by_asset_key cursor'
    = AssetDaemonCursor.last_observe_request_timestamp_by_asset_key cursor ∧
    AssetDaemonCursor.latest_evaluation_by_asset_key cursor'
    = AssetDaemonCursor.latest_evaluation_by_asset_key cursor ∧
    AssetDaemonCursor.latest_evaluation_timestamp cursor'
    = AssetDaemonCursor.latest_evaluation_timestamp cursor.
Proof.
  unfold AssetDaemonCursor.from_serialized.
  intros (w & -> & Hbuild)%bind_Ok_inv. rewrite bind_Ok.
  apply build_Ok_inv in Hbuild
    as (partition_items & evaluation_items & key_strs & observe_items
          & Hpartitions & Hevaluations & Hiter & Hobserve & Hread & Hkeys
          & -> & -> & -> & _ & ->).
  unfold AssetDaemonCursor.build.
  rewrite Hpartitions, bind_Ok, Hevaluations, bind_Ok, Hread, bind_Ok.
  rewrite Hiter, bind_Ok, Hkeys, bind_Ok, Hobserve, bind_Ok.
  eexists. split; [reflexivity|]. by repeat split.
Qed.

(** The handled keys read from a list of strings. *)
Lemma read_asset_keys_strings (strs : list string) (acc : gset AssetKey.t) :
  AssetDaemonCursor.read_asset_keys (JStr <$> strs) acc
  = Ok (list_to_set (AssetKey.from_user_string <$> strs) ∪ acc).
Proof.
  revert acc. induction strs as [|s strs IH]; intros acc; cbn.
  - by rewrite (left_id_L ∅ (∪)).
  - rewrite IH. f_equal.
    by rewrite (assoc_L (∪)), (comm_L (∪) (list_to_set _)).
Qed.

(** X12.  A document whose evaluations hold a value that does not read as an
    evaluation is not read at all, whereas an unreadable handled subset is
    replaced by the empty one. *)
Theorem from_serialized_unreadable_evaluation_raises data asset_graph w
    (partition_items items : list (string * json)) (key_str : string) (serialized : json) :
  AssetDaemonCursor.read_wire data = Ok w →
  AssetDaemonCursor.serialized_handled_root_partitions_by_asset_key w
  = JDict partition_items →
  AssetDaemonCursor.serialized_latest_evaluation_by_asset_key w = JDict items →
  (key_str, serialized) ∈ items →
  AutoMaterializeAssetEvaluation.deserialize_value serialized = None →
  raises (AssetDaemonCursor.from_serialized data asset_graph).
Proof.
  intros Hw Hpartitions Hitems Hin Hnone.
  unfold AssetDaemonCursor.from_serialized. rewrite Hw, bind_Ok.
  unfold AssetDaemonCursor.build. rewrite Hpartitions, Hitems. cbn [py.items].
  rewrite !bind_Ok.
  assert (∀ acc, raises (AssetDaemonCursor.read_evaluations items acc)) as Hraises.
  { clear Hitems. induction items as [|[key_str' serialized'] items IH]; intros acc.
    - by apply elem_of_nil in Hin.
    - cbn. apply elem_of_cons in Hin as [[= <- <-] | Hin].
      + rewrite Hnone. by eexists.
      + destruct (AutoMaterializeAssetEvaluation.deserialize_value serialized');
          [by apply IH | by eexists]. }
  destruct (Hraises ∅) as [e ->]. by exists e.
Qed.

(** X13.  The handled keys of a cursor read from a document that lists them as
    strings are the asset keys of those strings, a repeated one counting
    once. *)
Theorem from_serialized_handled_root_asset_keys data asset_graph w cursor
    (strs : list string) (key : AssetKey.t) :
  AssetDaemonCursor.read_wire data = Ok w →
  AssetDaemonCursor.serialized_handled_root_asset_keys w = JList (JStr <$> strs) →
  AssetDaemonCursor.from_serialized data asset_graph = Ok cursor →
  key ∈ AssetDaemonCursor.handled_root_asset_keys cursor
  ↔ ∃ key_str, key_str ∈ strs ∧ AssetKey.from_user_string key_str = key.
Proof.
  intros Hw Hstrs. unfold AssetDaemonCursor.from_serialized. rewrite Hw, bind_Ok.
  intros (? & ? & key_strs & ? & _ & _ & Hiter & _ & _ & Hkeys & _)%build_Ok_inv.
  rewrite Hstrs in Hiter. injection Hiter as <-.
  rewrite read_asset_keys_strings in Hkeys. injection Hkeys as <-.
  rewrite (right_id_L ∅ (∪)), elem_of_list_to_set, list_elem_of_fmap.
  split; intros (key_str & ? & ?); by exists key_str.
Qed.
End Reading.

(** The document of the current format with the four required fields of the
    legacy list [[100, ["a"], {}, 7]], and a legacy document whose only
    handled partitions are those of the daily asset of the sample graph. *)
Lemma from_serialized_sample_dict :
  AssetDaemonCursor.from_serialized
    (JDict [("latest_storage_id", JInt 100);
            ("handled_root_asset_keys", JList [JStr "a"]);
            ("handled_root_partitions_by_asset_key", JDict []);
            ("evaluation_id", JInt 7)]) Sample.graph
  = Ok (AssetDaemonCursor.mk (JInt 100) {[ "a" ]} ∅ (JInt 7) ∅ ∅ (JInt 0)).
Proof.
  unfold AssetDaemonCursor.from_serialized.
  rewrite (read_wire_required_only _ (JInt 100) (JList [JStr "a"]) (JDict []) (JInt 7))
    by reflexivity.
  rewrite <- read_wire_four.
  apply (from_serialized_legacy_scenario Sample.graph [JInt 7] (JInt 7)). by right.
Qed.

Lemma from_serialized_sample_daily (serialized : json) :
  AssetDaemonCursor.from_serialized
    (JList [JInt 1; JList []; JDict [("d", serialized)]]) Sample.graph
  = Ok (AssetDaemonCursor.mk (JInt 1) ∅
          {[ "d" := AssetDaemonCursor.deserialize_subset_or_empty
                      (Sample.Daily 100) serialized ]}
          (JInt 0) ∅ ∅ (JInt 0)).
Proof.
  unfold AssetDaemonCursor.from_serialized. rewrite read_wire_three, bind_Ok.
  unfold AssetDaemonCursor.build.
  cbn [AssetDaemonCursor.serialized_handled_root_partitions_by_asset_key
       AssetDaemonCursor.serialized_latest_evaluation_by_asset_key
       AssetDaemonCursor.serialized_handled_root_asset_keys
       AssetDaemonCursor.serialized_last_observe_request_timestamp_by_asset_key
       AssetDaemonCursor.w_latest_storage_id AssetDaemonCursor.w_evaluation_id
       AssetDaemonCursor.w_latest_evaluation_timestamp py.items py.iter
       mbind result_bind
       AssetDaemonCursor.read_evaluations AssetDaemonCursor.read_asset_keys foldl].
  unfold AssetDaemonCursor.handled_root_partitions_step. cbn [fst snd].
  rewrite bool_decide_eq_false_2.
  - reflexivity.
  - intros Hnot. apply Hnot. cbn. rewrite !elem_of_union, !elem_of_singleton. auto.
Qed.

(** The integer 3 is no cursor document, and a document with a storage id
    only lacks a required field. *)
Lemma from_serialized_rejects_malformed_witness :
  AssetDaemonCursor.from_serialized (JInt 3) Sample.graph = Raise TypeError ∧
  ∃ missing : string,
    missing ∈ ["latest_storage_id"; "handled_root_asset_keys";
               "handled_root_partitions_by_asset_key"; "evaluation_id"] ∧
    py.dict_lookup missing [("latest_storage_id", JInt 1)] = None ∧
    AssetDaemonCursor.from_serialized (JDict [("latest_storage_id", JInt 1)]) Sample.graph
    = Raise (KeyError missing).
Proof.
  split.
  - apply (proj1 (from_serialized_rejects_malformed Sample.graph) (JInt 3)). exact I.
  - apply (proj2 (from_serialized_rejects_malformed Sample.graph)
             [("latest_storage_id", JInt 1)] "evaluation_id").
    + do 3 right. left.
    + reflexivity.
Defined.

(** The document with the four required fields only has no observe request
    timestamps, no evaluations and the evaluation timestamp 0. *)
Lemma from_serialized_optional_fields_witness :
  ∃ cursor,
    AssetDaemonCursor.from_serialized
      (JDict [("latest_storage_id", JInt 100);
              ("handled_root_asset_keys", JList [JStr "a"]);
              ("handled_root_partitions_by_asset_key", JDict []);
              ("evaluation_id", JInt 7)]) Sample.graph = Ok cursor ∧
    AssetDaemonCursor.latest_evaluation_timestamp cursor = JInt 0 ∧
    AssetDaemonCursor.last_observe_request_timestamp_by_asset_key cursor = ∅ ∧
    AssetDaemonCursor.latest_evaluation_by_asset_key cursor = ∅.
Proof.
  eexists. split; [exact from_serialized_sample_dict|].
  destruct (from_serialized_optional_fields _ Sample.graph _ from_serialized_sample_dict)
    as (_ & _ & Htimestamp & Hobserve & Hevaluations).
  split; [exact Htimestamp|]. split; [by apply Hobserve | by apply Hevaluations].
Defined.

Lemma from_serialized_formats_agree_witness :
  AssetDaemonCursor.from_serialized
    (JDict [("latest_storage_id", JInt 100);
            ("handled_root_asset_keys", JList [JStr "a"]);
            ("handled_root_partitions_by_asset_key", JDict []);
            ("evaluation_id", JInt 7)]) Sample.graph
  = AssetDaemonCursor.from_serialized
      (JList [JInt 100; JList [JStr "a"]; JDict []; JInt 7]) Sample.graph.
Proof. by apply from_serialized_formats_agree. Defined.

(** The daily asset of the sample graph is materializable and partitioned. *)
Lemma from_serialized_handled_partitions_current_witness :
  "d" ∈ AssetGraph.materializable_asset_keys Sample.graph ∧
  ∃ (partitions_def : Sample.definition) (serialized : json),
    AssetGraph.get_partitions_def Sample.graph "d" = Some partitions_def ∧
    AssetDaemonCursor.deserialize_subset_or_empty (Sample.Daily 100) (JStr "Wx")
    = AssetDaemonCursor.deserialize_subset_or_empty partitions_def serialized.
Proof.
  apply (from_serialized_handled_partitions_current _ Sample.graph _ "d" _
           (from_serialized_sample_daily (JStr "Wx"))).
  apply lookup_singleton_eq.
Defined.

(** The legacy document [[100, ["a"], {}]] is read against the sample graph,
    hence against a graph without assets. *)
Lemma from_serialized_any_asset_graph_witness :
  ∃ cursor',
    AssetDaemonCursor.from_serialized
      (JList [JInt 100; JList [JStr "a"]; JDict []]) Sample.no_assets = Ok cursor' ∧
    AssetDaemonCursor.latest_storage_id cursor' = JInt 100 ∧
    AssetDaemonCursor.handled_root_asset_keys cursor' = {[ "a" ]} ∧
    AssetDaemonCursor.evaluation_id cursor' = JInt 0 ∧
    AssetDaemonCursor.last_observe_request_timestamp_by_asset_key cursor' = ∅ ∧
    AssetDaemonCursor.latest_evaluation_by_asset_key cursor' = ∅ ∧
    AssetDaemonCursor.latest_evaluation_timestamp cursor' = JInt 0.
Proof.
  apply (from_serialized_any_asset_graph _ Sample.graph Sample.no_assets _
           (from_serialized_legacy_scenario Sample.graph [] (JInt 0) (or_introl (conj eq_refl eq_refl)))).
Defined.

(** ["bad"] is no serialized evaluation of the sample. *)
Lemma from_serialized_unreadable_evaluation_raises_witness :
  raises
    (AssetDaemonCursor.from_serialized
       (JDict [("latest_storage_id", JInt 1);
               ("handled_root_asset_keys", JList []);
               ("handled_root_partitions_by_asset_key", JDict []);
               ("evaluation_id", JInt 2);
               ("latest_evaluation_by_asset_key", JDict [("a", JStr "bad")])])
       Sample.graph).
Proof.
  apply (from_serialized_unreadable_evaluation_raises _ Sample.graph
           (AssetDaemonCursor.mk_wire (JInt 1) (JList []) (JDict []) (JInt 2) (JDict [])
              (JDict [("a", JStr "bad")]) (JInt 0))
           [] [("a", JStr "bad")] "a" (JStr "bad")); try reflexivity.
  left.
Defined.

(** The legacy document [[100, ["a"], {}]] has handled the asset ["a"]. *)
Lemma from_serialized_handled_root_asset_keys_witness :
  "a" ∈ ({[ "a" ]} : gset string)
  ↔ ∃ key_str : string, key_str ∈ ["a"] ∧ AssetKey.from_user_string key_str = "a".
Proof.
  exact (from_serialized_handled_root_asset_keys
           (JList [JInt 100; JList [JStr "a"]; JDict []]) Sample.graph _
           (AssetDaemonCursor.mk (JInt 100) {[ "a" ]} ∅ (JInt 0) ∅ ∅ (JInt 0)) ["a"] "a"
           (read_wire_three _ _ _) eq_refl
           (from_serialized_legacy_scenario Sample.graph [] (JInt 0)
              (or_introl (conj eq_refl eq_refl)))).
Defined.

(** * Further properties of serialized cursors *)

Section Writing.
Context {DT : datetime.Interface} {AK : AssetKey.Interface}
        {PT : Partitions.Interface}
        {EV : AutoMaterializeAssetEvaluation.Interface}.
Implicit Types (self : AssetDaemonCursor.t) (asset_graph : AssetGraph.t)
  (key : AssetKey.t) (subset : PartitionsSubset).

(** X14.  The evaluation id peeked from a serialized cursor is the one of the
    cursor, whatever else the cursor holds. *)
Theorem get_evaluation_id_from_serialized_serialize self :
  AssetDaemonCursor.get_evaluation_id_from_serialized (AssetDaemonCursor.serialize self)
  = Ok (JInt (AssetDaemonCursor.evaluation_id self)).
Proof. reflexivity. Qed.

(** X15.  The cursor of the first tick is read back as it is from its
    serialized form, against any asset graph. *)
Theorem from_serialized_serialize_empty asset_graph :
  AssetDaemonCursor.from_serialized
    (AssetDaemonCursor.serialize AssetDaemonCursor.empty) asset_graph
  = Ok (AssetDaemonCursor.untyped AssetDaemonCursor.empty).
Proof.
  unfold AssetDaemonCursor.from_serialized, AssetDaemonCursor.serialize,
    AssetDaemonCursor.empty, AssetDaemonCursor.untyped.
  cbn [AssetDaemonCursor.handled_root_partitions_by_asset_key
       AssetDaemonCursor.last_observe_request_timestamp_by_asset_key
       AssetDaemonCursor.latest_evaluation_by_asset_key
       AssetDaemonCursor.handled_root_asset_keys
       AssetDaemonCursor.latest_storage_id AssetDaemonCursor.evaluation_id
       AssetDaemonCursor.latest_evaluation_timestamp].
  rewrite !map_to_list_empty, elements_empty, fmap_empty.
  reflexivity.
Qed.

(** The loop over the handled partitions, on the items [serialize] writes. *)
Lemma handled_root_partitions_serialized asset_graph
    (l : list (AssetKey.t * PartitionsSubset)) (acc : gmap AssetKey.t PartitionsSubset) :
  asset_key_round_trip →
  foldl (AssetDaemonCursor.handled_root_partitions_step asset_graph) acc
    ((λ kv, (AssetKey.to_user_string kv.1, JStr (Partitions.serialize kv.2))) <$> l)
  = foldl (λ d x, <[ x.1 := x.2 ]> d) acc
      (omap (λ kv, pair kv.1 <$> handled_partitions_read_back asset_graph kv.1 kv.2) l).
Proof.
  intros Hkeys. revert acc.
  induction l as [|[key subset] l IH]; intros acc; [done|].
  assert (AssetDaemonCursor.handled_root_partitions_step asset_graph acc
            (AssetKey.to_user_string key, JStr (Partitions.serialize subset))
          = match handled_partitions_read_back asset_graph key subset with
            | Some subset' => <[ key := subset' ]> acc
            | None => acc
            end) as Hstep.
  { unfold AssetDaemonCursor.handled_root_partitions_step, handled_partitions_read_back.
    cbn [fst snd]. rewrite Hkeys.
    destruct (decide (key ∈ AssetGraph.materializable_asset_keys asset_graph))
      as [Hmaterializable | Hnot].
    - rewrite bool_decide_eq_false_2 by (intros Hnot; by apply Hnot).
      rewrite bool_decide_eq_true_2 by done.
      by destruct (AssetGraph.get_partitions_def asset_graph key).
    - rewrite bool_decide_eq_true_2 by done.
      by rewrite bool_decide_eq_false_2 by done. }
  cbn [fmap list_fmap foldl omap list_omap fst snd].
  rewrite Hstep.
  destruct (handled_partitions_read_back asset_graph key subset); cbn; apply IH.
Qed.

(** Where the items read back come from. *)
Lemma elem_of_read_back asset_graph (m : gmap AssetKey.t PartitionsSubset)
    (x : AssetKey.t * PartitionsSubset) :
  x ∈ omap (λ kv, pair kv.1 <$> handled_partitions_read_back asset_graph kv.1 kv.2)
        (map_to_list m) ↔
  ∃ subset, m !! x.1 = Some subset ∧
            handled_partitions_read_back asset_graph x.1 subset = Some x.2.
Proof.
  rewrite list_elem_of_omap. split.
  - intros ([key subset] & Hin%elem_of_map_to_list & Hsome). cbn [fst snd] in Hsome.
    destruct (handled_partitions_read_back asset_graph key subset) as [subset'|] eqn:Hback;
      [|discriminate].
    injection Hsome as <-. by exists subset.
  - intros (subset & Hlookup & Hback). exists (x.1, subset).
    split; [by apply elem_of_map_to_list|]. cbn [fst snd]. rewrite Hback.
    by destruct x.
Qed.

Lemma lookup_read_back asset_graph (m : gmap AssetKey.t PartitionsSubset) key :
  foldl (λ (d : gmap AssetKey.t PartitionsSubset) x, <[ x.1 := x.2 ]> d) ∅
    (omap (λ kv, pair kv.1 <$> handled_partitions_read_back asset_graph kv.1 kv.2)
       (map_to_list m)) !! key
  = m !! key ≫= handled_partitions_read_back asset_graph key.
Proof.
  destruct (m !! key ≫= handled_partitions_read_back asset_graph key)
    as [subset'|] eqn:Hback.
  - apply bind_Some in Hback as (subset & Hlookup & Hback).
    destruct (lookup_assignments_is_Some fst snd
                (omap (λ kv, pair kv.1 <$> handled_partitions_read_back asset_graph kv.1 kv.2)
                   (map_to_list m)) ∅ (key, subset')) as [subset'' Hsome].
    { apply elem_of_read_back. by exists subset. }
    cbn [fst snd] in Hsome. rewrite Hsome. f_equal.
    apply lookup_assignments_Some in Hsome
      as [Hempty | ([key' other] & (subset0 & Hlookup0 & Hback0)%elem_of_read_back & Hkey & Hval)].
    + by rewrite lookup_empty in Hempty.
    + cbn [fst snd] in *. subst key' other. congruence.
  - rewrite (lookup_assignments_other fst snd); [apply lookup_empty|].
    intros [key' other] (subset0 & Hlookup0 & Hback0)%elem_of_read_back Hkey.
    cbn [fst snd] in *. subst key'.
    rewrite Hlookup0 in Hback. cbn in Hback. congruence.
Qed.

(** X16.  A serialized cursor is read back against any asset graph, without an
    error, when asset keys and evaluations read back from their own
    serialized forms.  All fields but the handled partitions are as they
    were; the handled subset of a key is kept only while the key is a
    materializable asset with a partitions definition, and is then what that
    definition reads from the serialized subset. *)
Theorem from_serialized_serialize_any_graph asset_graph self :
  asset_key_round_trip →
  evaluation_round_trip →
  ∃ cursor,
    AssetDaemonCursor.from_serialized (AssetDaemonCursor.serialize self) asset_graph
    = Ok cursor ∧
    AssetDaemonCursor.latest_storage_id cursor
    = py.of_optional_int (AssetDaemonCursor.latest_storage_id self) ∧
    AssetDaemonCursor.handled_root_asset_keys cursor
    = AssetDaemonCursor.handled_root_asset_keys self ∧
    AssetDaemonCursor.evaluation_id cursor = JInt (AssetDaemonCursor.evaluation_id self) ∧
    AssetDaemonCursor.last_observe_request_timestamp_by_asset_key cursor
    = JFloat <$> AssetDaemonCursor.last_observe_request_timestamp_by_asset_key self ∧
    AssetDaemonCursor.latest_evaluation_by_asset_key cursor
    = AssetDaemonCursor.latest_evaluation_by_asset_key self ∧
    AssetDaemonCursor.latest_evaluation_timestamp cursor
    = py.of_optional_float (AssetDaemonCursor.latest_evaluation_timestamp self) ∧
    ∀ key,
      AssetDaemonCursor.handled_root_partitions_by_asset_key cursor !! key
      = AssetDaemonCursor.handled_root_partitions_by_asset_key self !! key
          ≫= handled_partitions_read_back asset_graph key.
Proof.
  intros Hkeys Hevaluations.
  unfold AssetDaemonCursor.from_serialized, AssetDaemonCursor.serialize.
  rewrite (dict_of_NoDup _
             (serialized_items_NoDup (λ subset, JStr (Partitions.serialize subset)) _ Hkeys)).
  rewrite (dict_of_NoDup _ (serialized_items_NoDup JFloat _ Hkeys)).
  rewrite (dict_of_NoDup _
             (serialized_items_NoDup
                (λ evaluation,
                   JStr (AutoMaterializeAssetEvaluation.serialize_value evaluation))
                _ Hkeys)).
  change (AssetDaemonCursor.read_wire (JDict ?d))
    with (AssetDaemonCursor.read_wire (JDict d)).
  cbn [AssetDaemonCursor.read_wire py.getitem py.get py.dict_lookup String.eqb
       Ascii.eqb Bool.eqb from_option id mbind result_bind].
  unfold AssetDaemonCursor.build.
  cbn [AssetDaemonCursor.serialized_handled_root_partitions_by_asset_key
       AssetDaemonCursor.serialized_latest_evaluation_by_asset_key
       AssetDaemonCursor.serialized_handled_root_asset_keys
       AssetDaemonCursor.serialized_last_observe_request_timestamp_by_asset_key
       AssetDaemonCursor.w_latest_storage_id AssetDaemonCursor.w_evaluation_id
       AssetDaemonCursor.w_latest_evaluation_timestamp py.items py.iter].
  rewrite !bind_Ok.
  rewrite read_evaluations_serialized by done. rewrite !bind_Ok.
  rewrite read_asset_keys_serialized by done. rewrite !bind_Ok.
  rewrite handled_root_partitions_serialized by done.
  rewrite (foldl_fmap_steps _ (λ d x, <[ x.1 := JFloat x.2 ]> d)).
  2:{ intros acc [key timestamp] _. cbn [fst snd]. by rewrite Hkeys. }
  rewrite !assignments_map_to_list, !map_fmap_id.
  rewrite (right_id_L ∅ (∪)), list_to_set_elements_L.
  eexists. split; [reflexivity|].
  cbn [AssetDaemonCursor.latest_storage_id AssetDaemonCursor.handled_root_asset_keys
       AssetDaemonCursor.evaluation_id
       AssetDaemonCursor.last_observe_request_timestamp_by_asset_key
       AssetDaemonCursor.latest_evaluation_by_asset_key
       AssetDaemonCursor.latest_evaluation_timestamp
       AssetDaemonCursor.handled_root_partitions_by_asset_key].
  do 6 (split; [reflexivity|]).
  intros key. apply lookup_read_back.
Qed.
End Writing.

(** The sample cursor that has handled the window at instant 65 of the daily
    asset is read back against the graph without assets. *)
Lemma from_serialized_serialize_any_graph_witness :
  ∃ cursor,
    AssetDaemonCursor.from_serialized
      (AssetDaemonCursor.serialize (Sample.handled_windows "A")) Sample.no_assets
    = Ok cursor ∧
    AssetDaemonCursor.handled_root_asset_keys cursor = {[ "a" ]} ∧
    AssetDaemonCursor.handled_root_partitions_by_asset_key cursor !! "d" = None.
Proof.
  destruct (from_serialized_serialize_any_graph Sample.no_assets (Sample.handled_windows "A"))
    as (cursor & Hcursor & _ & Hkeys & _ & _ & _ & _ & Hpartitions).
  - by intros key.
  - by intros [key []].
  - exists cursor. split; [exact Hcursor|]. split; [exact Hkeys|].
    rewrite Hpartitions. unfold Sample.handled_windows.
    cbn [AssetDaemonCursor.handled_root_partitions_by_asset_key].
    rewrite lookup_singleton_eq. reflexivity.
Defined.

(** * The legacy wrapper *)

Section Wrapper.
Context {DT : datetime.Interface} {AK : AssetKey.Interface}
        {PT : Partitions.Interface}
        {EV : AutoMaterializeAssetEvaluation.Interface}
        {CD : LegacyAssetDaemonCursorWrapper.Codec}.

(** X17.  A wrapper is compressed without an error and read back from its
    compressed form as it was, so that the cursor it gives is the one of its
    serialized cursor; base64, zlib and the utf-8 codec undo their encoders,
    and the wrapper reads back from its own serialized value. *)
Theorem from_compressed_to_compressed (wrapper : LegacyAssetDaemonCursorWrapper.t)
    (asset_graph : AssetGraph.t) :
  LegacyAssetDaemonCursorWrapper.codec_round_trip →
  LegacyAssetDaemonCursorWrapper.deserialize_value
    (LegacyAssetDaemonCursorWrapper.serialize_value wrapper) = Ok wrapper →
  ∃ compressed,
    LegacyAssetDaemonCursorWrapper.to_compressed wrapper = Ok compressed ∧
    LegacyAssetDaemonCursorWrapper.from_compressed compressed = Ok wrapper ∧
    (reloaded ← LegacyAssetDaemonCursorWrapper.from_compressed compressed;
     LegacyAssetDaemonCursorWrapper.get_asset_daemon_cursor reloaded asset_graph)
    = AssetDaemonCursor.from_serialized
        (LegacyAssetDaemonCursorWrapper.serialized_cursor wrapper) asset_graph.
Proof.
  intros [Hdecode Hdecompress Hascii Hb64] Hvalue.
  unfold LegacyAssetDaemonCursorWrapper.to_compressed.
  destruct (Hascii (LegacyAssetDaemonCursorWrapper.compress
                      (LegacyAssetDaemonCursorWrapper.encode
                         (LegacyAssetDaemonCursorWrapper.serialize_value wrapper))))
    as [compressed Hcompressed].
  exists compressed. split; [exact Hcompressed|].
  assert (LegacyAssetDaemonCursorWrapper.from_compressed compressed = Ok wrapper) as Hback.
  { unfold LegacyAssetDaemonCursorWrapper.from_compressed.
    rewrite (Hb64 _ _ Hcompressed), bind_Ok, Hdecompress, bind_Ok, Hdecode, bind_Ok.
    exact Hvalue. }
  split; [exact Hback|]. by rewrite Hback, bind_Ok.
Qed.
End Wrapper.

(** The wrapper of the legacy list [[2, [], {}]], with the sample codec. *)
Lemma from_compressed_to_compressed_witness :
  ∃ compressed,
    LegacyAssetDaemonCursorWrapper.to_compressed (Sample.wrapper_of_text "ii")
    = Ok compressed ∧
    LegacyAssetDaemonCursorWrapper.from_compressed compressed
    = Ok (Sample.wrapper_of_text "ii") ∧
    (reloaded ← LegacyAssetDaemonCursorWrapper.from_compressed compressed;
     LegacyAssetDaemonCursorWrapper.get_asset_daemon_cursor reloaded Sample.graph)
    = AssetDaemonCursor.from_serialized
        (LegacyAssetDaemonCursorWrapper.serialized_cursor (Sample.wrapper_of_text "ii"))
        Sample.graph.
Proof.
  apply from_compressed_to_compressed.
  - split; try done. intros b. by exists b.
  - reflexivity.
Defined.
